(** * GlobaLeaks backend: authentication, API cache, utilities, shutdown

    A shallow embedding of the parts of the GlobaLeaks backend that its
    specification makes checkable statements about:

    - [globaleaks/handlers/authentication.py]: the login delay policy, the
      staff and whistleblower login transactions, the login handlers,
      the tenant switch;
    - [globaleaks/rest/apicache.py]: the three-level response cache and
      the two decorators around the handlers;
    - [globaleaks/utils/utility.py]: [bytes_to_pretty_str],
      [parse_csv_ip_ranges_to_ip_networks], [sum_dicts], [msdos_encode],
      [iso_year_start] and [iso_to_gregorian];
    - [globaleaks/backend.py]: [Service.shutdown] with its stop
      collection and one-shot finalize step.

    Part I holds the embedding, Part II the properties the
    specification states, Part III further properties of the code.

    The semantics taken is that of Python 3.  Python integers are
    unbounded and are modelled by [Z]; Python exceptions are modelled by
    the [Raise] constructor of [result]; the
    process-wide mutable objects ([Settings.failed_login_attempts], the
    cache dictionary, the [_shutdown] flag) are threaded explicitly. *)

From Stdlib Require Import ZArith Lia Bool List String Ascii.
From stdpp Require Import base option list gmap strings pretty.

Import ListNotations.
Local Open Scope Z_scope.

(** * Part I: the embedding *)

(** ** Python results *)

(** The exceptions the modelled code can raise.  The first group are
    Python's own, the second SQLAlchemy's ([Query.one]), the third the
    structured errors of [globaleaks.rest.errors]. *)
Inductive exn : Type :=
| ValueError
| KeyError
| OverflowError
| ZeroDivisionError
| UnicodeEncodeError
| UnboundLocalError (name : string)
| NoResultFound
| MultipleResultsFound
| InvalidAuthentication
| TorNetworkRequired
| AccessLocationInvalid
| InputValidationError (msg : string).

Inductive result (A : Type) : Type :=
| Return (a : A)
| Raise (e : exn).

Arguments Return {A} a.
Arguments Raise {A} e.

#[global] Instance result_ret : MRet result := fun _ a => Return a.

#[global] Instance result_bind : MBind result := fun _ _ k r =>
  match r with
  | Return a => k a
  | Raise e => Raise e
  end.

(** ** [random.SystemRandom] *)

Module random.

(** [randint a b] is [randrange a (b + 1)]: with [width = b + 1 - a] it
    returns [a + _randbelow width] when the range is not empty and raises
    [ValueError] otherwise.  The entropy source [_randbelow] is a
    parameter; the library promises [0 <= _randbelow n < n] for [0 < n]. *)
Definition randint (randbelow : Z -> Z) (a b : Z) : result Z :=
  let width := b + 1 - a in
  if 0 <? width then Return (a + randbelow width) else Raise ValueError.

End random.

(** ** Python text and bytes *)

(** A [bytes] object is a list of octets, a Python 3 [str] a list of code
    points. *)
Abbreviation bytes := (list Z) (only parsing).
Abbreviation text := (list Z) (only parsing).

(** [str.encode()] with the default codec of Python 3, UTF-8 in strict
    mode: surrogates (and anything that is not a code point) raise
    [UnicodeEncodeError]. *)
Definition utf8_encode_char (c : Z) : option bytes :=
  if c <? 0 then None
  else if c <? 0x80 then Some [c]
  else if c <? 0x800 then
    Some [Z.lor 0xC0 (Z.shiftr c 6); Z.lor 0x80 (Z.land c 0x3F)]
  else if c <? 0x10000 then
    if (0xD800 <=? c) && (c <=? 0xDFFF) then None
    else Some [Z.lor 0xE0 (Z.shiftr c 12);
               Z.lor 0x80 (Z.land (Z.shiftr c 6) 0x3F);
               Z.lor 0x80 (Z.land c 0x3F)]
  else if c <? 0x110000 then
    Some [Z.lor 0xF0 (Z.shiftr c 18);
          Z.lor 0x80 (Z.land (Z.shiftr c 12) 0x3F);
          Z.lor 0x80 (Z.land (Z.shiftr c 6) 0x3F);
          Z.lor 0x80 (Z.land c 0x3F)]
  else None.

Fixpoint str_encode (s : text) : result bytes :=
  match s with
  | [] => Return []
  | c :: s' =>
      match utf8_encode_char c with
      | None => Raise UnicodeEncodeError
      | Some bs => rest ← str_encode s'; Return (bs ++ rest)
      end
  end.

(** The Unicode scalar values: the code points from 0 to 0x10FFFF that
    are not surrogates.  A Python 3 [str] may hold lone surrogates, which
    are code points but not scalar values. *)
Definition is_scalar_value (c : Z) : bool :=
  (0 <=? c) && (c <? 0x110000) && negb ((0xD800 <=? c) && (c <=? 0xDFFF)).

Definition is_continuation (b : Z) : bool := (0x80 <=? b) && (b <? 0xC0).

(** What the specification means by the UTF-8 encoding of a text, given
    from the reader's side and not taken from [str_encode]: the strict
    reading of a byte string as UTF-8 (RFC 3629, [bytes.decode()] of
    Python 3).  One to four bytes make a code point; a stray or missing
    continuation byte, an encoding longer than needed, a surrogate and a
    value above 0x10FFFF are refused.  A byte string is the UTF-8
    encoding of a text exactly when it reads back as that text. *)
Fixpoint spec_utf8_decode (bs : bytes) : option text :=
  match bs with
  | [] => Some []
  | b0 :: r0 =>
      if (0 <=? b0) && (b0 <? 0x80) then
        cons b0 <$> spec_utf8_decode r0
      else if (0xC0 <=? b0) && (b0 <? 0xE0) then
        match r0 with
        | b1 :: r1 =>
            let c := (b0 - 0xC0) * 64 + (b1 - 0x80) in
            if is_continuation b1 && (0x80 <=? c)
            then cons c <$> spec_utf8_decode r1
            else None
        | _ => None
        end
      else if (0xE0 <=? b0) && (b0 <? 0xF0) then
        match r0 with
        | b1 :: b2 :: r2 =>
            let c := (b0 - 0xE0) * 4096 + (b1 - 0x80) * 64 + (b2 - 0x80) in
            if is_continuation b1 && is_continuation b2
               && (0x800 <=? c) && negb ((0xD800 <=? c) && (c <=? 0xDFFF))
            then cons c <$> spec_utf8_decode r2
            else None
        | _ => None
        end
      else if (0xF0 <=? b0) && (b0 <? 0xF8) then
        match r0 with
        | b1 :: b2 :: b3 :: r3 =>
            let c := (b0 - 0xF0) * 262144 + (b1 - 0x80) * 4096
                     + (b2 - 0x80) * 64 + (b3 - 0x80) in
            if is_continuation b1 && is_continuation b2 && is_continuation b3
               && (0x10000 <=? c) && (c <? 0x110000)
            then cons c <$> spec_utf8_decode r3
            else None
        | _ => None
        end
      else None
  end.

(** ** Python strings *)

(** [s.split(sep)] for a one-character separator: always at least one
    piece, empty pieces are kept. *)
Fixpoint split (sep : ascii) (s : string) : list string :=
  match s with
  | EmptyString => [EmptyString]
  | String c s' =>
      if Ascii.eqb c sep then EmptyString :: split sep s'
      else match split sep s' with
           | piece :: pieces => String c piece :: pieces
           | [] => [String c EmptyString]
           end
  end.

(** [c in s] for a character [c]. *)
Fixpoint contains (c : ascii) (s : string) : bool :=
  match s with
  | EmptyString => false
  | String c' s' => Ascii.eqb c' c || contains c s'
  end.

Definition is_ascii_digit (c : ascii) : bool :=
  (48 <=? Z.of_N (N_of_ascii c)) && (Z.of_N (N_of_ascii c) <=? 57).

(** [s.isascii() and s.isdigit()]; false on the empty string. *)
Definition isascii_isdigit (s : string) : bool :=
  negb (String.eqb s "") && forallb is_ascii_digit (list_ascii_of_string s).

(** [int(s)] on a string of ASCII digits. *)
Definition int_of_digits (s : string) : Z :=
  fold_left (fun acc c => acc * 10 + (Z.of_N (N_of_ascii c) - 48))
    (list_ascii_of_string s) 0.

(** ** The standard library module [ipaddress]

    Addresses and networks are kept as the integers the library keeps.
    The textual form of IPv4 is modelled in full (dotted quads, a prefix
    length or a dotted net or host mask after the slash); the textual
    form of IPv6 addresses is the parameter [ipv6_int_from_string]. *)

Module ipaddress.

Inductive IPAddress : Type :=
| IPv4Address (ip : Z)
| IPv6Address (ip : Z).

Definition version (a : IPAddress) : Z :=
  match a with IPv4Address _ => 4 | IPv6Address _ => 6 end.

Definition ip_int (a : IPAddress) : Z :=
  match a with IPv4Address ip | IPv6Address ip => ip end.

Definition max_prefixlen (a : IPAddress) : Z :=
  match a with IPv4Address _ => 32 | IPv6Address _ => 128 end.

Record IPNetwork : Type := {
  network_address : IPAddress;
  prefixlen : Z
}.

Definition all_ones (maxlen : Z) : Z := 2 ^ maxlen - 1.

(** [_ip_int_from_prefix]. *)
Definition ip_int_from_prefix (maxlen prefixlen : Z) : Z :=
  Z.lxor (all_ones maxlen) (Z.shiftr (all_ones maxlen) prefixlen).

Definition netmask (n : IPNetwork) : Z :=
  ip_int_from_prefix (max_prefixlen (network_address n)) (prefixlen n).

(** [a in n], the [__contains__] of a network applied to an address. *)
Definition network_contains (n : IPNetwork) (a : IPAddress) : bool :=
  if negb (version (network_address n) =? version a) then false
  else Z.land (ip_int a) (netmask n) =? ip_int (network_address n).

(** [a.is_loopback]: inside 127.0.0.0/8 for IPv4, equal to ::1 for IPv6. *)
Definition is_loopback (a : IPAddress) : bool :=
  match a with
  | IPv4Address _ =>
      network_contains
        {| network_address := IPv4Address 2130706432; prefixlen := 8 |} a
  | IPv6Address ip => ip =? 1
  end.

(** [_parse_octet]: one to three ASCII digits, no leading zero, at most
    255. *)
Definition parse_octet (octet_str : string) : option Z :=
  if String.eqb octet_str "" then None
  else if negb (isascii_isdigit octet_str) then None
  else if 3 <? Z.of_nat (String.length octet_str) then None
  else if negb (String.eqb octet_str "0")
          && (match octet_str with
              | String c _ => Ascii.eqb c "0"
              | EmptyString => false
              end) then None
  else
    let octet_int := int_of_digits octet_str in
    if 255 <? octet_int then None else Some octet_int.

Fixpoint parse_octets (octets : list string) : option (list Z) :=
  match octets with
  | [] => Some []
  | o :: os =>
      match parse_octet o, parse_octets os with
      | Some b, Some bs => Some (b :: bs)
      | _, _ => None
      end
  end.

(** [int.from_bytes(bs, 'big')]. *)
Definition from_bytes_big (bs : list Z) : Z :=
  fold_left (fun acc b => acc * 256 + b) bs 0.

(** [IPv4Address._ip_int_from_string]; [None] is [AddressValueError]. *)
Definition ipv4_int_from_string (ip_str : string) : option Z :=
  if String.eqb ip_str "" then None
  else
    let octets := split "." ip_str in
    if negb (length octets =? 4)%nat then None
    else from_bytes_big <$> parse_octets octets.

(** [_prefix_from_prefix_string]; [None] is [NetmaskValueError]. *)
Definition prefix_from_prefix_string (maxlen : Z) (prefixlen_str : string)
  : option Z :=
  if negb (isascii_isdigit prefixlen_str) then None
  else
    let prefixlen := int_of_digits prefixlen_str in
    if (0 <=? prefixlen) && (prefixlen <=? maxlen) then Some prefixlen
    else None.

(** [x.bit_length()] for [0 <= x]. *)
Definition bit_length (x : Z) : Z := if x =? 0 then 0 else Z.log2 x + 1.

(** [_count_righthand_zero_bits]. *)
Definition count_righthand_zero_bits (number bits : Z) : Z :=
  if number =? 0 then bits
  else Z.min bits (bit_length (Z.land (Z.lnot number) (number - 1))).

(** [_prefix_from_ip_int]; [None] is the [ValueError] for a mask that
    mixes zeroes and ones. *)
Definition prefix_from_ip_int (maxlen ip_int : Z) : option Z :=
  let trailing_zeroes := count_righthand_zero_bits ip_int maxlen in
  let prefixlen := maxlen - trailing_zeroes in
  let leading_ones := Z.shiftr ip_int trailing_zeroes in
  let ones := Z.shiftl 1 prefixlen - 1 in
  if negb (leading_ones =? ones) then None else Some prefixlen.

(** [_prefix_from_ip_string] of IPv4: a dotted netmask, else a dotted
    hostmask; [None] is [NetmaskValueError]. *)
Definition prefix_from_ip_string (ip_str : string) : option Z :=
  match ipv4_int_from_string ip_str with
  | None => None
  | Some ip_int =>
      match prefix_from_ip_int 32 ip_int with
      | Some prefixlen => Some prefixlen
      | None => prefix_from_ip_int 32 (Z.lxor ip_int (all_ones 32))
      end
  end.

(** What a network constructor does with a string. *)
Inductive network_result : Type :=
| Network (n : IPNetwork)
| AddressOrNetmaskValueError
| HostBitsSet.

(** The host-bit test shared by both network classes. *)
Definition check_host_bits (strict : bool) (n : IPNetwork) : network_result :=
  let packed := ip_int (network_address n) in
  if negb (Z.land packed (netmask n) =? packed) then
    if strict then HostBitsSet
    else
      Network {| network_address :=
                   match network_address n with
                   | IPv4Address _ => IPv4Address (Z.land packed (netmask n))
                   | IPv6Address _ => IPv6Address (Z.land packed (netmask n))
                   end;
                 prefixlen := prefixlen n |}
  else Network n.

(** [IPv4Network(address, strict)] on a string. *)
Definition IPv4Network (address : string) (strict : bool) : network_result :=
  match split "/" address with
  | [addr] =>
      match ipv4_int_from_string addr with
      | None => AddressOrNetmaskValueError
      | Some ip =>
          check_host_bits strict
            {| network_address := IPv4Address ip; prefixlen := 32 |}
      end
  | [addr; mask] =>
      match ipv4_int_from_string addr with
      | None => AddressOrNetmaskValueError
      | Some ip =>
          match match prefix_from_prefix_string 32 mask with
                | Some prefixlen => Some prefixlen
                | None => prefix_from_ip_string mask
                end with
          | None => AddressOrNetmaskValueError
          | Some prefixlen =>
              check_host_bits strict
                {| network_address := IPv4Address ip; prefixlen := prefixlen |}
          end
      end
  | _ => AddressOrNetmaskValueError
  end.

(** [IPv6Network(address, strict)] on a string. *)
Definition IPv6Network (ipv6_int_from_string : string -> option Z)
    (address : string) (strict : bool) : network_result :=
  match split "/" address with
  | [addr] =>
      match ipv6_int_from_string addr with
      | None => AddressOrNetmaskValueError
      | Some ip =>
          check_host_bits strict
            {| network_address := IPv6Address ip; prefixlen := 128 |}
      end
  | [addr; mask] =>
      match ipv6_int_from_string addr with
      | None => AddressOrNetmaskValueError
      | Some ip =>
          match prefix_from_prefix_string 128 mask with
          | None => AddressOrNetmaskValueError
          | Some prefixlen =>
              check_host_bits strict
                {| network_address := IPv6Address ip; prefixlen := prefixlen |}
          end
      end
  | _ => AddressOrNetmaskValueError
  end.

(** [ipaddress.ip_address]: IPv4 first, then IPv6, else [ValueError]. *)
Definition ip_address (ipv6_int_from_string : string -> option Z)
    (address : string) : result IPAddress :=
  match ipv4_int_from_string address with
  | Some ip => Return (IPv4Address ip)
  | None =>
      match ipv6_int_from_string address with
      | Some ip => Return (IPv6Address ip)
      | None => Raise ValueError
      end
  end.

(** [ipaddress.ip_network]: the two address errors of the IPv4 class are
    caught and IPv6 is tried; the host-bit [ValueError] is not caught. *)
Definition ip_network (ipv6_int_from_string : string -> option Z)
    (address : string) (strict : bool) : result IPNetwork :=
  match IPv4Network address strict with
  | Network n => Return n
  | HostBitsSet => Raise ValueError
  | AddressOrNetmaskValueError =>
      match IPv6Network ipv6_int_from_string address strict with
      | Network n => Return n
      | HostBitsSet => Raise ValueError
      | AddressOrNetmaskValueError => Raise ValueError
      end
  end.

(** A network as the constructors build it in strict mode: the prefix
    length within the address size, the address within its range and
    without host bits. *)
Definition canonical (n : IPNetwork) : Prop :=
  0 <= prefixlen n <= max_prefixlen (network_address n)
  /\ 0 <= ip_int (network_address n) < 2 ^ max_prefixlen (network_address n)
  /\ Z.land (ip_int (network_address n)) (netmask n)
     = ip_int (network_address n).

End ipaddress.

(** ** Python 3 numbers: [int / int] and [int(float)] *)

(** A finite binary64 value is kept as the pair [(m, e)] that stands for
    [m * 2 ^ e]. *)
Definition float : Type := Z * Z.

(** The integer part of the binary logarithm of [a / d], for positive
    [a] and [d]. *)
Definition floor_log2_quot (a d : Z) : Z :=
  let p := Z.log2 a - Z.log2 d in
  if (if 0 <=? p then d * 2 ^ p <=? a else d <=? a * 2 ^ (- p))
  then p else p - 1.

(** The integer nearest to [num / den], ties going to the even one. *)
Definition round_half_even (num den : Z) : Z :=
  let q := num / den in
  let r := num mod den in
  if 2 * r <? den then q
  else if den <? 2 * r then q + 1
  else if Z.even q then q else q + 1.

(** True division of positive integers: the binary64 value nearest to
    the exact quotient (53 significant bits, least exponent -1074, ties
    to even), as CPython computes it; [OverflowError] when that value
    would not be finite. *)
Definition truediv_pos (a d : Z) : result float :=
  let e := Z.max (floor_log2_quot a d - 52) (-1074) in
  let m := if 0 <=? e then round_half_even a (d * 2 ^ e)
           else round_half_even (a * 2 ^ (- e)) d in
  if (0 <=? e) && (2 ^ 1024 <=? m * 2 ^ e) then Raise OverflowError
  else Return (m, e).

(** [a / d] on integers. *)
Definition truediv (a d : Z) : result float :=
  if d =? 0 then Raise ZeroDivisionError
  else if a =? 0 then Return (0, 0)
  else
    f ← truediv_pos (Z.abs a) (Z.abs d);
    Return (Z.sgn a * Z.sgn d * fst f, snd f).

(** [int(x)] on a finite float: truncation toward zero. *)
Definition int_of_float (f : float) : Z :=
  let (m, e) := f in
  if 0 <=? e then m * 2 ^ e else Z.quot m (2 ^ (- e)).

(** ** utils/utility.py: [bytes_to_pretty_str] and
       [parse_csv_ip_ranges_to_ip_networks] *)

Module utility.

Import ipaddress.

(** The argument is a [str] or an [int]. *)
Inductive arg : Type :=
| ArgStr (s : string)
| ArgInt (n : Z).

(** ["%d" % n ++ label]. *)
Definition format_d (n : Z) (label : string) : string := pretty n +:+ label.

(** [bytes_to_pretty_str].  The built-in [int] applied to a string is
    the parameter [int_of_str]; it raises [ValueError] on what is not a
    number. *)
Definition bytes_to_pretty_str (int_of_str : string -> result Z) (b : arg)
  : result string :=
  b ← match b with
      | ArgStr s => int_of_str s
      | ArgInt n => Return n
      end;
  if 1000000000 <=? b then
    q ← truediv b 1000000000; Return (format_d (int_of_float q) "GB")
  else if 1000000 <=? b then
    q ← truediv b 1000000; Return (format_d (int_of_float q) "MB")
  else
    q ← truediv b 1000; Return (format_d (int_of_float q) "KB").

(** The integer the argument stands for: itself, or what [int] reads
    from the string. *)
Definition denotes (int_of_str : string -> result Z) (b : arg) (n : Z) : Prop :=
  b = ArgInt n \/ exists s, b = ArgStr s /\ int_of_str s = Return n.

(** The body of the [try] block for one piece of the list. *)
Definition parse_ip_network_str (ipv6_int_from_string : string -> option Z)
    (ip_network_str : string) : result IPNetwork :=
  if contains "/" ip_network_str then
    ip_network ipv6_int_from_string ip_network_str true
  else
    ip_addr_obj ← ip_address ipv6_int_from_string ip_network_str;
    let cidr_len := max_prefixlen ip_addr_obj in
    ip_network ipv6_int_from_string
      (ip_network_str +:+ "/" +:+ pretty cidr_len) true.

(** The [for] loop: [ip_network_list] is the list built so far;
    [ValueError] is turned into [InputValidationError] with the piece in
    its message. *)
Fixpoint parse_loop (ipv6_int_from_string : string -> option Z)
    (pieces : list string) (ip_network_list : list IPNetwork)
  : result (list IPNetwork) :=
  match pieces with
  | [] => Return ip_network_list
  | ip_network_str :: pieces' =>
      match parse_ip_network_str ipv6_int_from_string ip_network_str with
      | Return ip_net_obj =>
          parse_loop ipv6_int_from_string pieces'
            (ip_network_list ++ [ip_net_obj])
      | Raise ValueError =>
          Raise (InputValidationError
                   ("Unable to parse IP address: " +:+ ip_network_str))
      | Raise e => Raise e
      end
  end.

Definition parse_csv_ip_ranges_to_ip_networks
    (ipv6_int_from_string : string -> option Z) (ip_str : string)
  : result (list IPNetwork) :=
  parse_loop ipv6_int_from_string (split "," ip_str) [].

(** What the specification says of one entry, in its words: an entry
    with a slash is the strict CIDR network it denotes, a bare address
    is its host network (/32 or /128), anything else is unparseable. *)
Definition spec_entry_network (ipv6_int_from_string : string -> option Z)
    (entry : string) : option IPNetwork :=
  if contains "/" entry then
    match ip_network ipv6_int_from_string entry true with
    | Return n => Some n
    | Raise _ => None
    end
  else
    match ip_address ipv6_int_from_string entry with
    | Return a => Some {| network_address := a; prefixlen := max_prefixlen a |}
    | Raise _ => None
    end.

(** [sum_dicts]: every item of every dictionary is assigned into [ret],
    in the order of the arguments. *)
Definition sum_dicts `{Countable K} {V : Type} (dicts : list (gmap K V))
  : gmap K V :=
  fold_left
    (fun ret d => map_fold (fun k v ret => <[k := v]> ret) ret d)
    dicts ∅.

Definition CR : ascii := "013"%char.
Definition LF : ascii := "010"%char.

(** [msdos_encode]: [re.sub(r'(\r\n)|(\n)', '\r\n', s)].  The scan goes
    from left to right; at each place a carriage return followed by a
    line feed is tried first, then a line feed alone; each match is
    replaced by carriage return and line feed. *)
Fixpoint msdos_encode (s : string) : string :=
  match s with
  | EmptyString => EmptyString
  | String c s' =>
      if Ascii.eqb c CR then
        match s' with
        | String c' s'' =>
            if Ascii.eqb c' LF
            then String CR (String LF (msdos_encode s''))
            else String c (msdos_encode s')
        | EmptyString => String c (msdos_encode s')
        end
      else if Ascii.eqb c LF then String CR (String LF (msdos_encode s'))
      else String c (msdos_encode s')
  end.

(** Whether every line feed of the string follows a carriage return
    that is its own. *)
Fixpoint crlf_only (s : string) : bool :=
  match s with
  | EmptyString => true
  | String c s' =>
      if Ascii.eqb c CR then
        match s' with
        | String c' s'' => if Ascii.eqb c' LF then crlf_only s'' else crlf_only s'
        | EmptyString => true
        end
      else if Ascii.eqb c LF then false
      else crlf_only s'
  end.

(** A [datetime] at midnight is kept as the ordinal of its day, 1 being
    the first of January of year 1 and 3652059 the last day of year
    9999, as [toordinal] numbers them. *)
Definition days_before_year (year : Z) : Z :=
  let y := year - 1 in
  y * 365 + y / 4 - y / 100 + y / 400.

(** [d.isoweekday()]: Monday is 1, Sunday 7. *)
Definition isoweekday (ordinal : Z) : Z :=
  if ordinal mod 7 =? 0 then 7 else ordinal mod 7.

(** [iso_year_start] for an integer year.  The year is formatted into
    ['{0}-01-04'] and read back by [strptime] with ['%Y-%m-%d'], which
    takes exactly four digits for the year: years outside 1000..9999
    raise [ValueError]. *)
Definition iso_year_start (iso_year : Z) : result Z :=
  if (1000 <=? iso_year) && (iso_year <=? 9999) then
    let fourth_jan := days_before_year iso_year + 4 in
    let delta := isoweekday fourth_jan - 1 in
    Return (fourth_jan - delta)
  else Raise ValueError.

(** [iso_to_gregorian] for integers: the [timedelta] must stay within
    999999999 days and the sum within the range of dates, else
    [OverflowError]. *)
Definition iso_to_gregorian (iso_year iso_week iso_day : Z) : result Z :=
  year_start ← iso_year_start iso_year;
  let days := iso_day - 1 + 7 * (iso_week - 1) in
  if 999999999 <? Z.abs days then Raise OverflowError
  else if (1 <=? year_start + days) && (year_start + days <=? 3652059)
  then Return (year_start + days)
  else Raise OverflowError.

(** The Monday of the first ISO week of a year as Python's [datetime]
    module defines it for [isocalendar] ([_isoweek1monday]): the week
    that holds the first Thursday. *)
Definition isoweek1monday (year : Z) : Z :=
  let firstday := days_before_year year + 1 in
  let firstweekday := (firstday + 6) mod 7 in
  let week1monday := firstday - firstweekday in
  if 3 <? firstweekday then week1monday + 7 else week1monday.

End utility.

(** ** rest/apicache.py *)

Module apicache.

(** The [data] argument of [ApiCache.set]: a text or a byte string. *)
Inductive data : Type :=
| Text (s : text)
| Bytes (b : bytes).

(** The first statement of [gzipdata]: a text is encoded, bytes are kept. *)
Definition encode_if_text (d : data) : result bytes :=
  match d with
  | Text s => str_encode s
  | Bytes b => Return b
  end.

(** The data without a lone surrogate: every byte string, and the texts
    of Unicode scalar values. *)
Definition encodable (d : data) : bool :=
  match d with
  | Text s => forallb is_scalar_value s
  | Bytes _ => true
  end.

(** The specification's "original data bytes (text inputs being UTF-8
    encoded first)": a byte string stands for itself, a text for the
    byte string that reads back as it. *)
Definition spec_data_bytes (d : data) (raw : bytes) : Prop :=
  match d with
  | Text s => spec_utf8_decode raw = Some s
  | Bytes b => raw = b
  end.

(** [gzipdata].  The gzip writer is the parameter [compress]: it is given
    the modification time that [GzipFile] stamps into the header (the
    clock reading [mtime]) and the bytes written. *)
Definition gzipdata (compress : Z -> bytes -> bytes) (mtime : Z) (d : data)
  : result bytes :=
  raw ← encode_if_text d;
  Return (compress mtime raw).

(** A cache entry is the pair [(content_type, gzipped body)];
    [memory_cache_dict] maps tenant id, then resource, then language to
    it. *)
Definition entry : Type := string * bytes.

Abbreviation memory_cache_dict := (gmap Z (gmap string (gmap string entry)))
  (only parsing).

(** [ApiCache.get]: the entry, or [None] when one of the three keys is
    missing. *)
Definition get (c : memory_cache_dict) (tid : Z) (resource language : string)
  : option entry :=
  match c !! tid with
  | Some by_resource =>
      match by_resource !! resource with
      | Some by_language => by_language !! language
      | None => None
      end
  | None => None
  end.

(** [d[k1][k2] = v] and [d[k1][k2][k3] = v] on nested dictionaries; the
    subscripts that are read raise [KeyError] when missing. *)
Definition setitem2 {V} (c : gmap Z (gmap string V)) (k1 : Z) (k2 : string)
    (v : V) : result (gmap Z (gmap string V)) :=
  match c !! k1 with
  | Some m => Return (<[k1 := <[k2 := v]> m]> c)
  | None => Raise KeyError
  end.

Definition setitem3 (c : memory_cache_dict) (k1 : Z) (k2 k3 : string)
    (v : entry) : result memory_cache_dict :=
  match c !! k1 with
  | Some m =>
      match m !! k2 with
      | Some m' => Return (<[k1 := <[k2 := <[k3 := v]> m']> m]> c)
      | None => Raise KeyError
      end
  | None => Raise KeyError
  end.

(** [ApiCache.set]: the dictionary after the call and the value returned
    (or the exception raised).  Compression comes first, so a failing
    call leaves the dictionary as it was. *)
Definition set (compress : Z -> bytes -> bytes) (mtime : Z)
    (c : memory_cache_dict) (tid : Z) (resource language : string)
    (content_type : string) (d : data)
  : memory_cache_dict * result entry :=
  match gzipdata compress mtime d with
  | Raise e => (c, Raise e)
  | Return gz =>
      let c1 := match c !! tid with
                | None => <[tid := ∅]> c
                | Some _ => c
                end in
      let c2 := match c1 !! tid with
                | Some m =>
                    match m !! resource with
                    | None => setitem2 c1 tid resource ∅
                    | Some _ => Return c1
                    end
                | None => Raise KeyError
                end in
      match c2 with
      | Raise e => (c1, Raise e)
      | Return c2 =>
          let entry := (content_type, gz) in
          match setitem3 c2 tid resource language entry with
          | Raise e => (c2, Raise e)
          | Return c3 => (c3, Return entry)
          end
      end
  end.

(** [ApiCache.invalidate]: [pop(tid, None)] for a tenant, [clear()]
    without one. *)
Definition invalidate (c : memory_cache_dict) (tid : option Z)
  : memory_cache_dict :=
  match tid with
  | Some t => delete t c
  | None => ∅
  end.

(** The calls that change the cache, and the cache after a sequence of
    them starting from the empty class attribute. *)
Inductive call : Type :=
| CallSet (mtime tid : Z) (resource language content_type : string) (d : data)
| CallInvalidate (tid : option Z).

Definition run_call (compress : Z -> bytes -> bytes)
    (c : memory_cache_dict) (k : call) : memory_cache_dict :=
  match k with
  | CallSet mtime tid resource language content_type d =>
      fst (set compress mtime c tid resource language content_type d)
  | CallInvalidate tid => invalidate c tid
  end.

Definition run_calls (compress : Z -> bytes -> bytes)
    (c : memory_cache_dict) (ks : list call) : memory_cache_dict :=
  fold_left (run_call compress) ks c.

(** Whether a call is a [set] on the given key triple. *)
Definition sets_key (tid : Z) (resource language : string) (k : call) : Prop :=
  match k with
  | CallSet _ tid' resource' language' _ _ =>
      tid' = tid /\ resource' = resource /\ language' = language
  | CallInvalidate _ => False
  end.

(** What the decorators read and write of [self.request]: the three
    keys and the response headers.  Twisted keeps header names in lower
    case, so names that differ in case only are one header; each header
    set with [setHeader] has one value. *)
Record Request : Type := {
  request_tid : Z;
  request_path : string;
  request_language : string;
  responseHeaders : gmap string string
}.

Definition lower_char (c : ascii) : ascii :=
  let n := N_of_ascii c in
  if ((65 <=? n) && (n <=? 90))%N then ascii_of_N (n + 32) else c.

(** [name.lower()] on an ASCII name. *)
Fixpoint lower (name : string) : string :=
  match name with
  | EmptyString => EmptyString
  | String c name' => String (lower_char c) (lower name')
  end.

(** [request.setHeader(name, value)]. *)
Definition setHeader (name value : string) (r : Request) : Request :=
  {| request_tid := request_tid r;
     request_path := request_path r;
     request_language := request_language r;
     responseHeaders := <[lower name := value]> (responseHeaders r) |}.

(** [request.responseHeaders.getRawHeaders(name, [default])[0]]. *)
Definition getRawHeader (name default : string) (r : Request) : string :=
  match responseHeaders r !! lower name with
  | Some value => value
  | None => default
  end.

(** What a wrapped handler returns: a [dict] or [list], kept abstract
    as a value of type [J] that [json.dumps] prints, or a text or byte
    string. *)
Inductive handler_data (J : Type) : Type :=
| JsonValue (j : J)
| Body (d : data).

Arguments JsonValue {J} j.
Arguments Body {J} d.

(** The wrapper made by [decorator_cache_get] around the handler [f],
    run on the cache [c] and the request.  The handler may set response
    headers and returns its data or raises; its deferred is taken as
    fired.  The result is the cache and the request afterwards and the
    body answered. *)
Definition decorator_cache_get {J : Type} (json_dumps : J -> text)
    (compress : Z -> bytes -> bytes) (mtime : Z)
    (f : Request -> gmap string string * result (handler_data J))
    (c : memory_cache_dict) (self_request : Request)
  : memory_cache_dict * Request * result bytes :=
  match get c (request_tid self_request) (request_path self_request)
          (request_language self_request) with
  | None =>
      let '(headers, data) := f self_request in
      let self_request :=
        {| request_tid := request_tid self_request;
           request_path := request_path self_request;
           request_language := request_language self_request;
           responseHeaders := headers |} in
      match data with
      | Raise e => (c, self_request, Raise e)
      | Return data =>
          let '(self_request, data) :=
            match data with
            | JsonValue j =>
                (setHeader "content-type" "application/json" self_request,
                 Text (json_dumps j))
            | Body d => (self_request, d)
            end in
          let self_request := setHeader "Content-encoding" "gzip" self_request in
          let content_type :=
            getRawHeader "Content-type" "application/json" self_request in
          let '(c, entry) :=
            set compress mtime c (request_tid self_request)
              (request_path self_request) (request_language self_request)
              content_type data in
          (c, self_request, entry ← entry; Return (snd entry))
      end
  | Some entry =>
      let self_request := setHeader "Content-encoding" "gzip" self_request in
      let self_request := setHeader "Content-type" (fst entry) self_request in
      (c, self_request, Return (snd entry))
  end.

(** The wrapper made by [decorator_cache_invalidate] around the handler
    [f]; [invalidate_cache] is the attribute of the handler. *)
Definition decorator_cache_invalidate {A : Type} (invalidate_cache : bool)
    (f : Request -> A) (c : memory_cache_dict) (self_request : Request)
  : memory_cache_dict * A :=
  let c :=
    if invalidate_cache && negb (request_tid self_request =? 1)
    then invalidate c (Some (request_tid self_request))
    else invalidate c None in
  (c, f self_request).

End apicache.

(** ** The data model, the tenant cache and the session store *)

(** The rows of [globaleaks.models] with the columns the login code
    reads or writes.  Times are clock readings. *)
Module User.
Record t : Type := {
  id : string;
  username : string;
  salt : string;
  password : string;
  state : string;
  role : string;
  last_login : Z;
  password_change_needed : bool
}.
End User.

Module UserTenant.
Record t : Type := {
  user_id : string;
  tenant_id : Z
}.
End UserTenant.

Module WhistleblowerTip.
Record t : Type := {
  id : string;
  tid : Z;
  receipt_hash : string
}.
End WhistleblowerTip.

Module InternalTip.
Record t : Type := {
  id : string;
  tid : Z;
  wb_last_access : Z
}.
End InternalTip.

(** The tables a database session sees. *)
Record Store : Type := {
  users : list User.t;
  usertenants : list UserTenant.t;
  whistleblowertips : list WhistleblowerTip.t;
  internaltips : list InternalTip.t
}.

(** One entry of [State.tenant_cache].  The per-role reachability flags
    are read with a computed key (['https_' + role]) and are kept in a
    dictionary under their full keys. *)
Record TenantState : Type := {
  receipt_salt : string;
  hostname : string;
  https : gmap string bool;
  ip_filter_authenticated_enable : bool;
  ip_filter_authenticated : string
}.

(** [d[k]]: [KeyError] when the key is missing. *)
Definition getitem `{Countable K} {V} (d : gmap K V) (k : K) : result V :=
  match d !! k with
  | Some v => Return v
  | None => Raise KeyError
  end.

Module Sessions.

Record Session : Type := {
  id : string;
  tid : Z;
  user_id : string;
  user_role : string;
  pcn : bool
}.

(** Modelled from the spec: [Sessions.new] of [globaleaks/sessions.py],
    which is not among the sources; the specification has it create a
    session for the tenant, subject, role and password-change flag under
    a fresh random token, register it and return it.  The token drawn is
    the argument [token]. *)
Definition new (store : gmap string Session) (token : string) (tid : Z)
    (user_id user_role : string) (pcn : bool)
  : gmap string Session * Session :=
  let session := {| id := token; tid := tid; user_id := user_id;
                    user_role := user_role; pcn := pcn |} in
  (<[token := session]> store, session).

(** Modelled from the spec: [Sessions.get] of [globaleaks/sessions.py],
    which is not among the sources; the specification has it return the
    session registered under the token, or an absent result. *)
Definition get (store : gmap string Session) (token : string)
  : option Session :=
  store !! token.

(** Modelled from the spec: [Sessions.regenerate] of
    [globaleaks/sessions.py], which is not among the sources; the
    specification has it replace the token of a session by a new one,
    keep the other attributes, and return the updated session.  The new
    token drawn is the argument [token]. *)
Definition regenerate (store : gmap string Session) (token : string)
    (session_id : string) : gmap string Session * result Session :=
  match store !! session_id with
  | Some session =>
      let session := {| id := token; tid := tid session;
                        user_id := user_id session;
                        user_role := user_role session;
                        pcn := pcn session |} in
      (<[token := session]> (delete session_id store), Return session)
  | None => (store, Raise KeyError)
  end.

End Sessions.

(** The mutable state the login code touches: the database, the
    process-wide counter [Settings.failed_login_attempts] and the
    session store. *)
Record World : Type := {
  db : Store;
  failed_login_attempts : Z;
  sessions : gmap string Sessions.Session
}.

(** [Query.one()] of SQLAlchemy: the only row, or an exception. *)
Definition one {A} (rows : list A) : result A :=
  match rows with
  | [] => Raise NoResultFound
  | [row] => Return row
  | _ :: _ :: _ => Raise MultipleResultsFound
  end.

(** [x is not None], a Python reference being [Some] object or [None]. *)
Definition is_not_None {A} (x : option A) : bool :=
  match x with Some _ => true | None => false end.

(** ** handlers/authentication.py *)

Module authentication.

Import ipaddress.

(** [failed_attempts] is the value read from
    [Settings.failed_login_attempts]. *)
Definition random_login_delay (randbelow : Z -> Z) (failed_attempts : Z)
  : result Z :=
  if 5 <=? failed_attempts then
    let n := failed_attempts * failed_attempts in
    let min_sleep := if failed_attempts <? 42 then failed_attempts else 42 in
    let max_sleep := if n <? 42 then n else 42 in
    random.randint randbelow min_sleep max_sleep
  else
    Return 0.

(** [Settings.failed_login_attempts += 1]. *)
Definition count_failed_login (w : World) : World :=
  {| db := db w;
     failed_login_attempts := failed_login_attempts w + 1;
     sessions := sessions w |}.

(** The query of [login_whistleblower]: the tips with the receipt hash
    in the tenant, joined with their internal tips; [first()]. *)
Definition query_whistleblower (d : Store) (tid : Z) (hashed_receipt : string)
  : option (WhistleblowerTip.t * InternalTip.t) :=
  head
    (flat_map
       (fun wbtip =>
          map (fun itip => (wbtip, itip))
            (List.filter (fun itip =>
                       String.eqb (InternalTip.id itip) (WhistleblowerTip.id wbtip)
                       && (InternalTip.tid itip =? WhistleblowerTip.tid wbtip))
               (internaltips d)))
       (List.filter (fun wbtip =>
                  String.eqb (WhistleblowerTip.receipt_hash wbtip) hashed_receipt
                  && (WhistleblowerTip.tid wbtip =? tid))
          (whistleblowertips d))).

(** [itip.wb_last_access = datetime_now()], written at commit. *)
Definition stamp_wb_last_access (d : Store) (itip : InternalTip.t) (now : Z)
  : Store :=
  {| users := users d;
     usertenants := usertenants d;
     whistleblowertips := whistleblowertips d;
     internaltips :=
       map (fun i =>
              if String.eqb (InternalTip.id i) (InternalTip.id itip)
              then {| InternalTip.id := InternalTip.id i;
                      InternalTip.tid := InternalTip.tid i;
                      InternalTip.wb_last_access := now |}
              else i)
         (internaltips d) |}.

(** [login_whistleblower] in its transaction: the world after the call
    and the session returned or the exception raised.  The [transact]
    decorator ([globaleaks/orm.py], not among the sources) commits on
    normal completion and rolls the database back on a raised exception,
    as the specification describes it; the counter is not part of the
    database.  [hash_password] is [security.hash_password], [now] the
    clock, [token] the token the session store draws. *)
Definition login_whistleblower (hash_password : string -> string -> string)
    (tenant_cache : gmap Z TenantState) (now : Z) (token : string)
    (w : World) (tid : Z) (receipt : string) (client_using_tor : bool)
  : World * result Sessions.Session :=
  match getitem tenant_cache tid with
  | Raise e => (w, Raise e)
  | Return tenant =>
      let hashed_receipt := hash_password receipt (receipt_salt tenant) in
      match query_whistleblower (db w) tid hashed_receipt with
      | None => (count_failed_login w, Raise InvalidAuthentication)
      | Some (wbtip, itip) =>
          match
            (if negb client_using_tor then
               tenant ← getitem tenant_cache tid;
               flag ← getitem (https tenant) "https_whistleblower";
               Return (negb flag)
             else Return false)
          with
          | Raise e => (w, Raise e)
          | Return true => (w, Raise TorNetworkRequired)
          | Return false =>
              let '(store, session) :=
                Sessions.new (sessions w) token tid (WhistleblowerTip.id wbtip)
                  "whistleblower" false in
              ({| db := stamp_wb_last_access (db w) itip now;
                  failed_login_attempts := failed_login_attempts w;
                  sessions := store |},
               Return session)
          end
      end
  end.

(** The query of [login]: the users with the name that are not disabled
    and have a membership in the tenant, each once. *)
Definition query_users (d : Store) (tid : Z) (username : string)
  : list User.t :=
  List.filter (fun u =>
            String.eqb (User.username u) username
            && negb (String.eqb (User.state u) "disabled")
            && existsb (fun ut =>
                          String.eqb (UserTenant.user_id ut) (User.id u)
                          && (UserTenant.tenant_id ut =? tid))
                 (usertenants d))
    (users d).

(** The loop over the users: the last one whose password verifies. *)
Definition verified_user (check_password : string -> string -> string -> bool)
    (password : string) (users : list User.t) : option User.t :=
  fold_left
    (fun user u =>
       if check_password password (User.salt u) (User.password u)
       then Some u else user)
    users None.

(** The transport check: the flag is read only when the client is not
    on Tor. *)
Definition tor_network_required (tenant_cache : gmap Z TenantState) (tid : Z)
    (key : string) (client_using_tor : bool) : result bool :=
  if negb client_using_tor then
    tenant ← getitem tenant_cache tid;
    flag ← getitem (https tenant) key;
    Return (negb flag)
  else Return false.

(** The location check, entered when the tenant enables it. *)
Definition check_access_location (ipv6_int_from_string : string -> option Z)
    (tenant : TenantState) (client_ip : string) : result unit :=
  ip_networks ← utility.parse_csv_ip_ranges_to_ip_networks
                  ipv6_int_from_string (ip_filter_authenticated tenant);
  client_ip_obj ← ip_address ipv6_int_from_string client_ip;
  let success := false in
  let success := if is_loopback client_ip_obj then true else success in
  let success :=
    fold_left
      (fun success ip_network =>
         if network_contains ip_network client_ip_obj then true else success)
      ip_networks success in
  if negb success then Raise AccessLocationInvalid else Return ().

(** [user.last_login = datetime_now()], written at commit. *)
Definition stamp_last_login (d : Store) (user : User.t) (now : Z) : Store :=
  {| users :=
       map (fun u =>
              if String.eqb (User.id u) (User.id user)
              then {| User.id := User.id u;
                      User.username := User.username u;
                      User.salt := User.salt u;
                      User.password := User.password u;
                      User.state := User.state u;
                      User.role := User.role u;
                      User.last_login := now;
                      User.password_change_needed :=
                        User.password_change_needed u |}
              else u)
         (users d);
     usertenants := usertenants d;
     whistleblowertips := whistleblowertips d;
     internaltips := internaltips d |}.

(** [login] in its transaction.  [check_password] is
    [security.check_password]. *)
Definition login (check_password : string -> string -> string -> bool)
    (ipv6_int_from_string : string -> option Z)
    (tenant_cache : gmap Z TenantState) (now : Z) (token : string)
    (w : World) (tid : Z) (username password : string)
    (client_using_tor : bool) (client_ip : string)
  : World * result Sessions.Session :=
  let users := query_users (db w) tid username in
  match verified_user check_password password users with
  | None => (count_failed_login w, Raise InvalidAuthentication)
  | Some user =>
      match
        (denied ← tor_network_required tenant_cache tid
                    ("https_" +:+ User.role user) client_using_tor;
         if denied : bool then Raise TorNetworkRequired
         else
           tenant ← getitem tenant_cache tid;
           if ip_filter_authenticated_enable tenant then
             check_access_location ipv6_int_from_string tenant client_ip
           else Return ())
      with
      | Raise e => (w, Raise e)
      | Return _ =>
          let '(store, session) :=
            Sessions.new (sessions w) token tid (User.id user)
              (User.role user) (User.password_change_needed user) in
          ({| db := stamp_last_login (db w) user now;
              failed_login_attempts := failed_login_attempts w;
              sessions := store |},
           Return session)
      end
  end.

(** [check_tenant_auth_switch]: [current_user] is the session of the
    caller. *)
Definition check_tenant_auth_switch (d : Store)
    (current_user : Sessions.Session) (tid : Z) : result bool :=
  ut ← one (List.filter (fun ut =>
                      String.eqb (UserTenant.user_id ut)
                        (Sessions.user_id current_user)
                      && (UserTenant.tenant_id ut =? tid))
              (usertenants d));
  Return (is_not_None (Some ut)).

(** The body of [TenantAuthSwitchHandler.get] after the [yield], for a
    given value of [check]: the local variable [session] is bound only
    in the branch taken when [check] is true; the tuple of the format
    reads the host name first and the variable second. *)
Definition TenantAuthSwitchHandler_get_after_check
    (tenant_cache : gmap Z TenantState) (token : string)
    (store : gmap string Sessions.Session)
    (current_user : Sessions.Session) (tid : Z) (check : bool)
  : gmap string Sessions.Session * result string :=
  let '(store, session) :=
    if check then
      let '(store, session) :=
        Sessions.new store token tid (Sessions.user_id current_user)
          (Sessions.user_role current_user) (Sessions.pcn current_user) in
      (store, Some session)
    else (store, None) in
  (store,
   tenant ← getitem tenant_cache tid;
   session ← match session with
             | Some session => Return session
             | None => Raise (UnboundLocalError "session")
             end;
   Return ("https://" +:+ hostname tenant +:+ "/#/login?token="
             +:+ Sessions.id session)).

(** [TenantAuthSwitchHandler.get]. *)
Definition TenantAuthSwitchHandler_get
    (tenant_cache : gmap Z TenantState) (token : string)
    (w : World) (current_user : Sessions.Session) (tid : Z)
  : gmap string Sessions.Session * result string :=
  match check_tenant_auth_switch (db w) current_user tid with
  | Raise e => (sessions w, Raise e)
  | Return check =>
      TenantAuthSwitchHandler_get_after_check tenant_cache token (sessions w)
        current_user tid check
  end.

(** What the handlers read of [self.request]. *)
Record Request : Type := {
  request_tid : Z;
  request_client_using_tor : bool;
  request_client_ip : string
}.

(** What a login handler answers: the redirect dictionary or the
    serialized session (kept as the session). *)
Inductive response : Type :=
| Redirect (url : string)
| Serialized (session : Sessions.Session).

(** ['https://%s/#/login?token=%s' % (State.tenant_cache[tid].hostname,
    session.id)]. *)
Definition redirect (tenant_cache : gmap Z TenantState) (tid : Z)
    (session : Sessions.Session) : result response :=
  tenant ← getitem tenant_cache tid;
  Return (Redirect ("https://" +:+ hostname tenant +:+ "/#/login?token="
                      +:+ Sessions.id session)).

(** The first lines of the three [post] methods: the delay is drawn from
    the counter as it stands and slept when it is not zero.  The result
    is the list of sleeps made. *)
Definition login_delay (randbelow : Z -> Z) (w : World) : result (list Z) :=
  delay ← random_login_delay randbelow (failed_login_attempts w);
  Return (if delay =? 0 then [] else [delay]).

(** [AuthenticationHandler.post] on a validated message with the fields
    [tid], [username] and [password]: the world after the request, the
    sleeps made, and the answer. *)
Definition AuthenticationHandler_post (randbelow : Z -> Z)
    (check_password : string -> string -> string -> bool)
    (ipv6_int_from_string : string -> option Z)
    (tenant_cache : gmap Z TenantState) (now : Z) (token : string)
    (w : World) (self_request : Request)
    (tid : Z) (username password : string)
  : World * list Z * result response :=
  match login_delay randbelow w with
  | Raise e => (w, [], Raise e)
  | Return sleeps =>
      let tid := if tid =? 0 then request_tid self_request else tid in
      let '(w, session) :=
        login check_password ipv6_int_from_string tenant_cache now token w
          tid username password (request_client_using_tor self_request)
          (request_client_ip self_request) in
      (w, sleeps,
       session ← session;
       if negb (tid =? request_tid self_request)
       then redirect tenant_cache tid session
       else Return (Serialized session))
  end.

(** [TokenAuthHandler.post] on a validated message with the fields
    [tid] and [token]; [new_token] is the token the store draws when it
    regenerates the session. *)
Definition TokenAuthHandler_post (randbelow : Z -> Z)
    (tenant_cache : gmap Z TenantState) (new_token : string)
    (w : World) (self_request : Request) (tid : Z) (token : string)
  : World * list Z * result response :=
  match login_delay randbelow w with
  | Raise e => (w, [], Raise e)
  | Return sleeps =>
      let tid := if tid =? 0 then request_tid self_request else tid in
      match Sessions.get (sessions w) token with
      | None => (count_failed_login w, sleeps, Raise InvalidAuthentication)
      | Some session =>
          if negb (Sessions.tid session =? tid)
          then (count_failed_login w, sleeps, Raise InvalidAuthentication)
          else
            let '(store, session) :=
              Sessions.regenerate (sessions w) new_token
                (Sessions.id session) in
            ({| db := db w;
                failed_login_attempts := failed_login_attempts w;
                sessions := store |},
             sleeps,
             session ← session;
             if negb (tid =? request_tid self_request)
             then redirect tenant_cache tid session
             else Return (Serialized session))
      end
  end.

(** [ReceiptAuthHandler.post] on a validated message with the field
    [receipt]: the tenant is the one of the request. *)
Definition ReceiptAuthHandler_post (randbelow : Z -> Z)
    (hash_password : string -> string -> string)
    (tenant_cache : gmap Z TenantState) (now : Z) (token : string)
    (w : World) (self_request : Request) (receipt : string)
  : World * list Z * result response :=
  match login_delay randbelow w with
  | Raise e => (w, [], Raise e)
  | Return sleeps =>
      let '(w, session) :=
        login_whistleblower hash_password tenant_cache now token w
          (request_tid self_request) receipt
          (request_client_using_tor self_request) in
      (w, sleeps, session ← session; Return (Serialized session))
  end.

(** One login request as the process sees it: what the request carries
    and what the environment supplies while it is served (the clock, the
    token and the random draw). *)
Inductive attempt : Type :=
| StaffAttempt (randbelow : Z -> Z) (now : Z) (token : string)
    (self_request : Request) (tid : Z) (username password : string)
| TokenAttempt (randbelow : Z -> Z) (new_token : string)
    (self_request : Request) (tid : Z) (token : string)
| ReceiptAttempt (randbelow : Z -> Z) (now : Z) (token : string)
    (self_request : Request) (receipt : string).

(** The random draw an attempt is served with. *)
Definition attempt_randbelow (a : attempt) : Z -> Z :=
  match a with
  | StaffAttempt randbelow _ _ _ _ _ _
  | TokenAttempt randbelow _ _ _ _
  | ReceiptAttempt randbelow _ _ _ _ => randbelow
  end.

Definition serve (check_password : string -> string -> string -> bool)
    (hash_password : string -> string -> string)
    (ipv6_int_from_string : string -> option Z)
    (tenant_cache : gmap Z TenantState) (w : World) (a : attempt)
  : World * list Z * result response :=
  match a with
  | StaffAttempt randbelow now token self_request tid username password =>
      AuthenticationHandler_post randbelow check_password
        ipv6_int_from_string tenant_cache now token w self_request
        tid username password
  | TokenAttempt randbelow new_token self_request tid token =>
      TokenAuthHandler_post randbelow tenant_cache new_token w self_request
        tid token
  | ReceiptAttempt randbelow now token self_request receipt =>
      ReceiptAuthHandler_post randbelow hash_password tenant_cache now token
        w self_request receipt
  end.

(** Requests served one after the other: the world at the end and, for
    each request, the sleeps it made. *)
Fixpoint serve_all (check_password : string -> string -> string -> bool)
    (hash_password : string -> string -> string)
    (ipv6_int_from_string : string -> option Z)
    (tenant_cache : gmap Z TenantState) (w : World) (attempts : list attempt)
  : World * list (list Z) :=
  match attempts with
  | [] => (w, [])
  | a :: attempts' =>
      let '(w, sleeps, _) :=
        serve check_password hash_password ipv6_int_from_string
          tenant_cache w a in
      let '(w, slept) :=
        serve_all check_password hash_password ipv6_int_from_string
          tenant_cache w attempts' in
      (w, sleeps :: slept)
  end.

End authentication.

(** ** backend.py: [Service.shutdown] *)

Module backend.

(** The service object as [shutdown] sees it: the one-shot flag
    [_shutdown], and, as a record of what was done and when, the clock
    readings at which [state.orm_tp.stop()] and [d.callback(None)] were
    called and whether the process supervisor was told to shut down.
    Time is the reactor's clock, in seconds. *)
Record Service : Type := {
  _shutdown : bool;
  orm_tp_stop_calls : list Z;
  d_callback_calls : list Z;
  process_supervisor_shutdown : bool
}.

(** The inner function [_shutdown] of [shutdown], the finalize step,
    called at clock reading [now]. *)
Definition finalize (now : Z) (self : Service) : Service :=
  if _shutdown self then self
  else
    {| _shutdown := true;
       orm_tp_stop_calls := orm_tp_stop_calls self ++ [now];
       d_callback_calls := d_callback_calls self ++ [now];
       process_supervisor_shutdown := process_supervisor_shutdown self |}.

(** Who calls the finalize step: the delayed call of the reactor, or the
    callback on the [DeferredList] of [stop_jobs]. *)
Inductive source : Type :=
| Timer
| JobsStopped.

(** The calls the reactor still has to make, earliest first. *)
Definition pending : Type := list (Z * source).

(** Scheduling a call at time [at_]: behind the calls that are due no
    later. *)
Fixpoint schedule (at_ : Z) (src : source) (calls : pending) : pending :=
  match calls with
  | [] => [(at_, src)]
  | (t, s) :: calls' =>
      if t <=? at_ then (t, s) :: schedule at_ src calls'
      else (at_, src) :: calls
  end.

(** The reactor making its pending calls in turn. *)
Definition run_reactor (calls : pending) (self : Service) : Service :=
  fold_left (fun self call => finalize (fst call) self) calls self.

(** A deferred is described by when it fires, in seconds from now:
    [Some 0] when it has fired already, [None] when it never fires.
    [defer.DeferredList] fires once all of its deferreds have, at once
    when there is none. *)
Definition DeferredList (deferred_list : list (option Z)) : option Z :=
  fold_left
    (fun fired d =>
       match fired, d with
       | Some t, Some t' => Some (Z.max t t')
       | _, _ => None
       end)
    deferred_list (Some 0).

(** [stop_jobs]: one deferred for the [stop] of each job and service,
    one more for the jobs monitor when there is one. *)
Definition stop_jobs (jobs services : list (option Z))
    (jobs_monitor : option (option Z)) : option Z :=
  let deferred_list := jobs ++ services in
  let deferred_list :=
    match jobs_monitor with
    | Some stop => deferred_list ++ [stop]
    | None => deferred_list
    end in
  DeferredList deferred_list.

(** [shutdown] called at clock reading [now]: the timer is scheduled,
    the process supervisor shut down, and the finalize step attached to
    the result of [stop_jobs], which runs it at once when that has fired
    already.  The result is the service and the calls left to the
    reactor. *)
Definition shutdown (now : Z) (jobs services : list (option Z))
    (jobs_monitor : option (option Z)) (self : Service)
  : Service * pending :=
  let calls := schedule (now + 30) Timer [] in
  let self :=
    {| _shutdown := _shutdown self;
       orm_tp_stop_calls := orm_tp_stop_calls self;
       d_callback_calls := d_callback_calls self;
       process_supervisor_shutdown := true |} in
  match stop_jobs jobs services jobs_monitor with
  | Some delay =>
      if delay <=? 0 then (finalize now self, calls)
      else (self, schedule (now + delay) JobsStopped calls)
  | None => (self, calls)
  end.

(** [shutdown] followed by the reactor running until nothing is
    pending. *)
Definition shutdown_and_run (now : Z) (jobs services : list (option Z))
    (jobs_monitor : option (option Z)) (self : Service) : Service :=
  let '(self, calls) := shutdown now jobs services jobs_monitor self in
  run_reactor calls self.

(** The earlier of the two triggers, in seconds from the call. *)
Definition first_trigger (jobs services : list (option Z))
    (jobs_monitor : option (option Z)) : Z :=
  match stop_jobs jobs services jobs_monitor with
  | Some delay => Z.min delay 30
  | None => 30
  end.

End backend.

(** ** A small installation

    One tenant, one receiver and one tip, with stand-ins for the
    password and receipt hashes and for the reader of IPv6 text; the
    properties below are instantiated on it. *)

Module scenario.

Definition check_password (password salt stored : string) : bool :=
  String.eqb (salt +:+ password) stored.

Definition hash_password (receipt salt : string) : string :=
  salt +:+ receipt.

Definition ipv6_int_from_string (s : string) : option Z :=
  if String.eqb s "::1" then Some 1 else None.

Definition alice : User.t :=
  {| User.id := "u1"; User.username := "alice"; User.salt := "s";
     User.password := "ssecret"; User.state := "enabled";
     User.role := "receiver"; User.last_login := 0;
     User.password_change_needed := false |}.

Definition wbtip : WhistleblowerTip.t :=
  {| WhistleblowerTip.id := "t1"; WhistleblowerTip.tid := 1;
     WhistleblowerTip.receipt_hash := "r1234" |}.

Definition itip : InternalTip.t :=
  {| InternalTip.id := "t1"; InternalTip.tid := 1;
     InternalTip.wb_last_access := 0 |}.

Definition store : Store :=
  {| users := [alice];
     usertenants := [ {| UserTenant.user_id := "u1";
                         UserTenant.tenant_id := 1 |} ];
     whistleblowertips := [wbtip];
     internaltips := [itip] |}.

Definition world : World :=
  {| db := store; failed_login_attempts := 0; sessions := ∅ |}.

(** A tenant with the given web reachability of receivers and
    whistleblowers, the address filter on, and the given list. *)
Definition tenant (web : bool) (ip_filter : string) : TenantState :=
  {| receipt_salt := "r";
     hostname := "example.org";
     https := <["https_receiver"%string := web]>
                {["https_whistleblower"%string := web]};
     ip_filter_authenticated_enable := true;
     ip_filter_authenticated := ip_filter |}.

Definition tenant_cache (web : bool) (ip_filter : string)
  : gmap Z TenantState :=
  {[ 1 := tenant web ip_filter ]}.

(** The same installation with the internal tip of the one
    whistleblower tip missing. *)
Definition orphan_world : World :=
  {| db := {| users := [alice];
              usertenants := usertenants store;
              whistleblowertips := [wbtip];
              internaltips := [] |};
     failed_login_attempts := 0;
     sessions := ∅ |}.

(** The same installation after five failed logins. *)
Definition throttled_world : World :=
  {| db := store; failed_login_attempts := 5; sessions := ∅ |}.

(** The same installation with a session of tenant 2 registered under
    the token "tok2". *)
Definition visiting_world : World :=
  {| db := store;
     failed_login_attempts := 0;
     sessions := {[ "tok2"%string :=
                      {| Sessions.id := "tok2"; Sessions.tid := 2;
                         Sessions.user_id := "u1";
                         Sessions.user_role := "receiver";
                         Sessions.pcn := false |} ]} |}.

(** A request to tenant 1 over the plain web from 10.0.0.1. *)
Definition request : authentication.Request :=
  {| authentication.request_tid := 1;
     authentication.request_client_using_tor := false;
     authentication.request_client_ip := "10.0.0.1" |}.

(** A gzip stand-in that frames the raw bytes behind the time stamp, a
    request for "/x" in English on tenant 1, a handler that answers with
    an empty JSON object after setting a content type of its own, and a
    handler that fails. *)
Definition frame (mtime : Z) (raw : list Z) : list Z := mtime :: raw.

Definition api_request : apicache.Request :=
  {| apicache.request_tid := 1; apicache.request_path := "/x";
     apicache.request_language := "en"; apicache.responseHeaders := ∅ |}.

Definition json_dumps (j : unit) : list Z := [123; 125].

Definition json_handler (r : apicache.Request)
  : gmap string string * result (apicache.handler_data unit) :=
  (<["content-type"%string := "text/html"%string]> (apicache.responseHeaders r),
   Return (apicache.JsonValue tt)).

(** A handler that answers with the text "hi" and sets no header. *)
Definition text_handler (r : apicache.Request)
  : gmap string string * result (apicache.handler_data unit) :=
  (apicache.responseHeaders r,
   Return (apicache.Body (apicache.Text [104; 105]))).

Definition failing_handler (r : apicache.Request)
  : gmap string string * result (apicache.handler_data unit) :=
  (apicache.responseHeaders r, Raise ValueError).

(** A cache that holds one entry of tenant 2. *)
Definition other_cache : gmap Z (gmap string (gmap string apicache.entry)) :=
  fst (apicache.set frame 0 ∅ 2 "/y" "en" "text/plain" (apicache.Bytes [1])).

End scenario.

(** * Part II: the properties *)

(** ** The embedding on concrete inputs

    The values below are the ones CPython 3 gives. *)

Example split_keeps_empty_pieces :
  split "," "a,,b," = ["a"; ""; "b"; ""]%string.
Proof. reflexivity. Qed.

Example str_encode_utf8 :
  str_encode [233; 8364; 128512]
  = Return [195; 169; 226; 130; 172; 240; 159; 152; 128].
Proof. reflexivity. Qed.

Example str_encode_surrogate : str_encode [97; 55296] = Raise UnicodeEncodeError.
Proof. reflexivity. Qed.

Example ip_address_dotted_quad :
  ipaddress.ip_address (fun _ => None) "10.0.0.1"
  = Return (ipaddress.IPv4Address 167772161).
Proof. reflexivity. Qed.

Example ip_address_leading_zero :
  ipaddress.ip_address (fun _ => None) "010.0.0.1" = Raise ValueError.
Proof. reflexivity. Qed.

Example ip_network_dotted_netmask :
  ipaddress.ip_network (fun _ => None) "192.168.1.0/255.255.255.0" true
  = Return {| ipaddress.network_address := ipaddress.IPv4Address 3232235776;
              ipaddress.prefixlen := 24 |}.
Proof. vm_compute. reflexivity. Qed.

Example ip_network_host_bits_set :
  ipaddress.ip_network (fun _ => None) "192.168.1.1/24" true = Raise ValueError.
Proof. vm_compute. reflexivity. Qed.

Example truediv_one_third :
  truediv 1 3 = Return (6004799503160661, -54).
Proof. vm_compute. reflexivity. Qed.

Example truediv_rounds_up :
  truediv 2999999999999999999 1000000000 = Return (6291456000000000, -21)
  /\ int_of_float (6291456000000000, -21) = 3000000000.
Proof. split; vm_compute; reflexivity. Qed.

Example truediv_overflow : truediv (10 ^ 400) 1000 = Raise OverflowError.
Proof. vm_compute. reflexivity. Qed.

Example random_login_delay_below_five (randbelow : Z -> Z) :
  authentication.random_login_delay randbelow 4 = Return 0.
Proof. reflexivity. Qed.

Example parse_csv_empty_list :
  utility.parse_csv_ip_ranges_to_ip_networks (fun _ => None) ""
  = Raise (InputValidationError "Unable to parse IP address: ").
Proof. reflexivity. Qed.

(** ** The login delay table *)

Section LoginDelay.

Import authentication.

Variable randbelow : Z -> Z.
Hypothesis randbelow_range : forall n, 0 < n -> 0 <= randbelow n < n.

Lemma randint_range (a b : Z) :
  a <= b ->
  exists d, random.randint randbelow a b = Return d /\ a <= d <= b.
Proof.
  intros Hab. unfold random.randint.
  assert (Hw : 0 < b + 1 - a) by lia.
  apply Z.ltb_lt in Hw as Hw'. rewrite Hw'.
  exists (a + randbelow (b + 1 - a)). split; [reflexivity|].
  pose proof (randbelow_range _ Hw). lia.
Qed.

Lemma random_login_delay_window (F : Z) :
  5 <= F ->
  exists d, random_login_delay randbelow F = Return d
            /\ Z.min F 42 <= d <= Z.min (F * F) 42.
Proof.
  intros HF. unfold random_login_delay.
  apply Z.leb_le in HF as HF'. rewrite HF'.
  destruct (F <? 42) eqn:E1; destruct (F * F <? 42) eqn:E2;
    [ apply Z.ltb_lt in E1 | apply Z.ltb_lt in E1
    | apply Z.ltb_ge in E1 | apply Z.ltb_ge in E1 ];
    [ apply Z.ltb_lt in E2 | apply Z.ltb_ge in E2
    | apply Z.ltb_lt in E2 | apply Z.ltb_ge in E2 ].
  - destruct (randint_range F (F * F)) as (d & -> & Hd); [nia|].
    exists d. split; [reflexivity|lia].
  - destruct (randint_range F 42) as (d & -> & Hd); [lia|].
    exists d. split; [reflexivity|lia].
  - nia.
  - destruct (randint_range 42 42) as (d & -> & Hd); [lia|].
    exists d. split; [reflexivity|lia].
Qed.

(** C1: for every value [F] of the failed-login counter the delay is
    returned (no exception) and follows the table of the docstring:
    0 below 5; in [5,25] at 5; in [6,36] at 6; in [7,42] at 7; in [F,42]
    for 8 <= F <= 42; exactly 42 above 42. *)
Theorem random_login_delay_table (F : Z) :
  exists d, random_login_delay randbelow F = Return d
    /\ (F < 5 -> d = 0)
    /\ (F = 5 -> 5 <= d <= 25)
    /\ (F = 6 -> 6 <= d <= 36)
    /\ (F = 7 -> 7 <= d <= 42)
    /\ (8 <= F <= 42 -> F <= d <= 42)
    /\ (42 < F -> d = 42).
Proof.
  destruct (Z.lt_ge_cases F 5) as [Hlt|Hge].
  - exists 0. split.
    + unfold random_login_delay.
      apply Z.leb_gt in Hlt. now rewrite Hlt.
    + repeat split; intros; lia.
  - destruct (random_login_delay_window F Hge) as (d & Hd & Hw).
    exists d. split; [exact Hd|].
    repeat split; intros; subst; try nia.
Qed.

End LoginDelay.

(** The table instantiated at six failed attempts with the entropy source
    that always draws the largest value. *)
Lemma random_login_delay_table_witness :
  exists d, authentication.random_login_delay (fun n => n - 1) 6 = Return d
    /\ (6 < 5 -> d = 0)
    /\ (6 = 5 -> 5 <= d <= 25)
    /\ (6 = 6 -> 6 <= d <= 36)
    /\ (6 = 7 -> 7 <= d <= 42)
    /\ (8 <= 6 <= 42 -> 6 <= d <= 42)
    /\ (42 < 6 -> d = 42).
Proof.
  apply (random_login_delay_table (fun n => n - 1)).
  intros n Hn. lia.
Defined.

(** ** The API cache *)

(** [str_encode] against the reading of UTF-8: what it returns reads
    back as the text, and it raises exactly on a text that holds
    something else than scalar values. *)

Lemma Z_below_cases (P : Z -> bool) (n : nat) :
  forallb P (map Z.of_nat (seq 0 n)) = true ->
  forall y, 0 <= y < Z.of_nat n -> P y = true.
Proof.
  intros H y Hy. rewrite forallb_forall in H. apply H.
  apply in_map_iff. exists (Z.to_nat y). split; [lia|].
  apply in_seq. lia.
Qed.

Lemma lor_lead (lead : Z) (n : nat) (y : Z) :
  forallb (fun y => Z.lor lead y =? lead + y) (map Z.of_nat (seq 0 n)) = true ->
  0 <= y < Z.of_nat n -> Z.lor lead y = lead + y.
Proof.
  intros H Hy. apply Z.eqb_eq.
  exact (Z_below_cases (fun y => Z.lor lead y =? lead + y) n H y Hy).
Qed.

Lemma utf8_encode_char_bytes (c : Z) :
  utf8_encode_char c =
    if c <? 0 then None
    else if c <? 0x80 then Some [c]
    else if c <? 0x800 then Some [192 + c / 64; 128 + c mod 64]
    else if c <? 0x10000 then
      if (0xD800 <=? c) && (c <=? 0xDFFF) then None
      else Some [224 + c / 4096; 128 + (c / 64) mod 64; 128 + c mod 64]
    else if c <? 0x110000 then
      Some [240 + c / 262144; 128 + (c / 4096) mod 64;
            128 + (c / 64) mod 64; 128 + c mod 64]
    else None.
Proof.
  unfold utf8_encode_char.
  change 0x3F with (Z.ones 6).
  rewrite !Z.land_ones, !Z.shiftr_div_pow2 by lia.
  change (2 ^ 6) with 64. change (2 ^ 12) with 4096.
  change (2 ^ 18) with 262144.
  destruct (Z.ltb_spec c 0); [reflexivity|].
  destruct (Z.ltb_spec c 0x80); [reflexivity|].
  assert (Hm : forall x, Z.lor 0x80 (x mod 64) = 128 + x mod 64).
  { intros x. apply (lor_lead 0x80 64); [reflexivity|].
    change (Z.of_nat 64) with 64. apply Z.mod_pos_bound. lia. }
  rewrite !Hm.
  destruct (Z.ltb_spec c 0x800).
  { rewrite (lor_lead 0xC0 32); [reflexivity|reflexivity|].
    change (Z.of_nat 32) with 32. Z.to_euclidean_division_equations. lia. }
  destruct (Z.ltb_spec c 0x10000).
  { rewrite (lor_lead 0xE0 16); [reflexivity|reflexivity|].
    change (Z.of_nat 16) with 16. Z.to_euclidean_division_equations. lia. }
  destruct (Z.ltb_spec c 0x110000); [|reflexivity].
  rewrite (lor_lead 0xF0 8); [reflexivity|reflexivity|].
  change (Z.of_nat 8) with 8. Z.to_euclidean_division_equations. lia.
Qed.

Ltac decide_bounds :=
  repeat match goal with
         | |- context [?a <=? ?b] =>
             destruct (Z.leb_spec a b);
             try (exfalso; Z.to_euclidean_division_equations; lia)
         | |- context [?a <? ?b] =>
             destruct (Z.ltb_spec a b);
             try (exfalso; Z.to_euclidean_division_equations; lia)
         end.

Lemma spec_utf8_decode_char (c : Z) (bs rest : bytes) :
  utf8_encode_char c = Some bs ->
  spec_utf8_decode (bs ++ rest) = cons c <$> spec_utf8_decode rest.
Proof.
  rewrite utf8_encode_char_bytes.
  destruct (Z.ltb_spec c 0); [discriminate|].
  destruct (Z.ltb_spec c 0x80).
  { intros [= <-]. cbn [app spec_utf8_decode]. decide_bounds. reflexivity. }
  destruct (Z.ltb_spec c 0x800).
  { intros [= <-]. cbn [app spec_utf8_decode]. unfold is_continuation.
    decide_bounds. cbn [andb].
    replace ((192 + c / 64 - 192) * 64 + (128 + c mod 64 - 128)) with c
      by (Z.to_euclidean_division_equations; lia).
    reflexivity. }
  destruct (Z.ltb_spec c 0x10000).
  { destruct (Z.leb_spec 0xD800 c); cbn [andb].
    - destruct (Z.leb_spec c 0xDFFF); [discriminate|].
      intros [= <-]. cbn [app spec_utf8_decode]. unfold is_continuation.
      replace ((224 + c / 4096 - 224) * 4096
               + (128 + (c / 64) mod 64 - 128) * 64 + (128 + c mod 64 - 128))
        with c by (Z.to_euclidean_division_equations; lia).
      decide_bounds. reflexivity.
    - intros [= <-]. cbn [app spec_utf8_decode]. unfold is_continuation.
      replace ((224 + c / 4096 - 224) * 4096
               + (128 + (c / 64) mod 64 - 128) * 64 + (128 + c mod 64 - 128))
        with c by (Z.to_euclidean_division_equations; lia).
      decide_bounds. reflexivity. }
  destruct (Z.ltb_spec c 0x110000); [|discriminate].
  intros [= <-]. cbn [app spec_utf8_decode]. unfold is_continuation.
  replace ((240 + c / 262144 - 240) * 262144
           + (128 + (c / 4096) mod 64 - 128) * 4096
           + (128 + (c / 64) mod 64 - 128) * 64 + (128 + c mod 64 - 128))
    with c by (Z.to_euclidean_division_equations; lia).
  decide_bounds. reflexivity.
Qed.

Lemma spec_utf8_decode_str_encode (s : text) : forall raw,
  str_encode s = Return raw -> spec_utf8_decode raw = Some s.
Proof.
  induction s as [|c s IH]; intros raw; cbn [str_encode].
  - now intros [= <-].
  - destruct (utf8_encode_char c) as [bs|] eqn:Hc; [|discriminate].
    destruct (str_encode s) as [rest|e]; [|discriminate].
    cbn. intros [= <-].
    rewrite (spec_utf8_decode_char _ _ _ Hc), (IH rest eq_refl). reflexivity.
Qed.

Lemma utf8_encode_char_scalar (c : Z) :
  is_Some (utf8_encode_char c) <-> is_scalar_value c = true.
Proof.
  unfold utf8_encode_char, is_scalar_value.
  destruct (Z.ltb_spec c 0), (Z.ltb_spec c 0x80), (Z.ltb_spec c 0x800),
    (Z.ltb_spec c 0x10000), (Z.ltb_spec c 0x110000),
    (Z.leb_spec 0 c), (Z.leb_spec 0xD800 c), (Z.leb_spec c 0xDFFF);
    cbn; try lia; split; try discriminate; try (intros [? [=]]); eauto.
Qed.

Lemma str_encode_scalar (s : text) :
  match str_encode s with
  | Return _ => forallb is_scalar_value s = true
  | Raise e => e = UnicodeEncodeError /\ forallb is_scalar_value s = false
  end.
Proof.
  induction s as [|c s IH]; cbn [str_encode forallb]; [reflexivity|].
  pose proof (utf8_encode_char_scalar c) as Hc.
  destruct (utf8_encode_char c) as [bs|].
  - rewrite (proj1 Hc) by eauto. cbn [andb].
    destruct (str_encode s) as [rest|e]; cbn; [exact IH|exact IH].
  - destruct (is_scalar_value c); [|auto].
    destruct (proj2 Hc eq_refl) as [? [=]].
Qed.

Section ApiCache.

Import apicache.

Variable compress : Z -> bytes -> bytes.

Lemma get_empty tid resource language :
  get ∅ tid resource language = None.
Proof. unfold get. now rewrite lookup_empty. Qed.

Lemma set_raises c mtime tid resource language content_type d e :
  gzipdata compress mtime d = Raise e ->
  set compress mtime c tid resource language content_type d = (c, Raise e).
Proof. intros H. unfold set. now rewrite H. Qed.

(** The dictionary after a [set] whose compression succeeds, in closed
    form: the entry is inserted at its three keys, the missing levels
    being created. *)
Lemma set_returns c mtime tid resource language content_type d gz :
  gzipdata compress mtime d = Return gz ->
  set compress mtime c tid resource language content_type d =
    (<[tid := <[resource := <[language := (content_type, gz)]>
                   (default ∅ (default ∅ (c !! tid) !! resource))]>
                 (default ∅ (c !! tid))]> c,
     Return (content_type, gz)).
Proof.
  intros H. unfold set, setitem2, setitem3. rewrite H.
  destruct (c !! tid) as [m|] eqn:Ht; cbn.
  - rewrite Ht.
    destruct (m !! resource) as [m'|] eqn:Hr; cbn.
    + now rewrite Ht, Hr.
    + rewrite !lookup_insert_eq.
      now rewrite !insert_insert_eq.
  - rewrite !lookup_insert_eq, !lookup_empty. cbn.
    rewrite !lookup_insert_eq.
    now rewrite !insert_insert_eq.
Qed.

Lemma get_set_same c mtime tid resource language content_type d gz :
  gzipdata compress mtime d = Return gz ->
  get (fst (set compress mtime c tid resource language content_type d))
      tid resource language = Some (content_type, gz).
Proof.
  intros H. rewrite (set_returns _ _ _ _ _ _ _ _ H). cbn.
  unfold get. now rewrite !lookup_insert_eq.
Qed.

Lemma get_set_other c mtime tid resource language content_type d
    tid' resource' language' :
  ~ (tid = tid' /\ resource = resource' /\ language = language') ->
  get (fst (set compress mtime c tid resource language content_type d))
      tid' resource' language' = get c tid' resource' language'.
Proof.
  intros Hne.
  destruct (gzipdata compress mtime d) as [gz|e] eqn:H.
  2:{ now rewrite (set_raises _ _ _ _ _ _ _ _ H). }
  rewrite (set_returns _ _ _ _ _ _ _ _ H). cbn. unfold get.
  destruct (decide (tid = tid')) as [<-|Ht].
  2:{ now rewrite lookup_insert_ne. }
  rewrite lookup_insert_eq.
  destruct (decide (resource = resource')) as [<-|Hr].
  2:{ rewrite lookup_insert_ne by done. now destruct (c !! tid). }
  rewrite lookup_insert_eq.
  destruct (decide (language = language')) as [<-|Hl]; [tauto|].
  rewrite lookup_insert_ne by done.
  destruct (c !! tid) as [m|]; cbn; [|now rewrite !lookup_empty].
  destruct (m !! resource); cbn; [done|now rewrite lookup_empty].
Qed.

Lemma get_invalidate_tenant c tid resource language :
  get (invalidate c (Some tid)) tid resource language = None.
Proof. unfold get, invalidate. now rewrite lookup_delete_eq. Qed.

Lemma get_invalidate_all c tid resource language :
  get (invalidate c None) tid resource language = None.
Proof. apply get_empty. Qed.

Lemma get_invalidate_other c tid tid' resource language :
  tid' <> tid ->
  get (invalidate c (Some tid)) tid' resource language
  = get c tid' resource language.
Proof.
  intros Hne. unfold get, invalidate. now rewrite lookup_delete_ne.
Qed.

(** A key triple that is absent stays absent through calls that do not
    set it. *)
Lemma get_absent_preserved ks : forall c tid resource language,
  get c tid resource language = None ->
  Forall (fun k => ~ sets_key tid resource language k) ks ->
  get (run_calls compress c ks) tid resource language = None.
Proof.
  induction ks as [|k ks IH]; intros c tid resource language Hc Hks.
  - exact Hc.
  - inversion Hks as [|? ? Hk Hks']; subst.
    change (get (run_calls compress (run_call compress c k) ks)
              tid resource language = None).
    apply IH; [|exact Hks'].
    destruct k as [mtime t r l ct d|[t|]]; unfold run_call.
    + rewrite get_set_other; [exact Hc|exact Hk].
    + destruct (decide (tid = t)) as [->|Hne].
      * apply get_invalidate_tenant.
      * now rewrite get_invalidate_other.
    + apply get_invalidate_all.
Qed.

Variable decompress : bytes -> option bytes.
Hypothesis decompress_compress :
  forall mtime raw, decompress (compress mtime raw) = Some raw.

(** C5: whatever the cache holds, for data without a lone surrogate
    [set] followed by [get] on the same three keys returns the entry
    [set] stored: the content type passed in and a body that gunzips to
    the data bytes, which are the byte string itself or the UTF-8
    encoding of the text; for a text with a lone surrogate [set] raises
    [UnicodeEncodeError] and stores nothing; and from the empty cache, a
    key triple that no call has set is answered by [None]. *)
Theorem apicache_set_get_roundtrip :
  (forall c mtime tid resource language content_type d,
      encodable d = true ->
      exists body raw,
        snd (set compress mtime c tid resource language content_type d)
          = Return (content_type, body)
        /\ get (fst (set compress mtime c tid resource language content_type d))
               tid resource language = Some (content_type, body)
        /\ decompress body = Some raw
        /\ spec_data_bytes d raw)
  /\ (forall c mtime tid resource language content_type d,
        encodable d = false ->
        set compress mtime c tid resource language content_type d
        = (c, Raise UnicodeEncodeError))
  /\ (forall ks tid resource language,
        Forall (fun k => ~ sets_key tid resource language k) ks ->
        get (run_calls compress ∅ ks) tid resource language = None).
Proof.
  split; [|split].
  - intros c mtime tid resource language content_type d Hd.
    assert (Hraw : exists raw, encode_if_text d = Return raw
                               /\ spec_data_bytes d raw).
    { destruct d as [s|b]; cbn in *; [|eauto].
      pose proof (str_encode_scalar s) as Hs.
      destruct (str_encode s) as [raw|e] eqn:He.
      - exists raw. split; [reflexivity|].
        now apply spec_utf8_decode_str_encode.
      - destruct Hs as [_ Hs]. congruence. }
    destruct Hraw as (raw & Hraw & Hbytes).
    assert (Hgz : gzipdata compress mtime d = Return (compress mtime raw)).
    { unfold gzipdata. now rewrite Hraw. }
    exists (compress mtime raw), raw. split; [|split; [|split]].
    + now rewrite (set_returns _ _ _ _ _ _ _ _ Hgz).
    + now apply get_set_same.
    + apply decompress_compress.
    + exact Hbytes.
  - intros c mtime tid resource language content_type d Hd.
    apply set_raises. unfold gzipdata.
    destruct d as [s|b]; cbn in *; [|discriminate].
    pose proof (str_encode_scalar s) as Hs.
    destruct (str_encode s) as [raw|e]; [congruence|].
    destruct Hs as [-> _]. reflexivity.
  - intros ks tid resource language Hks.
    apply get_absent_preserved; [apply get_empty|exact Hks].
Qed.

(** C6: [invalidate(tid)] removes the sub-map of tenant [tid], so none of
    its entries is served any more, and leaves the sub-map of every other
    tenant as it was; [invalidate()] leaves no tenant at all. *)
Theorem apicache_invalidate_frame (c : memory_cache_dict) (tid : Z) :
  invalidate c (Some tid) !! tid = None
  /\ (forall resource language,
        get (invalidate c (Some tid)) tid resource language = None)
  /\ (forall tid', tid' <> tid ->
        invalidate c (Some tid) !! tid' = c !! tid'
        /\ forall resource language,
             get (invalidate c (Some tid)) tid' resource language
             = get c tid' resource language)
  /\ invalidate c None = ∅
  /\ (forall tid' resource language,
        get (invalidate c None) tid' resource language = None).
Proof.
  split; [apply lookup_delete_eq|].
  split; [intros; apply get_invalidate_tenant|].
  split.
  { intros tid' Hne. split.
    - unfold invalidate. now rewrite lookup_delete_ne.
    - intros. now apply get_invalidate_other. }
  split; [reflexivity|].
  intros. apply get_invalidate_all.
Qed.

End ApiCache.

(** The round trip at the example of the specification, tenant 1, "/x",
    "en", the seven characters of the JSON text [{"a":1}], with a gzip
    stand-in that frames the raw bytes behind the time stamp; and a key
    triple that the calls made have not set. *)
Lemma apicache_set_get_roundtrip_witness :
  (exists body,
      snd (apicache.set (fun mtime raw => mtime :: raw) 0 ∅ 1 "/x" "en"
             "application/json" (apicache.Text [123; 34; 97; 34; 58; 49; 125]))
        = Return ("application/json"%string, body)
      /\ apicache.get
           (fst (apicache.set (fun mtime raw => mtime :: raw) 0 ∅ 1 "/x" "en"
                   "application/json"
                   (apicache.Text [123; 34; 97; 34; 58; 49; 125])))
           1 "/x" "en" = Some ("application/json"%string, body)
      /\ spec_utf8_decode (tail body) = Some [123; 34; 97; 34; 58; 49; 125])
  /\ apicache.get
       (apicache.run_calls (fun mtime raw => mtime :: raw) ∅
          [apicache.CallSet 0 1 "/x" "en" "application/json"
             (apicache.Text [123; 34; 97; 34; 58; 49; 125]);
           apicache.CallInvalidate (Some 2)])
       1 "/y" "en" = None.
Proof.
  destruct (apicache_set_get_roundtrip
              (fun mtime raw => mtime :: raw)
              (fun body => Some (tail body))
              (fun _ _ => eq_refl)) as (Hset & _ & Hget).
  split.
  - destruct (Hset ∅ 0 1 "/x"%string "en"%string "application/json"%string
                (apicache.Text [123; 34; 97; 34; 58; 49; 125]) eq_refl)
      as (body & raw & H1 & H2 & H3 & H4).
    exists body. repeat split; [exact H1|exact H2|].
    injection H3 as ->. exact H4.
  - apply Hget.
    constructor; [cbn; intros (_ & Hr & _); discriminate Hr|].
    constructor; [cbn; tauto|constructor].
Defined.

(** A text with a lone surrogate, the two code points U+0061 and U+D800:
    [set] raises, and the [get] that follows finds no entry. *)
Lemma apicache_set_get_roundtrip_counterexample :
  snd (apicache.set (fun mtime raw => mtime :: raw) 0 ∅ 1 "/x" "en"
         "application/json" (apicache.Text [97; 55296]))
  = Raise UnicodeEncodeError
  /\ apicache.get
       (fst (apicache.set (fun mtime raw => mtime :: raw) 0 ∅ 1 "/x" "en"
               "application/json" (apicache.Text [97; 55296])))
       1 "/x" "en" = None.
Proof. split; vm_compute; reflexivity. Qed.

(** Invalidation of tenant 2 in a cache that holds one entry of tenant 2
    and one of tenant 3. *)
Lemma apicache_invalidate_frame_witness :
  apicache.get
    (apicache.invalidate
       (apicache.run_calls (fun _ raw => raw) ∅
          [apicache.CallSet 0 2 "/x" "en" "text/plain" (apicache.Bytes [1]);
           apicache.CallSet 0 3 "/x" "en" "text/plain" (apicache.Bytes [2])])
       (Some 2)) 2 "/x" "en" = None
  /\ apicache.get
       (apicache.invalidate
          (apicache.run_calls (fun _ raw => raw) ∅
             [apicache.CallSet 0 2 "/x" "en" "text/plain" (apicache.Bytes [1]);
              apicache.CallSet 0 3 "/x" "en" "text/plain" (apicache.Bytes [2])])
          (Some 2)) 3 "/x" "en"
     = apicache.get
         (apicache.run_calls (fun _ raw => raw) ∅
            [apicache.CallSet 0 2 "/x" "en" "text/plain" (apicache.Bytes [1]);
             apicache.CallSet 0 3 "/x" "en" "text/plain" (apicache.Bytes [2])])
         3 "/x" "en".
Proof.
  destruct (apicache_invalidate_frame
              (apicache.run_calls (fun _ raw => raw) ∅
                 [apicache.CallSet 0 2 "/x" "en" "text/plain" (apicache.Bytes [1]);
                  apicache.CallSet 0 3 "/x" "en" "text/plain" (apicache.Bytes [2])])
              2) as (_ & Hgone & Hother & _).
  split.
  - apply Hgone.
  - apply (Hother 3). lia.
Defined.

(** ** Byte counts *)

Section TrueDivision.

Lemma floor_log2_quot_le (a d : Z) :
  floor_log2_quot a d <= Z.log2 a - Z.log2 d.
Proof.
  unfold floor_log2_quot.
  destruct (if 0 <=? Z.log2 a - Z.log2 d then _ else _); lia.
Qed.

Lemma round_half_even_one (a : Z) : round_half_even a 1 = a.
Proof.
  unfold round_half_even. rewrite Z.mod_1_r, Z.div_1_r. reflexivity.
Qed.

(** Rounding a scaled quotient to the nearest integer does not reach
    the next multiple of the scale when the scale is more than half the
    divisor. *)
Lemma round_half_even_floor (a d s : Z) :
  0 <= a -> 0 < d -> 0 < s -> d < 2 * s ->
  (a / d) * s <= round_half_even (a * s) d < (a / d + 1) * s.
Proof.
  intros Ha Hd Hs Hds.
  pose proof (Z.div_mod a d ltac:(lia)) as Ea.
  pose proof (Z.mod_pos_bound a d Hd) as Ba.
  pose proof (Z.div_mod (a * s) d ltac:(lia)) as Es.
  pose proof (Z.mod_pos_bound (a * s) d Hd) as Bs.
  set (n := a / d) in *. set (r0 := a mod d) in *.
  set (q := (a * s) / d) in *. set (r := (a * s) mod d) in *.
  assert (Hq1 : n * s <= q).
  { apply Z.div_le_lower_bound; [lia|]. nia. }
  assert (Hq2 : q < (n + 1) * s).
  { apply Z.div_lt_upper_bound; [lia|]. nia. }
  unfold round_half_even. fold q r.
  assert (Hcarry : d <= 2 * r -> q + 1 < (n + 1) * s).
  { intros Hr.
    destruct (Z.eq_dec q ((n + 1) * s - 1)) as [Hq|Hq]; [|lia].
    exfalso. nia. }
  destruct (2 * r <? d) eqn:E1; [lia|]. apply Z.ltb_ge in E1.
  destruct (d <? 2 * r) eqn:E2; [lia|].
  destruct (Z.even q); lia.
Qed.

(** Below 2^53 the float quotient truncates to the integer quotient. *)
Lemma int_of_truediv_exact (a d : Z) :
  0 <= a < 2 ^ 53 -> 0 < d < 2 ^ 1074 ->
  exists q, truediv a d = Return q /\ int_of_float q = a / d.
Proof.
  intros Ha Hd. unfold truediv.
  destruct (d =? 0) eqn:Ed; [apply Z.eqb_eq in Ed; lia|].
  destruct (a =? 0) eqn:Ea.
  { apply Z.eqb_eq in Ea. subst a. exists (0, 0). split; [reflexivity|].
    cbn. now rewrite Z.div_0_l by lia. }
  apply Z.eqb_neq in Ea.
  rewrite (Z.abs_eq a), (Z.abs_eq d) by lia.
  assert (Hsg : Z.sgn a * Z.sgn d = 1).
  { rewrite (Z.sgn_pos a), (Z.sgn_pos d) by lia. reflexivity. }
  rewrite Hsg.
  assert (Hla : Z.log2 a < 53) by (apply Z.log2_lt_pow2; lia).
  assert (Hld : Z.log2 d < 1074) by (apply Z.log2_lt_pow2; lia).
  pose proof (Z.log2_nonneg d) as Hld0.
  pose proof (Z.log2_spec d ltac:(lia)) as Hspec.
  pose proof (floor_log2_quot_le a d) as Hfl.
  unfold truediv_pos.
  set (e := Z.max (floor_log2_quot a d - 52) (-1074)).
  assert (He : e <= - Z.log2 d) by lia.
  destruct (0 <=? e) eqn:E0.
  - apply Z.leb_le in E0.
    assert (e = 0) by lia. assert (Hl0 : Z.log2 d = 0) by lia.
    assert (d = 1).
    { rewrite Hl0 in Hspec. change (2 ^ 0) with 1 in Hspec.
      change (2 ^ Z.succ 0) with 2 in Hspec. lia. }
    subst d. replace e with 0 by lia.
    change (1 * 2 ^ 0) with 1. rewrite round_half_even_one.
    assert (Hov : (2 ^ 1024 <=? a * 2 ^ 0) = false).
    { apply Z.leb_gt. change (2 ^ 0) with 1.
      assert (2 ^ 53 < 2 ^ 1024) by (apply Z.pow_lt_mono_r; lia). lia. }
    rewrite Hov. cbn [andb mbind result_bind mret result_ret fst snd].
    exists (1 * a, 0). split; [reflexivity|].
    cbn [int_of_float]. change (0 <=? 0) with true. cbn iota.
    change (2 ^ 0) with 1. rewrite Z.div_1_r. lia.
  - apply Z.leb_gt in E0. cbn [andb mbind result_bind mret result_ret fst snd].
    set (m := round_half_even (a * 2 ^ (- e)) d).
    exists (1 * m, e). split; [reflexivity|].
    cbn [int_of_float]. rewrite (proj2 (Z.leb_gt 0 e) E0).
    assert (Hs : 0 < 2 ^ (- e)) by (apply Z.pow_pos_nonneg; lia).
    assert (Hds : d < 2 * 2 ^ (- e)).
    { assert (2 ^ Z.succ (Z.log2 d) <= 2 * 2 ^ (- e)).
      { rewrite Z.pow_succ_r by lia.
        assert (2 ^ Z.log2 d <= 2 ^ (- e)) by (apply Z.pow_le_mono_r; lia).
        lia. }
      lia. }
    pose proof (round_half_even_floor a d (2 ^ (- e))
                  ltac:(lia) ltac:(lia) Hs Hds) as Hm.
    fold m in Hm. rewrite Z.mul_1_l.
    assert (0 <= a / d) by (apply Z.div_pos; lia).
    rewrite Z.quot_div_nonneg by nia.
    symmetry. apply Z.div_unique with (r := m - (a / d) * 2 ^ (- e)); nia.
Qed.

End TrueDivision.

Lemma format_truediv_exact (n unit : Z) (label : string) :
  0 <= n < 2 ^ 53 -> 0 < unit < 2 ^ 1074 ->
  (q ← truediv n unit; Return (utility.format_d (int_of_float q) label))
  = Return (utility.format_d (n / unit) label).
Proof.
  intros Hn Hu.
  destruct (int_of_truediv_exact n unit Hn Hu) as (q & -> & Hq).
  cbn. now rewrite Hq.
Qed.

Section BytesToPrettyStr.

Import utility.

Variable int_of_str : string -> result Z.

(** C8, amended: a byte count [n] below 2^53, given as an integer or as
    a string, is printed as the truncated quotient by 10^9 with "GB" from
    10^9 on, by 10^6 with "MB" from 10^6 on, and by 1000 with "KB"
    otherwise, also below 1000: 500 gives "0KB", 2500000 gives "2MB" and
    3000000000 gives "3GB". *)
Theorem bytes_to_pretty_str_truncates :
  (forall b n,
      denotes int_of_str b n -> 0 <= n < 2 ^ 53 ->
      bytes_to_pretty_str int_of_str b =
        Return (if 1000000000 <=? n then format_d (n / 1000000000) "GB"
                else if 1000000 <=? n then format_d (n / 1000000) "MB"
                else format_d (n / 1000) "KB"))
  /\ bytes_to_pretty_str int_of_str (ArgInt 500) = Return "0KB"%string
  /\ bytes_to_pretty_str int_of_str (ArgInt 2500000) = Return "2MB"%string
  /\ bytes_to_pretty_str int_of_str (ArgInt 3000000000) = Return "3GB"%string.
Proof.
  split; [|repeat split; vm_compute; reflexivity].
  intros b n Hb Hn. unfold bytes_to_pretty_str.
  assert (Hread : match b with
                  | ArgStr s => int_of_str s
                  | ArgInt n => Return n
                  end = Return n).
  { destruct Hb as [->|(s & -> & Hs)]; [reflexivity|exact Hs]. }
  rewrite Hread. cbn [mbind result_bind].
  assert (H1074 : 2 ^ 30 < 2 ^ 1074) by (apply Z.pow_lt_mono_r; lia).
  change (2 ^ 30) with 1073741824 in H1074.
  destruct (1000000000 <=? n); [|destruct (1000000 <=? n)];
    apply format_truediv_exact; auto; lia.
Qed.

End BytesToPrettyStr.

(** 2500000 bytes, given as an integer. *)
Lemma bytes_to_pretty_str_truncates_witness :
  utility.bytes_to_pretty_str (fun _ => Raise ValueError)
    (utility.ArgInt 2500000)
  = Return (utility.format_d (2500000 / 1000000) "MB").
Proof.
  apply (proj1 (bytes_to_pretty_str_truncates (fun _ => Raise ValueError))
           (utility.ArgInt 2500000) 2500000).
  - left. reflexivity.
  - split; [lia|reflexivity].
Defined.

(** C8 as stated fails at 500: the code prints the truncated quotient
    500 / 1000 = 0 with the "KB" label, not "500KB".  Nor is the
    quotient truncated far above 2^53, where the float division rounds:
    2999999999999999999 prints as "3000000000GB". *)
Lemma bytes_to_pretty_str_500_counterexample :
  utility.bytes_to_pretty_str (fun _ => Raise ValueError)
    (utility.ArgInt 500) = Return "0KB"%string
  /\ utility.bytes_to_pretty_str (fun _ => Raise ValueError)
       (utility.ArgInt 500) <> Return "500KB"%string
  /\ utility.bytes_to_pretty_str (fun _ => Raise ValueError)
       (utility.ArgInt 2999999999999999999)
     = Return "3000000000GB"%string
  /\ 2999999999999999999 / 1000000000 = 2999999999.
Proof.
  repeat split; try (vm_compute; reflexivity).
  vm_compute. discriminate.
Qed.

(** ** IP addresses and the configured network list *)

Section IpNetworks.

Import ipaddress utility.

Lemma split_app_sep (sep : ascii) (a b : string) :
  contains sep a = false ->
  split sep (a +:+ String sep b) = a :: split sep b.
Proof.
  induction a as [|c a IH]; intros Ha.
  - change ("" +:+ String sep b)%string with (String sep b). cbn.
    now rewrite Ascii.eqb_refl.
  - change (String c a +:+ String sep b)%string
      with (String c (a +:+ String sep b)).
    cbn in Ha. apply orb_false_iff in Ha as [Hc Ha].
    cbn. now rewrite Hc, (IH Ha).
Qed.

Lemma split_no_sep (sep : ascii) (a : string) :
  contains sep a = false -> split sep a = [a].
Proof.
  induction a as [|c a IH]; intros Ha; cbn; [reflexivity|].
  cbn in Ha. apply orb_false_iff in Ha as [Hc Ha].
  now rewrite Hc, (IH Ha).
Qed.

Lemma int_of_digits_nonneg_from (cs : list ascii) (acc : Z) :
  0 <= acc -> forallb is_ascii_digit cs = true ->
  0 <= fold_left (fun acc c => acc * 10 + (Z.of_N (N_of_ascii c) - 48)) cs acc.
Proof.
  revert acc. induction cs as [|c cs IH]; intros acc Hacc Hcs; cbn; [exact Hacc|].
  cbn in Hcs. apply andb_true_iff in Hcs as [Hc Hcs].
  apply IH; [|exact Hcs].
  unfold is_ascii_digit in Hc. apply andb_true_iff in Hc as [Hc _].
  apply Z.leb_le in Hc. lia.
Qed.

Lemma parse_octet_range (o : string) (b : Z) :
  parse_octet o = Some b -> 0 <= b <= 255.
Proof.
  unfold parse_octet.
  destruct (String.eqb o ""); [discriminate|].
  destruct (isascii_isdigit o) eqn:Hd; [|discriminate]. cbn [negb].
  destruct (3 <? Z.of_nat (String.length o)); [discriminate|].
  destruct (_ && _); [discriminate|].
  destruct (255 <? int_of_digits o) eqn:Hb; [discriminate|].
  intros [= <-]. apply Z.ltb_ge in Hb. split; [|exact Hb].
  unfold isascii_isdigit in Hd. apply andb_true_iff in Hd as [_ Hd].
  now apply int_of_digits_nonneg_from.
Qed.

Lemma parse_octets_range (os : list string) (bs : list Z) :
  parse_octets os = Some bs ->
  length bs = length os /\ Forall (fun b => 0 <= b <= 255) bs.
Proof.
  revert bs. induction os as [|o os IH]; intros bs; cbn.
  - intros [= <-]. split; [reflexivity|constructor].
  - destruct (parse_octet o) as [b|] eqn:Ho; [|discriminate].
    destruct (parse_octets os) as [bs'|]; [|discriminate].
    intros [= <-]. destruct (IH bs' eq_refl) as [Hl Hf].
    split; [cbn; now rewrite Hl|].
    constructor; [now apply parse_octet_range in Ho|exact Hf].
Qed.

Lemma ipv4_int_from_string_range (s : string) (ip : Z) :
  ipv4_int_from_string s = Some ip -> 0 <= ip < 2 ^ 32.
Proof.
  unfold ipv4_int_from_string.
  destruct (String.eqb s ""); [discriminate|].
  destruct (length (split "." s) =? 4)%nat eqn:Hl; [|discriminate].
  cbn [negb]. apply Nat.eqb_eq in Hl.
  destruct (parse_octets (split "." s)) as [bs|] eqn:Hbs; [|discriminate].
  cbn. intros [= <-].
  destruct (parse_octets_range _ _ Hbs) as [Hlen Hf]. rewrite Hl in Hlen.
  destruct bs as [|b1 [|b2 [|b3 [|b4 [|]]]]]; try discriminate.
  repeat match goal with H : Forall _ (_ :: _) |- _ =>
    apply Forall_cons in H as [? H] end.
  unfold from_bytes_big. cbn. change (2 ^ 32) with 4294967296. lia.
Qed.

Lemma netmask_full (maxlen : Z) :
  0 <= maxlen -> ip_int_from_prefix maxlen maxlen = Z.ones maxlen.
Proof.
  intros H. unfold ip_int_from_prefix, all_ones.
  replace (2 ^ maxlen - 1) with (Z.ones maxlen)
    by (rewrite Z.ones_equiv; lia).
  rewrite Z.shiftr_div_pow2 by lia.
  rewrite Z.ones_div_pow2 by lia.
  rewrite Z.sub_diag. apply Z.lxor_0_r.
Qed.

Lemma host_network_passes (a : IPAddress) :
  0 <= ip_int a < 2 ^ max_prefixlen a ->
  check_host_bits true
    {| network_address := a; prefixlen := max_prefixlen a |}
  = Network {| network_address := a; prefixlen := max_prefixlen a |}.
Proof.
  intros Ha. unfold check_host_bits, netmask. cbn [network_address prefixlen].
  rewrite netmask_full by (destruct a; cbn; lia).
  rewrite Z.land_ones by (destruct a; cbn; lia).
  rewrite Z.mod_small by exact Ha.
  now rewrite Z.eqb_refl.
Qed.

Variable ipv6_int_from_string : string -> option Z.
Hypothesis ipv6_int_from_string_range :
  forall s ip, ipv6_int_from_string s = Some ip -> 0 <= ip < 2 ^ 128.

Lemma ip_address_range (s : string) (a : IPAddress) :
  ip_address ipv6_int_from_string s = Return a ->
  0 <= ip_int a < 2 ^ max_prefixlen a.
Proof.
  unfold ip_address.
  destruct (ipv4_int_from_string s) as [ip|] eqn:H4.
  - intros [= <-]. now apply ipv4_int_from_string_range in H4.
  - destruct (ipv6_int_from_string s) as [ip|] eqn:H6; [|discriminate].
    intros [= <-]. now apply ipv6_int_from_string_range in H6.
Qed.

(** A bare address followed by a slash and its full prefix length is
    read back as the host network of that address. *)
Lemma ip_network_of_host (s : string) (a : IPAddress) :
  contains "/" s = false ->
  ip_address ipv6_int_from_string s = Return a ->
  ip_network ipv6_int_from_string (s +:+ "/" +:+ pretty (max_prefixlen a)) true
  = Return {| network_address := a; prefixlen := max_prefixlen a |}.
Proof.
  intros Hs Ha. pose proof (ip_address_range s a Ha) as Hr.
  revert Ha. unfold ip_address, ip_network, IPv4Network, IPv6Network.
  destruct (ipv4_int_from_string s) as [ip|] eqn:H4.
  - intros [= <-]. change (pretty (max_prefixlen (IPv4Address ip))) with "32"%string.
    change ("/" +:+ "32")%string with (String "/" "32").
    rewrite (split_app_sep "/" s "32" Hs).
    change (split "/" "32") with ["32"%string]. rewrite H4.
    change (prefix_from_prefix_string 32 "32") with (Some 32).
    pose proof (host_network_passes (IPv4Address ip) Hr) as Hh.
    cbn [max_prefixlen] in Hh. cbn iota. now rewrite Hh.
  - destruct (ipv6_int_from_string s) as [ip|] eqn:H6; [|discriminate].
    intros [= <-]. change (pretty (max_prefixlen (IPv6Address ip))) with "128"%string.
    change ("/" +:+ "128")%string with (String "/" "128").
    rewrite (split_app_sep "/" s "128" Hs).
    change (split "/" "128") with ["128"%string]. rewrite H4, H6.
    change (prefix_from_prefix_string 128 "128") with (Some 128).
    pose proof (host_network_passes (IPv6Address ip) Hr) as Hh.
    cbn [max_prefixlen] in Hh. cbn iota. now rewrite Hh.
Qed.

Lemma ip_network_raises (s : string) (strict : bool) (e : exn) :
  ip_network ipv6_int_from_string s strict = Raise e -> e = ValueError.
Proof.
  unfold ip_network.
  destruct (IPv4Network s strict); try congruence.
  destruct (IPv6Network ipv6_int_from_string s strict); congruence.
Qed.

Lemma ip_address_raises (s : string) (e : exn) :
  ip_address ipv6_int_from_string s = Raise e -> e = ValueError.
Proof.
  unfold ip_address.
  destruct (ipv4_int_from_string s); [discriminate|].
  destruct (ipv6_int_from_string s); congruence.
Qed.

(** One entry is handled as the specification describes it. *)
Lemma parse_ip_network_str_spec (entry : string) :
  parse_ip_network_str ipv6_int_from_string entry =
    match spec_entry_network ipv6_int_from_string entry with
    | Some n => Return n
    | None => Raise ValueError
    end.
Proof.
  unfold parse_ip_network_str, spec_entry_network.
  destruct (contains "/" entry) eqn:Hs.
  - destruct (ip_network ipv6_int_from_string entry true) as [n|e] eqn:Hn;
      [reflexivity|].
    now rewrite (ip_network_raises _ _ _ Hn).
  - destruct (ip_address ipv6_int_from_string entry) as [a|e] eqn:Ha; cbn.
    + now apply ip_network_of_host.
    + now rewrite (ip_address_raises _ _ Ha).
Qed.

Lemma parse_loop_all (pieces : list string) :
  forall nets acc,
    Forall2 (fun entry n => spec_entry_network ipv6_int_from_string entry = Some n)
      pieces nets ->
    parse_loop ipv6_int_from_string pieces acc = Return (acc ++ nets).
Proof.
  induction pieces as [|entry pieces IH]; intros nets acc H;
    inversion H as [|? n ? nets' Hn Hrest]; subst; cbn.
  - now rewrite app_nil_r.
  - rewrite parse_ip_network_str_spec, Hn.
    rewrite (IH nets' (acc ++ [n]) Hrest). now rewrite <- app_assoc.
Qed.

Lemma parse_loop_first_bad (good : list string) :
  forall bad rest acc,
    Forall (fun entry => is_Some (spec_entry_network ipv6_int_from_string entry))
      good ->
    spec_entry_network ipv6_int_from_string bad = None ->
    parse_loop ipv6_int_from_string (good ++ bad :: rest) acc
    = Raise (InputValidationError ("Unable to parse IP address: " +:+ bad)).
Proof.
  induction good as [|entry good IH]; intros bad rest acc Hgood Hbad; cbn.
  - now rewrite parse_ip_network_str_spec, Hbad.
  - inversion Hgood as [|? ? [n Hn] Hgood']; subst.
    rewrite parse_ip_network_str_spec, Hn. now apply IH.
Qed.

(** C7: every piece of the comma-separated string is handled in order:
    a piece with a slash becomes the strict CIDR network it denotes, a
    bare address its host network (/32 for IPv4, /128 for IPv6); when
    all pieces parse the result is the list of these networks, and the
    first piece that parses as neither raises [InputValidationError]
    whose message ends with that piece.  "10.0.0.1,192.168.1.0/24"
    gives 10.0.0.1/32 and 192.168.1.0/24, in this order. *)
Theorem parse_csv_ip_ranges_to_ip_networks_spec :
  (forall ip_str nets,
      Forall2 (fun entry n => spec_entry_network ipv6_int_from_string entry = Some n)
        (split "," ip_str) nets ->
      parse_csv_ip_ranges_to_ip_networks ipv6_int_from_string ip_str
      = Return nets)
  /\ (forall ip_str good bad rest,
        split "," ip_str = good ++ bad :: rest ->
        Forall (fun entry =>
                  is_Some (spec_entry_network ipv6_int_from_string entry)) good ->
        spec_entry_network ipv6_int_from_string bad = None ->
        parse_csv_ip_ranges_to_ip_networks ipv6_int_from_string ip_str
        = Raise (InputValidationError ("Unable to parse IP address: " +:+ bad)))
  /\ parse_csv_ip_ranges_to_ip_networks ipv6_int_from_string
       "10.0.0.1,192.168.1.0/24"
     = Return [ {| network_address := IPv4Address 167772161; prefixlen := 32 |};
                {| network_address := IPv4Address 3232235776; prefixlen := 24 |} ].
Proof.
  split; [|split].
  - intros ip_str nets H. unfold parse_csv_ip_ranges_to_ip_networks.
    now rewrite (parse_loop_all _ nets []).
  - intros ip_str good bad rest Hsplit Hgood Hbad.
    unfold parse_csv_ip_ranges_to_ip_networks. rewrite Hsplit.
    now apply parse_loop_first_bad.
  - vm_compute. reflexivity.
Qed.

End IpNetworks.

(** A bare IPv4 address next to the IPv6 loopback, and the list of the
    specification with a piece that is no address, for a reader of IPv6
    text that knows the loopback address only. *)
Lemma parse_csv_ip_ranges_to_ip_networks_spec_witness :
  utility.parse_csv_ip_ranges_to_ip_networks
    (fun s => if String.eqb s "::1" then Some 1 else None) "10.0.0.1,::1"
  = Return [ {| ipaddress.network_address := ipaddress.IPv4Address 167772161;
                ipaddress.prefixlen := 32 |};
             {| ipaddress.network_address := ipaddress.IPv6Address 1;
                ipaddress.prefixlen := 128 |} ]
  /\ utility.parse_csv_ip_ranges_to_ip_networks
       (fun s => if String.eqb s "::1" then Some 1 else None)
       "10.0.0.1,not-an-ip"
     = Raise (InputValidationError "Unable to parse IP address: not-an-ip").
Proof.
  assert (Hrange : forall s ip,
             (if String.eqb s "::1" then Some 1 else None) = Some ip ->
             0 <= ip < 2 ^ 128).
  { intros s ip H. destruct (String.eqb s "::1"); [|discriminate].
    injection H as <-. split; [lia|reflexivity]. }
  destruct (parse_csv_ip_ranges_to_ip_networks_spec
              (fun s => if String.eqb s "::1" then Some 1 else None) Hrange)
    as (Hall & Hbad & _).
  split.
  - apply Hall.
    change (split "," "10.0.0.1,::1") with ["10.0.0.1"%string; "::1"%string].
    constructor; [vm_compute; reflexivity|].
    constructor; [vm_compute; reflexivity|constructor].
  - apply (Hbad "10.0.0.1,not-an-ip"%string ["10.0.0.1"%string]
             "not-an-ip"%string []).
    + vm_compute. reflexivity.
    + constructor; [vm_compute; eauto|constructor].
    + vm_compute. reflexivity.
Defined.

(** ** Login *)

Section Login.

Import ipaddress authentication.

Variable check_password : string -> string -> string -> bool.
Variable hash_password : string -> string -> string.
Variable ipv6_int_from_string : string -> option Z.
Variable tenant_cache : gmap Z TenantState.

Lemma verified_user_from (password : string) (us : list User.t) :
  forall start,
    fold_left
      (fun user u =>
         if check_password password (User.salt u) (User.password u)
         then Some u else user) us start
    = match verified_user check_password password us with
      | Some u => Some u
      | None => start
      end.
Proof.
  unfold verified_user.
  induction us as [|u us IH]; intros start; cbn; [reflexivity|].
  rewrite IH, (IH (if check_password _ _ _ then _ else _)).
  destruct (fold_left _ us None); [reflexivity|].
  now destruct (check_password _ _ _).
Qed.

Lemma verified_user_cons (password : string) (u : User.t) (us : list User.t) :
  verified_user check_password password (u :: us)
  = match verified_user check_password password us with
    | Some v => Some v
    | None =>
        if check_password password (User.salt u) (User.password u)
        then Some u else None
    end.
Proof.
  unfold verified_user at 1. cbn. now rewrite verified_user_from.
Qed.

(** No user is selected exactly when no candidate verifies. *)
Lemma verified_user_None (password : string) (us : list User.t) :
  verified_user check_password password us = None <->
  forall u, In u us ->
    check_password password (User.salt u) (User.password u) = false.
Proof.
  induction us as [|u us IH]; [cbn; tauto|].
  rewrite verified_user_cons.
  destruct (verified_user check_password password us) as [v|] eqn:Hv.
  - split; [discriminate|]. intros H.
    assert (Hnone : Some v = None) by (apply IH; intros; apply H; now right).
    discriminate.
  - destruct (check_password password (User.salt u) (User.password u)) eqn:Hu.
    + split; [discriminate|]. intros H.
      rewrite (H u (or_introl eq_refl)) in Hu. discriminate.
    + split; [|reflexivity]. intros _ u' [<-|Hin]; [exact Hu|].
      now apply (proj1 IH).
Qed.

(** The selected user is a candidate whose password verifies. *)
Lemma verified_user_Some (password : string) (us : list User.t) (user : User.t) :
  verified_user check_password password us = Some user ->
  In user us
  /\ check_password password (User.salt user) (User.password user) = true.
Proof.
  induction us as [|u us IH]; [discriminate|].
  rewrite verified_user_cons.
  destruct (verified_user check_password password us) as [v|].
  - intros [= <-]. destruct (IH eq_refl). split; [now right|assumption].
  - destruct (check_password password (User.salt u) (User.password u)) eqn:Hu;
      [|discriminate].
    intros [= <-]. split; [now left|exact Hu].
Qed.

Lemma In_query_users (d : Store) (tid : Z) (username : string) (u : User.t) :
  In u (query_users d tid username) <->
  In u (users d)
  /\ User.username u = username
  /\ User.state u <> "disabled"%string
  /\ exists ut, In ut (usertenants d)
                /\ UserTenant.user_id ut = User.id u
                /\ UserTenant.tenant_id ut = tid.
Proof.
  unfold query_users. rewrite filter_In, !andb_true_iff, negb_true_iff.
  rewrite String.eqb_eq, String.eqb_neq, existsb_exists.
  split.
  - intros (Hin & (Hn & Hs) & ut & Hut & Hm).
    apply andb_true_iff in Hm as [Hid Ht].
    apply String.eqb_eq in Hid. apply Z.eqb_eq in Ht. eauto 10.
  - intros (Hin & Hn & Hs & ut & Hut & Hid & Ht).
    repeat split; try assumption.
    exists ut. split; [assumption|].
    apply andb_true_iff. now rewrite String.eqb_eq, Z.eqb_eq.
Qed.

Lemma query_whistleblower_None (d : Store) (tid : Z) (hashed_receipt : string) :
  (forall wbtip, In wbtip (whistleblowertips d) ->
     WhistleblowerTip.tid wbtip = tid ->
     WhistleblowerTip.receipt_hash wbtip <> hashed_receipt) ->
  query_whistleblower d tid hashed_receipt = None.
Proof.
  intros H. unfold query_whistleblower.
  replace (List.filter _ (whistleblowertips d)) with (@nil WhistleblowerTip.t);
    [reflexivity|].
  symmetry. induction (whistleblowertips d) as [|wbtip l IH]; [reflexivity|].
  cbn. destruct (String.eqb _ _ && _) eqn:E.
  - apply andb_true_iff in E as [E1 E2].
    apply String.eqb_eq in E1. apply Z.eqb_eq in E2.
    exfalso. apply (H wbtip); [now left|exact E2|exact E1].
  - apply IH. intros w Hw. apply H. now right.
Qed.

(** C2: a staff login in which no enabled user of that name with a
    membership in the tenant has a verifying password, and a
    whistleblower login in which no tip of the tenant has the salted
    hash of the receipt, both end the same way: the counter is one
    higher, nothing else has changed, and [InvalidAuthentication] is
    raised, whether the name or receipt is unknown or the secret is
    wrong. *)
Theorem login_failure_uniform :
  (forall now token w tid username password client_using_tor client_ip,
      (forall u, In u (users (db w)) ->
         User.username u = username ->
         User.state u <> "disabled"%string ->
         (exists ut, In ut (usertenants (db w))
                     /\ UserTenant.user_id ut = User.id u
                     /\ UserTenant.tenant_id ut = tid) ->
         check_password password (User.salt u) (User.password u) = false) ->
      login check_password ipv6_int_from_string tenant_cache now token w tid
        username password client_using_tor client_ip
      = (count_failed_login w, Raise InvalidAuthentication))
  /\ (forall now token w tid receipt client_using_tor tenant,
        tenant_cache !! tid = Some tenant ->
        (forall wbtip, In wbtip (whistleblowertips (db w)) ->
           WhistleblowerTip.tid wbtip = tid ->
           WhistleblowerTip.receipt_hash wbtip
           <> hash_password receipt (receipt_salt tenant)) ->
        login_whistleblower hash_password tenant_cache now token w tid
          receipt client_using_tor
        = (count_failed_login w, Raise InvalidAuthentication))
  /\ (forall w,
        failed_login_attempts (count_failed_login w)
        = failed_login_attempts w + 1
        /\ db (count_failed_login w) = db w
        /\ sessions (count_failed_login w) = sessions w).
Proof.
  split; [|split].
  - intros now token w tid username password client_using_tor client_ip H.
    unfold login.
    assert (Hnone : verified_user check_password password
                      (query_users (db w) tid username) = None).
    { apply verified_user_None. intros u Hu.
      apply In_query_users in Hu as (Hin & Hn & Hs & Hut).
      now apply H. }
    now rewrite Hnone.
  - intros now token w tid receipt client_using_tor tenant Htenant H.
    unfold login_whistleblower, getitem. rewrite Htenant.
    now rewrite (query_whistleblower_None _ _ _ H).
  - intros w. repeat split.
Qed.

(** C3: when the credentials verify, the client is not on Tor and the
    flag of the tenant for the role of the authenticated subject is
    false, the login raises [TorNetworkRequired] and changes nothing:
    for staff the flag is [https_<role>] of the user the loop selected
    (some candidate verifies exactly when one is selected), for
    whistleblowers it is [https_whistleblower]. *)
Theorem login_tor_network_required :
  (forall now token w tid username password client_ip user tenant,
      verified_user check_password password (query_users (db w) tid username)
      = Some user ->
      tenant_cache !! tid = Some tenant ->
      https tenant !! ("https_" +:+ User.role user) = Some false ->
      login check_password ipv6_int_from_string tenant_cache now token w tid
        username password false client_ip
      = (w, Raise TorNetworkRequired))
  /\ (forall w tid username password u,
        In u (query_users (db w) tid username) ->
        check_password password (User.salt u) (User.password u) = true ->
        exists user,
          verified_user check_password password
            (query_users (db w) tid username) = Some user
          /\ In user (query_users (db w) tid username)
          /\ check_password password (User.salt user) (User.password user)
             = true)
  /\ (forall now token w tid receipt tenant wbtip itip,
        tenant_cache !! tid = Some tenant ->
        query_whistleblower (db w) tid
          (hash_password receipt (receipt_salt tenant)) = Some (wbtip, itip) ->
        https tenant !! "https_whistleblower"%string = Some false ->
        login_whistleblower hash_password tenant_cache now token w tid
          receipt false
        = (w, Raise TorNetworkRequired)).
Proof.
  split; [|split].
  - intros now token w tid username password client_ip user tenant
      Huser Htenant Hflag.
    unfold login, tor_network_required, getitem.
    rewrite Huser, Htenant. cbn. now rewrite Hflag.
  - intros w tid username password u Hin Hu.
    destruct (verified_user check_password password
                (query_users (db w) tid username)) as [user|] eqn:Hv.
    + exists user. split; [reflexivity|]. now apply verified_user_Some.
    + rewrite (proj1 (verified_user_None _ _) Hv u Hin) in Hu. discriminate.
  - intros now token w tid receipt tenant wbtip itip Htenant Hq Hflag.
    unfold login_whistleblower, getitem. rewrite Htenant, Hq.
    cbn. now rewrite Hflag.
Qed.

Lemma fold_contains_true (a : IPAddress) (nets : list IPNetwork) :
  fold_left
    (fun success ip_network =>
       if network_contains ip_network a then true else success) nets true
  = true.
Proof.
  induction nets as [|n nets IH]; cbn; [reflexivity|].
  now destruct (network_contains n a).
Qed.

Lemma fold_contains_none (a : IPAddress) (nets : list IPNetwork) (start : bool) :
  (forall n, In n nets -> network_contains n a = false) ->
  fold_left
    (fun success ip_network =>
       if network_contains ip_network a then true else success) nets start
  = start.
Proof.
  induction nets as [|n nets IH]; intros H; cbn; [reflexivity|].
  rewrite (H n (or_introl eq_refl)). apply IH. intros m Hm. apply H. now right.
Qed.

(** C4, amended: for a staff login whose credentials verify and which
    passes the transport check, on a tenant that enables the address
    filter and whose configured list parses to networks, with a client
    address that is an IP address: a loopback client passes the check
    whatever the networks are and the login returns its session; a
    client that is not loopback and lies in none of the networks gets
    [AccessLocationInvalid], and nothing is changed. *)
Theorem login_access_location
    (now : Z) (token : string) (w : World) (tid : Z)
    (username password : string) (client_using_tor : bool)
    (client_ip : string) (user : User.t) (tenant : TenantState)
    (nets : list IPNetwork) (a : IPAddress) :
  verified_user check_password password (query_users (db w) tid username)
  = Some user ->
  tenant_cache !! tid = Some tenant ->
  client_using_tor = true
  \/ https tenant !! ("https_" +:+ User.role user) = Some true ->
  ip_filter_authenticated_enable tenant = true ->
  utility.parse_csv_ip_ranges_to_ip_networks ipv6_int_from_string
    (ip_filter_authenticated tenant) = Return nets ->
  ip_address ipv6_int_from_string client_ip = Return a ->
  (is_loopback a = true ->
   login check_password ipv6_int_from_string tenant_cache now token w tid
     username password client_using_tor client_ip
   = ({| db := stamp_last_login (db w) user now;
         failed_login_attempts := failed_login_attempts w;
         sessions :=
           <[token := {| Sessions.id := token; Sessions.tid := tid;
                         Sessions.user_id := User.id user;
                         Sessions.user_role := User.role user;
                         Sessions.pcn := User.password_change_needed user |}]>
             (sessions w) |},
      Return {| Sessions.id := token; Sessions.tid := tid;
                Sessions.user_id := User.id user;
                Sessions.user_role := User.role user;
                Sessions.pcn := User.password_change_needed user |}))
  /\ (is_loopback a = false ->
      (forall n, In n nets -> network_contains n a = false) ->
      login check_password ipv6_int_from_string tenant_cache now token w tid
        username password client_using_tor client_ip
      = (w, Raise AccessLocationInvalid)).
Proof.
  intros Huser Htenant Htor Henable Hnets Ha.
  assert (Hpass : tor_network_required tenant_cache tid
                    ("https_" +:+ User.role user) client_using_tor
                  = Return false).
  { unfold tor_network_required, getitem.
    destruct Htor as [->|Hflag]; [reflexivity|].
    destruct client_using_tor; [reflexivity|].
    cbn. rewrite Htenant. cbn. now rewrite Hflag. }
  unfold login. rewrite Huser, Hpass. cbn [mbind result_bind].
  unfold getitem. rewrite Htenant. cbn [mbind result_bind].
  rewrite Henable. unfold check_access_location.
  rewrite Hnets, Ha. cbn [mbind result_bind].
  split.
  - intros Hloop. rewrite Hloop, fold_contains_true. reflexivity.
  - intros Hloop Hout. rewrite Hloop, (fold_contains_none _ _ _ Hout).
    reflexivity.
Qed.

(** C10: [check_tenant_auth_switch] returns [True] when the user has
    exactly one membership row for the tenant and raises otherwise
    ([NoResultFound] without a row), so it never returns [False]; and
    the rest of [TenantAuthSwitchHandler.get], were it entered with a
    false [check], would raise [UnboundLocalError] for [session] on a
    known tenant ([KeyError] on an unknown one) and register no
    session, which is not a structured authorization failure. *)
Theorem check_tenant_auth_switch_never_false :
  (forall d current_user tid,
      check_tenant_auth_switch d current_user tid <> Return false
      /\ (check_tenant_auth_switch d current_user tid = Return true
          \/ check_tenant_auth_switch d current_user tid = Raise NoResultFound
          \/ check_tenant_auth_switch d current_user tid
             = Raise MultipleResultsFound)
      /\ ((forall ut, In ut (usertenants d) ->
             ~ (UserTenant.user_id ut = Sessions.user_id current_user
                /\ UserTenant.tenant_id ut = tid)) ->
          check_tenant_auth_switch d current_user tid = Raise NoResultFound))
  /\ (forall token store current_user tid,
        TenantAuthSwitchHandler_get_after_check tenant_cache token store
          current_user tid false
        = (store,
           match tenant_cache !! tid with
           | Some _ => Raise (UnboundLocalError "session")
           | None => Raise KeyError
           end))
  /\ (forall token w current_user tid,
        (forall ut, In ut (usertenants (db w)) ->
           ~ (UserTenant.user_id ut = Sessions.user_id current_user
              /\ UserTenant.tenant_id ut = tid)) ->
        TenantAuthSwitchHandler_get tenant_cache token w current_user tid
        = (sessions w, Raise NoResultFound)).
Proof.
  assert (Hnone : forall d current_user tid,
             (forall ut, In ut (usertenants d) ->
                ~ (UserTenant.user_id ut = Sessions.user_id current_user
                   /\ UserTenant.tenant_id ut = tid)) ->
             check_tenant_auth_switch d current_user tid = Raise NoResultFound).
  { intros d current_user tid H. unfold check_tenant_auth_switch.
    replace (List.filter _ (usertenants d)) with (@nil UserTenant.t);
      [reflexivity|].
    symmetry. induction (usertenants d) as [|ut l IH]; [reflexivity|].
    cbn. destruct (String.eqb _ _ && _) eqn:E.
    - apply andb_true_iff in E as [E1 E2].
      apply String.eqb_eq in E1. apply Z.eqb_eq in E2.
      exfalso. apply (H ut); [now left|now split].
    - apply IH. intros ut' Hut'. apply H. now right. }
  split; [|split].
  - intros d current_user tid. split; [|split].
    + unfold check_tenant_auth_switch.
      destruct (List.filter _ (usertenants d)) as [|ut [|ut' l]]; discriminate.
    + unfold check_tenant_auth_switch.
      destruct (List.filter _ (usertenants d)) as [|ut [|ut' l]]; cbn; auto.
    + apply Hnone.
  - intros token store current_user tid.
    unfold TenantAuthSwitchHandler_get_after_check, getitem.
    now destruct (tenant_cache !! tid).
  - intros token w current_user tid H.
    unfold TenantAuthSwitchHandler_get. now rewrite (Hnone _ _ _ H).
Qed.

End Login.

(** A wrong password for a known receiver, an unknown name, and a wrong
    receipt: the same outcome three times. *)
Lemma login_failure_uniform_witness :
  authentication.login scenario.check_password scenario.ipv6_int_from_string
    (scenario.tenant_cache true "") 0 "tok" scenario.world 1
    "alice" "guess" true "10.0.0.1"
  = (authentication.count_failed_login scenario.world,
     Raise InvalidAuthentication)
  /\ authentication.login scenario.check_password
       scenario.ipv6_int_from_string
       (scenario.tenant_cache true "") 0 "tok" scenario.world 1
       "bob" "secret" true "10.0.0.1"
     = (authentication.count_failed_login scenario.world,
        Raise InvalidAuthentication)
  /\ authentication.login_whistleblower scenario.hash_password
       (scenario.tenant_cache true "") 0 "tok" scenario.world 1 "0000" true
     = (authentication.count_failed_login scenario.world,
        Raise InvalidAuthentication).
Proof.
  destruct (login_failure_uniform scenario.check_password
              scenario.hash_password scenario.ipv6_int_from_string
              (scenario.tenant_cache true "")) as (Hstaff & Hwb & _).
  split; [|split].
  - apply Hstaff. intros u [<-|[]] _ _ _. vm_compute. reflexivity.
  - apply Hstaff. intros u [<-|[]] Hname. vm_compute in Hname. discriminate.
  - apply (Hwb 0 "tok"%string scenario.world 1 "0000"%string true
             (scenario.tenant true "")).
    + vm_compute. reflexivity.
    + intros t [<-|[]] _. vm_compute. discriminate.
Defined.

(** The receiver with her password, and the whistleblower with the
    receipt, over the plain web on a tenant that confines both to Tor. *)
Lemma login_tor_network_required_witness :
  authentication.login scenario.check_password scenario.ipv6_int_from_string
    (scenario.tenant_cache false "") 0 "tok" scenario.world 1
    "alice" "secret" false "10.0.0.1"
  = (scenario.world, Raise TorNetworkRequired)
  /\ authentication.login_whistleblower scenario.hash_password
       (scenario.tenant_cache false "") 0 "tok" scenario.world 1 "1234" false
     = (scenario.world, Raise TorNetworkRequired).
Proof.
  destruct (login_tor_network_required scenario.check_password
              scenario.hash_password scenario.ipv6_int_from_string
              (scenario.tenant_cache false "")) as (Hstaff & _ & Hwb).
  split.
  - apply (Hstaff 0 "tok"%string scenario.world 1 "alice"%string
             "secret"%string "10.0.0.1"%string scenario.alice
             (scenario.tenant false "")).
    + vm_compute. reflexivity.
    + vm_compute. reflexivity.
    + vm_compute. reflexivity.
  - apply (Hwb 0 "tok"%string scenario.world 1 "1234"%string
             (scenario.tenant false "") scenario.wbtip scenario.itip).
    + vm_compute. reflexivity.
    + vm_compute. reflexivity.
    + vm_compute. reflexivity.
Defined.

(** The receiver with her password over the plain web, the filter being
    10.0.0.0/8: from 127.0.0.1 she gets her session, from 192.168.1.5
    [AccessLocationInvalid]. *)
Lemma login_access_location_witness :
  authentication.login scenario.check_password scenario.ipv6_int_from_string
    (scenario.tenant_cache true "10.0.0.0/8") 7 "tok" scenario.world 1
    "alice" "secret" false "127.0.0.1"
  = ({| db := authentication.stamp_last_login scenario.store scenario.alice 7;
        failed_login_attempts := 0;
        sessions :=
          <["tok"%string :=
              {| Sessions.id := "tok"; Sessions.tid := 1;
                 Sessions.user_id := "u1"; Sessions.user_role := "receiver";
                 Sessions.pcn := false |}]> ∅ |},
     Return {| Sessions.id := "tok"; Sessions.tid := 1;
               Sessions.user_id := "u1"; Sessions.user_role := "receiver";
               Sessions.pcn := false |})
  /\ authentication.login scenario.check_password
       scenario.ipv6_int_from_string
       (scenario.tenant_cache true "10.0.0.0/8") 7 "tok" scenario.world 1
       "alice" "secret" false "192.168.1.5"
     = (scenario.world, Raise AccessLocationInvalid).
Proof.
  split.
  - apply (login_access_location scenario.check_password
             scenario.ipv6_int_from_string
             (scenario.tenant_cache true "10.0.0.0/8") 7 "tok"%string
             scenario.world 1 "alice"%string "secret"%string false
             "127.0.0.1"%string scenario.alice
             (scenario.tenant true "10.0.0.0/8")
             [ {| ipaddress.network_address := ipaddress.IPv4Address 167772160;
                  ipaddress.prefixlen := 8 |} ]
             (ipaddress.IPv4Address 2130706433)).
    + vm_compute. reflexivity.
    + vm_compute. reflexivity.
    + right. vm_compute. reflexivity.
    + reflexivity.
    + vm_compute. reflexivity.
    + vm_compute. reflexivity.
    + vm_compute. reflexivity.
  - apply (login_access_location scenario.check_password
             scenario.ipv6_int_from_string
             (scenario.tenant_cache true "10.0.0.0/8") 7 "tok"%string
             scenario.world 1 "alice"%string "secret"%string false
             "192.168.1.5"%string scenario.alice
             (scenario.tenant true "10.0.0.0/8")
             [ {| ipaddress.network_address := ipaddress.IPv4Address 167772160;
                  ipaddress.prefixlen := 8 |} ]
             (ipaddress.IPv4Address 3232235781)).
    + vm_compute. reflexivity.
    + vm_compute. reflexivity.
    + right. vm_compute. reflexivity.
    + reflexivity.
    + vm_compute. reflexivity.
    + vm_compute. reflexivity.
    + vm_compute. reflexivity.
    + intros n [<-|[]]. vm_compute. reflexivity.
Defined.

(** C4 as stated fails twice.  The receiver's credentials verify, the
    filter is on and 192.168.1.5 is neither loopback nor inside the one
    configured network 10.0.0.0/8, yet over the plain web on a tenant
    that confines receivers to Tor the login ends with
    [TorNetworkRequired], the transport check coming first.  And with
    the filter on and the list left empty, the one piece of the list is
    no address: the loopback client 127.0.0.1 gets
    [InputValidationError]. *)
Lemma login_access_location_counterexample :
  (authentication.verified_user scenario.check_password "secret"
     (authentication.query_users scenario.store 1 "alice")
   = Some scenario.alice
   /\ utility.parse_csv_ip_ranges_to_ip_networks scenario.ipv6_int_from_string
        "10.0.0.0/8"
      = Return [ {| ipaddress.network_address :=
                      ipaddress.IPv4Address 167772160;
                    ipaddress.prefixlen := 8 |} ]
   /\ ipaddress.ip_address scenario.ipv6_int_from_string "192.168.1.5"
      = Return (ipaddress.IPv4Address 3232235781)
   /\ ipaddress.is_loopback (ipaddress.IPv4Address 3232235781) = false
   /\ ipaddress.network_contains
        {| ipaddress.network_address := ipaddress.IPv4Address 167772160;
           ipaddress.prefixlen := 8 |}
        (ipaddress.IPv4Address 3232235781) = false
   /\ authentication.login scenario.check_password
        scenario.ipv6_int_from_string
        (scenario.tenant_cache false "10.0.0.0/8") 7 "tok" scenario.world 1
        "alice" "secret" false "192.168.1.5"
      = (scenario.world, Raise TorNetworkRequired))
  /\ (ipaddress.ip_address scenario.ipv6_int_from_string "127.0.0.1"
      = Return (ipaddress.IPv4Address 2130706433)
      /\ ipaddress.is_loopback (ipaddress.IPv4Address 2130706433) = true
      /\ authentication.login scenario.check_password
           scenario.ipv6_int_from_string
           (scenario.tenant_cache true "") 7 "tok" scenario.world 1
           "alice" "secret" true "127.0.0.1"
         = (scenario.world,
            Raise (InputValidationError "Unable to parse IP address: "))).
Proof.
  repeat split; vm_compute; reflexivity.
Qed.

(** The receiver asks for tenant 2, where she has no membership. *)
Lemma check_tenant_auth_switch_never_false_witness :
  authentication.TenantAuthSwitchHandler_get (scenario.tenant_cache true "")
    "tok" scenario.world
    {| Sessions.id := "old"; Sessions.tid := 1; Sessions.user_id := "u1";
       Sessions.user_role := "receiver"; Sessions.pcn := false |} 2
  = (∅, Raise NoResultFound).
Proof.
  apply (proj2 (proj2 (check_tenant_auth_switch_never_false
                         (scenario.tenant_cache true "")))).
  intros ut [<-|[]] [_ Htid]. vm_compute in Htid. discriminate.
Defined.

(** ** Shutdown *)

Section Shutdown.

Import backend.

Lemma finalize_done (now : Z) (self : Service) :
  _shutdown self = true -> finalize now self = self.
Proof. intros H. unfold finalize. now rewrite H. Qed.

Lemma finalize_sets_flag (now : Z) (self : Service) :
  _shutdown (finalize now self) = true.
Proof. unfold finalize. now destruct (_shutdown self) eqn:H. Qed.

Lemma run_reactor_done (calls : pending) (self : Service) :
  _shutdown self = true -> run_reactor calls self = self.
Proof.
  revert self. induction calls as [|c calls IH]; intros self H; [reflexivity|].
  cbn. rewrite (finalize_done _ _ H). now apply IH.
Qed.

(** The reactor finalizes at its first pending call and at no later
    one. *)
Lemma run_reactor_first (c : Z * source) (calls : pending) (self : Service) :
  run_reactor (c :: calls) self = finalize (fst c) self.
Proof.
  cbn. apply run_reactor_done, finalize_sets_flag.
Qed.

Lemma DeferredList_from_nonneg (deferred_list : list (option Z)) :
  forall start delay,
    0 <= start ->
    fold_left
      (fun fired d =>
         match fired, d with
         | Some t, Some t' => Some (Z.max t t')
         | _, _ => None
         end)
      deferred_list (Some start) = Some delay ->
    0 <= delay.
Proof.
  induction deferred_list as [|d ds IH]; intros start delay Hstart; cbn.
  - intros [= <-]. exact Hstart.
  - destruct d as [t|].
    + apply IH. lia.
    + intros H. exfalso. clear IH. revert H.
      induction ds as [|d' ds IH']; cbn; [discriminate|exact IH'].
Qed.

(** The stop collection never fires before the call. *)
Lemma stop_jobs_nonneg jobs services jobs_monitor (delay : Z) :
  stop_jobs jobs services jobs_monitor = Some delay -> 0 <= delay.
Proof.
  unfold stop_jobs, DeferredList.
  apply DeferredList_from_nonneg. lia.
Qed.


End Shutdown.


(** * Part III: further properties of the code *)

(** ** The outcome of a login *)

Ltac outcome_cases :=
  repeat split; try reflexivity; try congruence; try (intros ?; congruence).

Section LoginOutcome.

Import ipaddress authentication.

Variable check_password : string -> string -> string -> bool.
Variable hash_password : string -> string -> string.
Variable ipv6_int_from_string : string -> option Z.
Variable tenant_cache : gmap Z TenantState.

Lemma fold_contains_existsb (a : IPAddress) (nets : list IPNetwork)
    (start : bool) :
  fold_left
    (fun success ip_network =>
       if network_contains ip_network a then true else success) nets start
  = start || existsb (fun n => network_contains n a) nets.
Proof.
  revert start. induction nets as [|n nets IH]; intros start; cbn.
  - now rewrite orb_false_r.
  - rewrite IH. destruct (network_contains n a), start; reflexivity.
Qed.

Lemma parse_ip_network_str_raises (p : string) (e : exn) :
  utility.parse_ip_network_str ipv6_int_from_string p = Raise e ->
  e = ValueError.
Proof.
  unfold utility.parse_ip_network_str.
  destruct (contains "/" p); [apply ip_network_raises|].
  destruct (ip_address ipv6_int_from_string p) as [a|e'] eqn:Ha; cbn.
  - apply ip_network_raises.
  - intros [= <-]. exact (ip_address_raises _ _ _ Ha).
Qed.

Lemma parse_loop_raises (pieces : list string) :
  forall acc e,
    utility.parse_loop ipv6_int_from_string pieces acc = Raise e ->
    exists msg, e = InputValidationError msg.
Proof.
  induction pieces as [|p pieces IH]; intros acc e; cbn; [discriminate|].
  destruct (utility.parse_ip_network_str ipv6_int_from_string p)
    as [n|e'] eqn:Hp.
  - apply IH.
  - rewrite (parse_ip_network_str_raises _ _ Hp). intros [= <-]. eauto.
Qed.

(** The location check as a function of what it reads. *)
Lemma check_access_location_eq (tenant : TenantState) (client_ip : string) :
  check_access_location ipv6_int_from_string tenant client_ip
  = (nets ← utility.parse_csv_ip_ranges_to_ip_networks ipv6_int_from_string
              (ip_filter_authenticated tenant);
     a ← ip_address ipv6_int_from_string client_ip;
     if is_loopback a || existsb (fun n => network_contains n a) nets
     then Return () else Raise AccessLocationInvalid).
Proof.
  unfold check_access_location.
  destruct (utility.parse_csv_ip_ranges_to_ip_networks _ _) as [nets|e];
    [|reflexivity].
  cbn. destruct (ip_address ipv6_int_from_string client_ip) as [a|e];
    [|reflexivity].
  cbn. rewrite fold_contains_existsb.
  destruct (is_loopback a); cbn;
    now destruct (existsb (fun n => network_contains n a) nets).
Qed.

(** X1: the location check of [login] passes exactly when the configured
    list parses into networks, the client address is an IP address, and
    that address is loopback or lies inside at least one of the
    networks. *)
Theorem check_access_location_passes_iff
    (tenant : TenantState) (client_ip : string) :
  check_access_location ipv6_int_from_string tenant client_ip = Return ()
  <-> exists nets a,
        utility.parse_csv_ip_ranges_to_ip_networks ipv6_int_from_string
          (ip_filter_authenticated tenant) = Return nets
        /\ ip_address ipv6_int_from_string client_ip = Return a
        /\ (is_loopback a = true
            \/ exists n, In n nets /\ network_contains n a = true).
Proof.
  rewrite check_access_location_eq. split.
  - destruct (utility.parse_csv_ip_ranges_to_ip_networks _ _) as [nets|e];
      [|discriminate].
    cbn. destruct (ip_address ipv6_int_from_string client_ip) as [a|e];
      [|discriminate].
    cbn. destruct (is_loopback a) eqn:Hl; cbn.
    + intros _. exists nets, a. auto.
    + destruct (existsb _ nets) eqn:Hex; [|discriminate].
      intros _. exists nets, a. apply existsb_exists in Hex. auto.
  - intros (nets & a & -> & -> & H). cbn.
    destruct H as [->|Hex]; [reflexivity|].
    apply existsb_exists in Hex. rewrite Hex. now rewrite orb_true_r.
Qed.

Lemma check_access_location_raises (tenant : TenantState) (client_ip : string)
    (e : exn) :
  check_access_location ipv6_int_from_string tenant client_ip = Raise e ->
  e <> InvalidAuthentication.
Proof.
  rewrite check_access_location_eq.
  unfold utility.parse_csv_ip_ranges_to_ip_networks.
  destruct (utility.parse_loop _ _ _) as [nets|e'] eqn:Hp; cbn.
  - destruct (ip_address ipv6_int_from_string client_ip) as [a|e'] eqn:Ha; cbn.
    + destruct (_ || _); [discriminate|]. intros [= <-]. discriminate.
    + intros [= <-]. rewrite (ip_address_raises _ _ _ Ha). discriminate.
  - intros [= <-]. destruct (parse_loop_raises _ _ _ Hp) as [msg ->].
    discriminate.
Qed.

Lemma tor_network_required_raises (tid : Z) (key : string)
    (client_using_tor : bool) (e : exn) :
  tor_network_required tenant_cache tid key client_using_tor = Raise e ->
  e = KeyError.
Proof.
  unfold tor_network_required, getitem.
  destruct client_using_tor; cbn; [discriminate|].
  destruct (tenant_cache !! tid) as [tenant|]; cbn; [|congruence].
  destruct (https tenant !! key); cbn; congruence.
Qed.

(** The three ways in which [login] ends. *)
Lemma login_cases (now : Z) (token : string) (w : World) (tid : Z)
    (username password : string) (client_using_tor : bool)
    (client_ip : string) :
  match login check_password ipv6_int_from_string tenant_cache now token w
          tid username password client_using_tor client_ip with
  | (w', Raise e) =>
      db w' = db w /\ sessions w' = sessions w
      /\ (e = InvalidAuthentication ->
          verified_user check_password password
            (query_users (db w) tid username) = None
          /\ failed_login_attempts w' = failed_login_attempts w + 1)
      /\ (e <> InvalidAuthentication ->
          verified_user check_password password
            (query_users (db w) tid username) <> None
          /\ failed_login_attempts w' = failed_login_attempts w)
  | (w', Return session) =>
      exists user,
        In user (users (db w))
        /\ User.username user = username
        /\ User.state user <> "disabled"%string
        /\ (exists ut, In ut (usertenants (db w))
                       /\ UserTenant.user_id ut = User.id user
                       /\ UserTenant.tenant_id ut = tid)
        /\ check_password password (User.salt user) (User.password user) = true
        /\ session = {| Sessions.id := token; Sessions.tid := tid;
                        Sessions.user_id := User.id user;
                        Sessions.user_role := User.role user;
                        Sessions.pcn := User.password_change_needed user |}
        /\ sessions w' = <[token := session]> (sessions w)
        /\ db w' = stamp_last_login (db w) user now
        /\ failed_login_attempts w' = failed_login_attempts w
        /\ is_Some (tenant_cache !! tid)
  end.
Proof.
  unfold login.
  destruct (verified_user check_password password
              (query_users (db w) tid username)) as [user|] eqn:Hv.
  2:{ outcome_cases. }
  destruct (tor_network_required tenant_cache tid
              ("https_" +:+ User.role user) client_using_tor)
    as [denied|e] eqn:Htor; cbn [mbind result_bind].
  2:{ rewrite (tor_network_required_raises _ _ _ _ Htor).
      outcome_cases. }
  destruct denied.
  { outcome_cases. }
  unfold getitem.
  destruct (tenant_cache !! tid) as [tenant|] eqn:Ht; cbn [mbind result_bind].
  2:{ outcome_cases. }
  assert (Hok : exists u, user = u
                  /\ In u (users (db w))
                  /\ User.username u = username
                  /\ User.state u <> "disabled"%string
                  /\ (exists ut, In ut (usertenants (db w))
                                 /\ UserTenant.user_id ut = User.id u
                                 /\ UserTenant.tenant_id ut = tid)
                  /\ check_password password (User.salt u) (User.password u)
                     = true).
  { exists user. split; [reflexivity|].
    destruct (verified_user_Some _ _ _ _ Hv) as [Hin Hcp].
    apply In_query_users in Hin. tauto. }
  destruct Hok as (u & <- & Hin & Hn & Hs & Hm & Hcp).
  destruct (ip_filter_authenticated_enable tenant).
  - destruct (check_access_location ipv6_int_from_string tenant client_ip)
      as [[]|e] eqn:Hloc.
    + cbn. exists user. repeat split; try assumption; eauto.
    + pose proof (check_access_location_raises _ _ _ Hloc).
      outcome_cases.
  - cbn. exists user. repeat split; try assumption; eauto.
Qed.

(** What [stamp_last_login] leaves in the database: the rows of the
    user table in their order, each with its columns as they were but
    for the last login, which is the clock reading in the rows with the
    id of the user; the other tables as they were. *)
Lemma stamp_last_login_rows (d : Store) (user : User.t) (now : Z) :
  Forall2
    (fun u u' =>
       User.id u' = User.id u
       /\ User.username u' = User.username u
       /\ User.salt u' = User.salt u
       /\ User.password u' = User.password u
       /\ User.state u' = User.state u
       /\ User.role u' = User.role u
       /\ User.password_change_needed u' = User.password_change_needed u
       /\ User.last_login u'
          = (if decide (User.id u = User.id user) then now
             else User.last_login u))
    (users d) (users (stamp_last_login d user now))
  /\ usertenants (stamp_last_login d user now) = usertenants d
  /\ whistleblowertips (stamp_last_login d user now) = whistleblowertips d
  /\ internaltips (stamp_last_login d user now) = internaltips d.
Proof.
  repeat split. cbn [stamp_last_login users].
  induction (users d) as [|u us IH]; cbn [map]; constructor; [|exact IH].
  destruct (String.eqb_spec (User.id u) (User.id user)) as [E|E];
    destruct (decide (User.id u = User.id user)) as [E'|E'];
    try contradiction; cbn; tauto.
Qed.

Lemma stamp_last_login_user (d : Store) (user : User.t) (now : Z) :
  In user (users d) ->
  exists user',
    In user' (users (stamp_last_login d user now))
    /\ User.id user' = User.id user
    /\ User.last_login user' = now.
Proof.
  intros Hin. cbn [stamp_last_login users].
  eexists. split; [apply in_map, Hin|].
  cbn. rewrite String.eqb_refl. cbn. tauto.
Qed.

(** X2: whatever the request, [login] ends in one of three ways.  It
    raises [InvalidAuthentication], exactly when no candidate verifies,
    and then the counter is one higher; or it raises another error,
    with a verifying user selected and the counter as it was; in both
    cases the database and the session store are untouched.  Or it
    returns a session, which then carries the token, the tenant asked
    for and the id, role and password-change flag of an enabled user of
    that name with a membership in the tenant whose password verifies;
    the session is registered under its token, and the counter is as it
    was (a success does not reset it).  In the database afterwards the
    row of that user has the clock reading as its last login; nothing
    else has changed: the user table has the same rows in the same
    order with every other column as it was, the last login of the
    rows with another id included, and the other tables are as they
    were. *)
Theorem login_outcome (now : Z) (token : string) (w : World) (tid : Z)
    (username password : string) (client_using_tor : bool)
    (client_ip : string) :
  match login check_password ipv6_int_from_string tenant_cache now token w
          tid username password client_using_tor client_ip with
  | (w', Raise e) =>
      db w' = db w /\ sessions w' = sessions w
      /\ (e = InvalidAuthentication ->
          verified_user check_password password
            (query_users (db w) tid username) = None
          /\ failed_login_attempts w' = failed_login_attempts w + 1)
      /\ (e <> InvalidAuthentication ->
          verified_user check_password password
            (query_users (db w) tid username) <> None
          /\ failed_login_attempts w' = failed_login_attempts w)
  | (w', Return session) =>
      exists user,
        In user (users (db w))
        /\ User.username user = username
        /\ User.state user <> "disabled"%string
        /\ (exists ut, In ut (usertenants (db w))
                       /\ UserTenant.user_id ut = User.id user
                       /\ UserTenant.tenant_id ut = tid)
        /\ check_password password (User.salt user) (User.password user) = true
        /\ session = {| Sessions.id := token; Sessions.tid := tid;
                        Sessions.user_id := User.id user;
                        Sessions.user_role := User.role user;
                        Sessions.pcn := User.password_change_needed user |}
        /\ sessions w' = <[token := session]> (sessions w)
        /\ (exists user',
              In user' (users (db w'))
              /\ User.id user' = User.id user
              /\ User.last_login user' = now)
        /\ Forall2
             (fun u u' =>
                User.id u' = User.id u
                /\ User.username u' = User.username u
                /\ User.salt u' = User.salt u
                /\ User.password u' = User.password u
                /\ User.state u' = User.state u
                /\ User.role u' = User.role u
                /\ User.password_change_needed u'
                   = User.password_change_needed u
                /\ User.last_login u'
                   = (if decide (User.id u = User.id user) then now
                      else User.last_login u))
             (users (db w)) (users (db w'))
        /\ usertenants (db w') = usertenants (db w)
        /\ whistleblowertips (db w') = whistleblowertips (db w)
        /\ internaltips (db w') = internaltips (db w)
        /\ failed_login_attempts w' = failed_login_attempts w
        /\ is_Some (tenant_cache !! tid)
  end.
Proof.
  pose proof (login_cases now token w tid username password client_using_tor
                client_ip) as H.
  destruct (login check_password ipv6_int_from_string tenant_cache now token
              w tid username password client_using_tor client_ip)
    as [w' [session|e]]; [|exact H].
  destruct H as (user & Hin & Hn & Hs & Hm & Hcp & Hsession & Hstore & Hdb
                 & Hc & Ht).
  exists user. rewrite Hdb.
  destruct (stamp_last_login_rows (db w) user now) as (Hrows & Hut & Hwb & Hit).
  pose proof (stamp_last_login_user (db w) user now Hin) as Hrow.
  tauto.
Qed.

Lemma query_whistleblower_Some (d : Store) (tid : Z) (hashed_receipt : string)
    (wbtip : WhistleblowerTip.t) (itip : InternalTip.t) :
  query_whistleblower d tid hashed_receipt = Some (wbtip, itip) ->
  In wbtip (whistleblowertips d)
  /\ In itip (internaltips d)
  /\ WhistleblowerTip.receipt_hash wbtip = hashed_receipt
  /\ WhistleblowerTip.tid wbtip = tid
  /\ InternalTip.id itip = WhistleblowerTip.id wbtip
  /\ InternalTip.tid itip = tid.
Proof.
  unfold query_whistleblower. intros H.
  assert (Hin : In (wbtip, itip)
                  (flat_map
                     (fun wbtip =>
                        map (fun itip => (wbtip, itip))
                          (List.filter
                             (fun itip =>
                                String.eqb (InternalTip.id itip)
                                  (WhistleblowerTip.id wbtip)
                                && (InternalTip.tid itip
                                    =? WhistleblowerTip.tid wbtip))
                             (internaltips d)))
                     (List.filter
                        (fun wbtip =>
                           String.eqb (WhistleblowerTip.receipt_hash wbtip)
                             hashed_receipt
                           && (WhistleblowerTip.tid wbtip =? tid))
                        (whistleblowertips d)))).
  { destruct (flat_map _ _) as [|x l]; [discriminate|].
    injection H as ->. now left. }
  apply in_flat_map in Hin as (wb & Hwb & Hpair).
  apply in_map_iff in Hpair as (it & [= -> ->] & Hit).
  apply filter_In in Hwb as [Hwb Hc]. apply filter_In in Hit as [Hit Hc'].
  apply andb_true_iff in Hc as [Hh Ht]. apply andb_true_iff in Hc' as [Hi Ht'].
  apply String.eqb_eq in Hh, Hi. apply Z.eqb_eq in Ht, Ht'.
  repeat split; try assumption. congruence.
Qed.

(** The ways in which [login_whistleblower] ends. *)
Lemma login_whistleblower_cases (now : Z) (token : string) (w : World)
    (tid : Z) (receipt : string) (client_using_tor : bool) :
  match login_whistleblower hash_password tenant_cache now token w tid
          receipt client_using_tor with
  | (w', Raise e) =>
      db w' = db w /\ sessions w' = sessions w
      /\ (e = InvalidAuthentication ->
          (exists tenant,
              tenant_cache !! tid = Some tenant
              /\ query_whistleblower (db w) tid
                   (hash_password receipt (receipt_salt tenant)) = None)
          /\ failed_login_attempts w' = failed_login_attempts w + 1)
      /\ (e <> InvalidAuthentication ->
          failed_login_attempts w' = failed_login_attempts w)
  | (w', Return session) =>
      exists tenant wbtip itip,
        tenant_cache !! tid = Some tenant
        /\ In wbtip (whistleblowertips (db w))
        /\ In itip (internaltips (db w))
        /\ WhistleblowerTip.receipt_hash wbtip
           = hash_password receipt (receipt_salt tenant)
        /\ WhistleblowerTip.tid wbtip = tid
        /\ InternalTip.id itip = WhistleblowerTip.id wbtip
        /\ InternalTip.tid itip = tid
        /\ session = {| Sessions.id := token; Sessions.tid := tid;
                        Sessions.user_id := WhistleblowerTip.id wbtip;
                        Sessions.user_role := "whistleblower";
                        Sessions.pcn := false |}
        /\ sessions w' = <[token := session]> (sessions w)
        /\ db w' = stamp_wb_last_access (db w) itip now
        /\ failed_login_attempts w' = failed_login_attempts w
  end.
Proof.
  unfold login_whistleblower, getitem.
  destruct (tenant_cache !! tid) as [tenant|] eqn:Ht.
  2:{ outcome_cases. }
  destruct (query_whistleblower (db w) tid
              (hash_password receipt (receipt_salt tenant)))
    as [[wbtip itip]|] eqn:Hq.
  2:{ repeat split; try reflexivity; try congruence.
      exists tenant. auto. }
  apply query_whistleblower_Some in Hq.
  destruct client_using_tor; cbn.
  { exists tenant, wbtip, itip. tauto. }
  destruct (https tenant !! "https_whistleblower"%string) as [flag|]; cbn.
  2:{ outcome_cases. }
  destruct flag; cbn.
  { exists tenant, wbtip, itip. tauto. }
  outcome_cases.
Qed.




(** X4: a tip whose receipt hash and tenant match but which has no
    internal tip of the same id and tenant does not log in: the receipt
    is refused like a wrong one, and the counter goes up. *)
Theorem login_whistleblower_needs_internal_tip (now : Z) (token : string)
    (w : World) (tid : Z) (receipt : string) (client_using_tor : bool)
    (tenant : TenantState) :
  tenant_cache !! tid = Some tenant ->
  (forall wbtip itip,
      In wbtip (whistleblowertips (db w)) ->
      In itip (internaltips (db w)) ->
      WhistleblowerTip.receipt_hash wbtip
      = hash_password receipt (receipt_salt tenant) ->
      WhistleblowerTip.tid wbtip = tid ->
      ~ (InternalTip.id itip = WhistleblowerTip.id wbtip
         /\ InternalTip.tid itip = tid)) ->
  login_whistleblower hash_password tenant_cache now token w tid receipt
    client_using_tor
  = (count_failed_login w, Raise InvalidAuthentication).
Proof.
  intros Ht Hnone. unfold login_whistleblower, getitem. rewrite Ht.
  destruct (query_whistleblower (db w) tid
              (hash_password receipt (receipt_salt tenant)))
    as [[wbtip itip]|] eqn:Hq; [|reflexivity].
  apply query_whistleblower_Some in Hq as (Hwb & Hit & Hh & Htid & Hid & Hit').
  exfalso. apply (Hnone wbtip itip); auto.
Qed.

(** X5: what [login] does not read.  For a client on Tor the
    reachability flags of the tenant are not consulted: replacing them,
    even by an empty dictionary, changes nothing.  And with the address
    filter switched off neither the client address nor the configured
    list is looked at: the login ends the same for any two addresses and
    any two lists. *)
Theorem login_does_not_read (now : Z) (token : string) (w : World) (tid : Z)
    (username password : string) (tenant : TenantState) :
  tenant_cache !! tid = Some tenant ->
  (forall flags client_ip,
      login check_password ipv6_int_from_string
        (<[tid := {| receipt_salt := receipt_salt tenant;
                     hostname := hostname tenant;
                     https := flags;
                     ip_filter_authenticated_enable :=
                       ip_filter_authenticated_enable tenant;
                     ip_filter_authenticated :=
                       ip_filter_authenticated tenant |}]> tenant_cache)
        now token w tid username password true client_ip
      = login check_password ipv6_int_from_string tenant_cache now token w
          tid username password true client_ip)
  /\ (ip_filter_authenticated_enable tenant = false ->
      forall client_using_tor client_ip client_ip' ip_filter,
        login check_password ipv6_int_from_string
          (<[tid := {| receipt_salt := receipt_salt tenant;
                       hostname := hostname tenant;
                       https := https tenant;
                       ip_filter_authenticated_enable := false;
                       ip_filter_authenticated := ip_filter |}]> tenant_cache)
          now token w tid username password client_using_tor client_ip'
        = login check_password ipv6_int_from_string tenant_cache now token w
            tid username password client_using_tor client_ip).
Proof.
  intros Ht. split.
  - intros flags client_ip. unfold login.
    destruct (verified_user _ _ _) as [user|]; [|reflexivity].
    unfold tor_network_required, getitem. cbn [negb mbind result_bind].
    rewrite lookup_insert_eq, Ht. cbn [mbind result_bind].
    cbn [ip_filter_authenticated_enable].
    destruct (ip_filter_authenticated_enable tenant); [|reflexivity].
    now rewrite !check_access_location_eq.
  - intros Hoff client_using_tor client_ip client_ip' ip_filter. unfold login.
    destruct (verified_user _ _ _) as [user|]; [|reflexivity].
    unfold tor_network_required, getitem.
    rewrite !lookup_insert_eq, Ht. cbn [mbind result_bind https].
    destruct client_using_tor; cbn [negb mbind result_bind].
    + cbn [ip_filter_authenticated_enable]. now rewrite Hoff.
    + destruct (https tenant !! _) as [flag|]; cbn [mbind result_bind];
        [|reflexivity].
      destruct (negb flag); [reflexivity|].
      cbn [ip_filter_authenticated_enable]. now rewrite Hoff.
Qed.

(** ** The login handlers *)

Lemma login_delay_returns (randbelow : Z -> Z) (w : World) :
  exists sleeps, login_delay randbelow w = Return sleeps.
Proof.
  unfold login_delay, random_login_delay, random.randint.
  destruct (5 <=? failed_login_attempts w) eqn:E5; [|cbn; eauto].
  apply Z.leb_le in E5.
  set (F := failed_login_attempts w) in *.
  assert (Hw : 0 < (if F * F <? 42 then F * F else 42) + 1
                   - (if F <? 42 then F else 42)).
  { destruct (F * F <? 42) eqn:E1; destruct (F <? 42) eqn:E2;
      try apply Z.ltb_lt in E1; try apply Z.ltb_ge in E1;
      try apply Z.ltb_lt in E2; try apply Z.ltb_ge in E2; nia. }
  apply Z.ltb_lt in Hw. rewrite Hw. cbn. eauto.
Qed.

Lemma login_delay_idle (randbelow : Z -> Z) (w : World) :
  failed_login_attempts w < 5 -> login_delay randbelow w = Return [].
Proof.
  intros H. unfold login_delay, random_login_delay.
  apply Z.leb_gt in H. now rewrite H.
Qed.

Lemma login_delay_throttled (randbelow : Z -> Z) (w : World) :
  (forall n, 0 < n -> 0 <= randbelow n < n) ->
  5 <= failed_login_attempts w ->
  exists d, login_delay randbelow w = Return [d] /\ 5 <= d <= 42.
Proof.
  intros Hr H5.
  destruct (random_login_delay_window randbelow Hr _ H5) as (d & Hd & Hb).
  exists d. unfold login_delay. rewrite Hd. cbn.
  assert (Hnz : (d =? 0) = false) by (apply Z.eqb_neq; lia).
  rewrite Hnz. split; [reflexivity|lia].
Qed.

(** X6: [AuthenticationHandler.post] answers with a redirect only when
    the message names a tenant other than 0 and other than the tenant
    of the request; the redirect then points to the host of the named
    tenant and carries the token of a session registered for that
    tenant.  Otherwise a session comes back serialized, and it is a
    session of the tenant of the request; in particular a message with
    tenant 0 logs in on the tenant of the request.  An error is always
    the error of [login] on the resolved tenant: building the redirect
    never fails after a successful login. *)
Theorem AuthenticationHandler_post_answer (randbelow : Z -> Z) (now : Z)
    (token : string) (w : World) (self_request : Request) (tid : Z)
    (username password : string) :
  match AuthenticationHandler_post randbelow check_password
          ipv6_int_from_string tenant_cache now token w self_request
          tid username password with
  | (w', _, Return (Redirect url)) =>
      tid <> 0 /\ tid <> request_tid self_request
      /\ exists tenant session,
           tenant_cache !! tid = Some tenant
           /\ url = ("https://" +:+ hostname tenant +:+ "/#/login?token="
                       +:+ token)%string
           /\ sessions w' !! token = Some session
           /\ Sessions.tid session = tid
  | (w', _, Return (Serialized session)) =>
      (tid = 0 \/ tid = request_tid self_request)
      /\ Sessions.tid session = request_tid self_request
      /\ Sessions.id session = token
      /\ sessions w' !! token = Some session
  | (w', _, Raise e) =>
      login check_password ipv6_int_from_string tenant_cache now token w
        (if tid =? 0 then request_tid self_request else tid)
        username password (request_client_using_tor self_request)
        (request_client_ip self_request)
      = (w', Raise e)
  end.
Proof.
  unfold AuthenticationHandler_post.
  destruct (login_delay_returns randbelow w) as [sleeps ->].
  set (eff := if tid =? 0 then request_tid self_request else tid).
  pose proof (login_cases now token w eff username password
                (request_client_using_tor self_request)
                (request_client_ip self_request)) as Hcases.
  destruct (login check_password ipv6_int_from_string tenant_cache now token
              w eff username password _ _) as [w' [session|e]];
    [|reflexivity].
  destruct Hcases as (user & _ & _ & _ & _ & _ & Hs & Hstore & _ & _ & Ht).
  cbn [mbind result_bind].
  destruct (eff =? request_tid self_request) eqn:Eeq; cbn [negb].
  - apply Z.eqb_eq in Eeq.
    assert (Htid : tid = 0 \/ tid = request_tid self_request).
    { subst eff. destruct (tid =? 0) eqn:E0; [apply Z.eqb_eq in E0|]; auto. }
    split; [exact Htid|]. rewrite Hstore, lookup_insert_eq, Hs. cbn.
    repeat split. exact Eeq.
  - apply Z.eqb_neq in Eeq. unfold redirect, getitem.
    destruct Ht as [tenant Ht]. rewrite Ht. cbn.
    assert (Htid : tid <> 0 /\ eff = tid).
    { subst eff. destruct (tid =? 0) eqn:E0.
      - congruence.
      - apply Z.eqb_neq in E0. auto. }
    destruct Htid as [Hnz Heff]. rewrite Heff in *.
    repeat split; try assumption.
    exists tenant, session. rewrite Hs at 1. cbn.
    repeat split; try assumption.
    + now rewrite Hstore, lookup_insert_eq.
    + now rewrite Hs.
Qed.

(** X7: [TokenAuthHandler.post] treats a token whose session belongs to
    another tenant than the resolved one like a token that is not
    registered: the counter is one higher, nothing else changes, and
    [InvalidAuthentication] is raised; tenant 0 in the message stands
    for the tenant of the request. *)
Theorem TokenAuthHandler_post_refuses (randbelow : Z -> Z)
    (new_token : string) (w : World) (self_request : Request) (tid : Z)
    (token : string) :
  (sessions w !! token = None
   \/ exists session,
        sessions w !! token = Some session
        /\ Sessions.tid session
           <> (if tid =? 0 then request_tid self_request else tid)) ->
  exists sleeps,
    TokenAuthHandler_post randbelow tenant_cache new_token w self_request
      tid token
    = (count_failed_login w, sleeps, Raise InvalidAuthentication).
Proof.
  intros H. unfold TokenAuthHandler_post, Sessions.get.
  destruct (login_delay_returns randbelow w) as [sleeps ->].
  exists sleeps. destruct H as [->|(session & -> & Hne)]; [reflexivity|].
  apply Z.eqb_neq in Hne. now rewrite Hne.
Qed.

Lemma is_InvalidAuthentication (e : exn) :
  e = InvalidAuthentication \/ e <> InvalidAuthentication.
Proof. destruct e; auto; right; discriminate. Qed.

Lemma serve_counter (w : World) (a : attempt) :
  match serve check_password hash_password ipv6_int_from_string tenant_cache
          w a with
  | (w', sleeps, _) =>
      failed_login_attempts w <= failed_login_attempts w'
      <= failed_login_attempts w + 1
      /\ login_delay (attempt_randbelow a) w = Return sleeps
  end.
Proof.
  destruct a as [rb now token req tid username password
                |rb new_token req tid token
                |rb now token req receipt]; cbn [serve attempt_randbelow].
  - unfold AuthenticationHandler_post.
    destruct (login_delay_returns rb w) as [sleeps ->].
    pose proof (login_cases now token w
                  (if tid =? 0 then request_tid req else tid)
                  username password (request_client_using_tor req)
                  (request_client_ip req)) as Hcases.
    destruct (login _ _ _ _ _ _ _ _ _ _ _) as [w' [session|e]].
    + destruct Hcases as (user & _ & _ & _ & _ & _ & _ & _ & _ & Hc & _).
      split; [lia|reflexivity].
    + destruct Hcases as (_ & _ & Hia & Hother).
      split; [|reflexivity].
      destruct (is_InvalidAuthentication e) as [He|He].
      * destruct (Hia He). lia.
      * destruct (Hother He). lia.
  - unfold TokenAuthHandler_post.
    destruct (login_delay_returns rb w) as [sleeps ->].
    destruct (Sessions.get (sessions w) token) as [session|];
      [|cbn; split; [lia|reflexivity]].
    destruct (negb _); [cbn; split; [lia|reflexivity]|].
    destruct (Sessions.regenerate _ _ _) as [store r]. cbn.
    split; [lia|reflexivity].
  - unfold ReceiptAuthHandler_post.
    destruct (login_delay_returns rb w) as [sleeps ->].
    pose proof (login_whistleblower_cases now token w (request_tid req)
                  receipt (request_client_using_tor req)) as Hcases.
    destruct (login_whistleblower _ _ _ _ _ _ _ _) as [w' [session|e]].
    + destruct Hcases as (tenant & wbtip & itip & Hc).
      split; [lia|reflexivity].
    + destruct Hcases as (_ & _ & Hia & Hother).
      split; [|reflexivity].
      destruct (is_InvalidAuthentication e) as [He|He].
      * destruct (Hia He). lia.
      * destruct (Hother He). lia.
Qed.

(** X8: over any sequence of login requests of the three kinds the
    counter of failed logins never goes down, a success does not reset
    it, and it grows by at most one per request.  While fewer than five
    failures have been counted no request is delayed; once five have
    been counted every later request sleeps, between 5 and 42 seconds,
    before its credentials are looked at. *)
Theorem serve_all_throttle (attempts : list attempt) : forall w,
  match serve_all check_password hash_password ipv6_int_from_string
          tenant_cache w attempts with
  | (w', slept) =>
      failed_login_attempts w <= failed_login_attempts w'
      <= failed_login_attempts w + Z.of_nat (length attempts)
      /\ length slept = length attempts
      /\ (failed_login_attempts w + Z.of_nat (length attempts) <= 5 ->
          Forall (fun sleeps => sleeps = []) slept)
      /\ (5 <= failed_login_attempts w ->
          Forall (fun a => forall n, 0 < n -> 0 <= attempt_randbelow a n < n)
            attempts ->
          Forall (fun sleeps => exists d, sleeps = [d] /\ 5 <= d <= 42) slept)
  end.
Proof.
  induction attempts as [|a attempts IH]; intros w.
  - cbn. repeat split; try lia; constructor.
  - cbn [serve_all].
    pose proof (serve_counter w a) as Hstep.
    destruct (serve _ _ _ _ w a) as [[w1 sleeps] r].
    destruct Hstep as [Hc Hd].
    specialize (IH w1).
    destruct (serve_all _ _ _ _ w1 attempts) as [w' slept].
    destruct IH as (Hc' & Hlen & Hidle & Hthr).
    cbn [length]. rewrite Nat2Z.inj_succ.
    split; [lia|]. split; [cbn; now rewrite Hlen|]. split.
    + intros Hfew. constructor.
      * rewrite login_delay_idle in Hd by lia. congruence.
      * apply Hidle. lia.
    + intros H5 Hrb. inversion Hrb as [|? ? Ha Hrest]; subst.
      constructor.
      * destruct (login_delay_throttled _ w Ha H5) as (d & Hd' & Hb).
        exists d. split; [congruence|exact Hb].
      * apply Hthr; [lia|exact Hrest].
Qed.

(** X9: [TenantAuthSwitchHandler.get] for a user with exactly one
    membership row for the tenant registers a session for that tenant
    with the id, role and password-change flag of the current session
    and answers with the redirect to the host of the tenant carrying the
    new token; when the tenant is not in the cache the session is
    registered all the same and the request ends in [KeyError]. *)
Theorem TenantAuthSwitchHandler_get_switches (token : string) (w : World)
    (current_user : Sessions.Session) (tid : Z) (ut : UserTenant.t) :
  List.filter
    (fun ut => String.eqb (UserTenant.user_id ut)
                 (Sessions.user_id current_user)
               && (UserTenant.tenant_id ut =? tid))
    (usertenants (db w)) = [ut] ->
  TenantAuthSwitchHandler_get tenant_cache token w current_user tid
  = (<[token := {| Sessions.id := token; Sessions.tid := tid;
                   Sessions.user_id := Sessions.user_id current_user;
                   Sessions.user_role := Sessions.user_role current_user;
                   Sessions.pcn := Sessions.pcn current_user |}]>
       (sessions w),
     match tenant_cache !! tid with
     | Some tenant =>
         Return ("https://" +:+ hostname tenant +:+ "/#/login?token="
                   +:+ token)%string
     | None => Raise KeyError
     end).
Proof.
  intros Hone.
  unfold TenantAuthSwitchHandler_get, check_tenant_auth_switch.
  rewrite Hone. cbn.
  unfold getitem. now destruct (tenant_cache !! tid).
Qed.

End LoginOutcome.

(** The right receipt for a tip that has no internal tip. *)
Lemma login_whistleblower_needs_internal_tip_witness :
  authentication.login_whistleblower scenario.hash_password
    (scenario.tenant_cache true "") 0 "tok" scenario.orphan_world 1 "1234"
    true
  = (authentication.count_failed_login scenario.orphan_world,
     Raise InvalidAuthentication).
Proof.
  apply (login_whistleblower_needs_internal_tip scenario.hash_password
           (scenario.tenant_cache true "") 0 "tok"%string
           scenario.orphan_world 1 "1234"%string true
           (scenario.tenant true "")).
  - vm_compute. reflexivity.
  - intros wbtip itip _ [].
Defined.

(** The receiver on Tor with the flags of the tenant emptied, and over
    the plain web with the filter off and a list that does not parse. *)
Lemma login_does_not_read_witness :
  authentication.login scenario.check_password scenario.ipv6_int_from_string
    (<[1 := {| receipt_salt := "r"; hostname := "example.org";
               https := ∅;
               ip_filter_authenticated_enable := true;
               ip_filter_authenticated := "10.0.0.0/8" |}]>
       (scenario.tenant_cache false "10.0.0.0/8"))
    0 "tok" scenario.world 1 "alice" "secret" true "10.1.2.3"
  = authentication.login scenario.check_password
      scenario.ipv6_int_from_string
      (scenario.tenant_cache false "10.0.0.0/8")
      0 "tok" scenario.world 1 "alice" "secret" true "10.1.2.3".
Proof.
  apply (proj1 (login_does_not_read scenario.check_password
                  scenario.ipv6_int_from_string
                  (scenario.tenant_cache false "10.0.0.0/8")
                  0 "tok"%string scenario.world 1 "alice"%string
                  "secret"%string (scenario.tenant false "10.0.0.0/8")
                  ltac:(vm_compute; reflexivity))).
Defined.

(** The token of a session of tenant 2, presented to tenant 1 in a
    message that names tenant 0. *)
Lemma TokenAuthHandler_post_refuses_witness :
  exists sleeps,
    authentication.TokenAuthHandler_post (fun n => n - 1)
      (scenario.tenant_cache true "") "new" scenario.visiting_world
      scenario.request 0 "tok2"
    = (authentication.count_failed_login scenario.visiting_world, sleeps,
       Raise InvalidAuthentication).
Proof.
  apply TokenAuthHandler_post_refuses.
  right.
  exists {| Sessions.id := "tok2"; Sessions.tid := 2;
            Sessions.user_id := "u1"; Sessions.user_role := "receiver";
            Sessions.pcn := false |}.
  split; [vm_compute; reflexivity|].
  vm_compute. discriminate.
Defined.

(** The receiver switches to tenant 1, of which she is a member. *)
Lemma TenantAuthSwitchHandler_get_switches_witness :
  authentication.TenantAuthSwitchHandler_get (scenario.tenant_cache true "")
    "tok" scenario.world
    {| Sessions.id := "old"; Sessions.tid := 2; Sessions.user_id := "u1";
       Sessions.user_role := "receiver"; Sessions.pcn := false |} 1
  = (<["tok"%string :=
         {| Sessions.id := "tok"; Sessions.tid := 1;
            Sessions.user_id := "u1"; Sessions.user_role := "receiver";
            Sessions.pcn := false |}]> ∅,
     match scenario.tenant_cache true "" !! 1 with
     | Some tenant =>
         Return ("https://" +:+ hostname tenant +:+ "/#/login?token="
                   +:+ "tok")%string
     | None => Raise KeyError
     end).
Proof.
  apply (TenantAuthSwitchHandler_get_switches
           (scenario.tenant_cache true "") "tok"%string scenario.world
           {| Sessions.id := "old"; Sessions.tid := 2;
              Sessions.user_id := "u1"; Sessions.user_role := "receiver";
              Sessions.pcn := false |} 1
           {| UserTenant.user_id := "u1"; UserTenant.tenant_id := 1 |}).
  vm_compute. reflexivity.
Defined.

(** ** The cache around the handlers *)

Section ApiCacheDecorators.

Import apicache.

Variable compress : Z -> bytes -> bytes.

(** X10: [ApiCache.set] touches its own key triple only: the entry of
    every other triple is what it was, also when the call creates the
    sub-maps of a new tenant or resource; and a call that fails (a text
    that cannot be encoded) leaves the whole dictionary as it was. *)
Theorem apicache_set_frame (c : memory_cache_dict) (mtime tid : Z)
    (resource language content_type : string) (d : data) :
  (forall tid' resource' language',
      ~ (tid = tid' /\ resource = resource' /\ language = language') ->
      get (fst (set compress mtime c tid resource language content_type d))
        tid' resource' language'
      = get c tid' resource' language')
  /\ (forall e,
        snd (set compress mtime c tid resource language content_type d)
        = Raise e ->
        fst (set compress mtime c tid resource language content_type d) = c).
Proof.
  split.
  - intros tid' resource' language' Hne. now apply get_set_other.
  - intros e. destruct (gzipdata compress mtime d) as [gz|e'] eqn:Hgz.
    + rewrite (set_returns _ _ _ _ _ _ _ _ _ Hgz). discriminate.
    + now rewrite (set_raises _ _ _ _ _ _ _ _ _ Hgz).
Qed.

Section Handlers.

Context {J : Type}.
Variable json_dumps : J -> text.

Lemma getRawHeader_setHeader (value default : string) (r : Request) :
  getRawHeader "Content-type" default (setHeader "Content-type" value r)
  = value.
Proof.
  unfold getRawHeader, setHeader. cbn [responseHeaders].
  now rewrite lookup_insert_eq.
Qed.

Lemma content_encoding_set (value : string) (r : Request) :
  responseHeaders (setHeader "Content-encoding" value r)
    !! "content-encoding"%string = Some value.
Proof.
  unfold setHeader. cbn [responseHeaders].
  change (lower "Content-encoding") with "content-encoding"%string.
  apply lookup_insert_eq.
Qed.

Lemma content_type_behind_encoding (value default : string) (r : Request) :
  getRawHeader "Content-type" default (setHeader "Content-encoding" value r)
  = match responseHeaders r !! "content-type"%string with
    | Some ct => ct
    | None => default
    end.
Proof.
  unfold getRawHeader, setHeader. cbn [responseHeaders].
  change (lower "Content-encoding") with "content-encoding"%string.
  change (lower "Content-type") with "content-type"%string.
  now rewrite lookup_insert_ne by discriminate.
Qed.

(** X11: a body answered by the wrapper of [decorator_cache_get] is
    answered again, from the cache, to every later request with the same
    tenant, path and language: the handler of the later request is not
    consulted, the cache stays as it is, the body is the same and the
    answer is marked as gzip.  The content type the replay sends is the
    one stored with the entry: the [Content-type] header the first
    answer carried, or [application/json] when it carried none.  So a
    text or byte string from a handler that sets no content type goes
    out without a [Content-type] header the first time and with
    [application/json] every time after. *)
Theorem decorator_cache_get_replay (mtime mtime' : Z)
    (f f' : Request -> gmap string string * result (handler_data J))
    (c c1 : memory_cache_dict) (r r1 r' : Request) (body : bytes) :
  decorator_cache_get json_dumps compress mtime f c r = (c1, r1, Return body) ->
  request_tid r' = request_tid r ->
  request_path r' = request_path r ->
  request_language r' = request_language r ->
  exists content_type r1',
    decorator_cache_get json_dumps compress mtime' f' c1 r'
    = (c1, r1', Return body)
    /\ get c1 (request_tid r) (request_path r) (request_language r)
       = Some (content_type, body)
    /\ content_type
       = default "application/json"%string
           (responseHeaders r1 !! "content-type"%string)
    /\ r1' = setHeader "Content-type" content_type
               (setHeader "Content-encoding" "gzip" r')
    /\ responseHeaders r1' !! "content-type"%string = Some content_type
    /\ responseHeaders r1' !! "content-encoding"%string
       = Some "gzip"%string.
Proof.
  intros Hfirst Ht Hp Hl.
  assert (Hentry : get c1 (request_tid r) (request_path r)
                     (request_language r)
                   = Some (getRawHeader "Content-type" "application/json" r1,
                           body)).
  { unfold decorator_cache_get in Hfirst.
    destruct (get c (request_tid r) (request_path r) (request_language r))
      as [[ct gz]|] eqn:Hget.
    - injection Hfirst as <- <- <-. cbn [fst snd].
      now rewrite getRawHeader_setHeader.
    - destruct (f r) as [headers [data|e]]; [|discriminate].
      set (r0 := {| request_tid := request_tid r;
                    request_path := request_path r;
                    request_language := request_language r;
                    responseHeaders := headers |}) in *.
      destruct (match data with
                | JsonValue j =>
                    (setHeader "content-type" "application/json" r0,
                     Text (json_dumps j))
                | Body d => (r0, d)
                end) as [r2 d] eqn:Hdata.
      assert (Hkeys : request_tid r2 = request_tid r
                      /\ request_path r2 = request_path r
                      /\ request_language r2 = request_language r).
      { destruct data; injection Hdata as <- <-; auto. }
      destruct Hkeys as (Ht2 & Hp2 & Hl2).
      cbn [setHeader request_tid request_path request_language] in Hfirst.
      rewrite Ht2, Hp2, Hl2 in Hfirst.
      destruct (gzipdata compress mtime d) as [gz|e] eqn:Hgz.
      + rewrite (set_returns _ _ _ _ _ _ _ _ _ Hgz) in Hfirst.
        cbn in Hfirst. injection Hfirst as <- <- <-.
        pose proof (get_set_same compress c mtime (request_tid r)
                      (request_path r) (request_language r)
                      (getRawHeader "Content-type" "application/json"
                         (setHeader "Content-encoding" "gzip" r2)) d gz Hgz)
          as Hsame.
        rewrite (set_returns _ _ _ _ _ _ _ _ _ Hgz) in Hsame.
        cbn [fst] in Hsame. exact Hsame.
      + rewrite (set_raises _ _ _ _ _ _ _ _ _ Hgz) in Hfirst. discriminate. }
  exists (getRawHeader "Content-type" "application/json" r1).
  eexists. split; [|split; [exact Hentry|split; [|split; [reflexivity|]]]].
  - unfold decorator_cache_get. rewrite Ht, Hp, Hl, Hentry. reflexivity.
  - unfold getRawHeader.
    change (lower "Content-type") with "content-type"%string.
    now destruct (responseHeaders r1 !! "content-type"%string).
  - split.
    + cbn [setHeader responseHeaders].
      change (lower "Content-type") with "content-type"%string.
      apply lookup_insert_eq.
    + cbn [setHeader responseHeaders].
      change (lower "Content-type") with "content-type"%string.
      change (lower "Content-encoding") with "content-encoding"%string.
      rewrite lookup_insert_ne by discriminate. apply lookup_insert_eq.
Qed.

(** X12: an error is not cached.  When the wrapper of
    [decorator_cache_get] ends in an exception (the handler raised, or
    its text could not be encoded), there was no entry for the request
    and the cache is left exactly as it was, so the next request runs
    the handler again. *)
Theorem decorator_cache_get_error_not_cached (mtime : Z)
    (f : Request -> gmap string string * result (handler_data J))
    (c c1 : memory_cache_dict) (r r1 : Request) (e : exn) :
  decorator_cache_get json_dumps compress mtime f c r = (c1, r1, Raise e) ->
  c1 = c
  /\ get c (request_tid r) (request_path r) (request_language r) = None.
Proof.
  unfold decorator_cache_get.
  destruct (get c (request_tid r) (request_path r) (request_language r))
    as [[ct gz]|]; [discriminate|].
  destruct (f r) as [headers [data|e']].
  2:{ intros [= <- _ _]. auto. }
  destruct (match data with
            | JsonValue j => _
            | Body d => _
            end) as [r2 d].
  destruct (gzipdata compress mtime d) as [gz|e'] eqn:Hgz.
  - rewrite (set_returns _ _ _ _ _ _ _ _ _ Hgz). discriminate.
  - rewrite (set_raises _ _ _ _ _ _ _ _ _ Hgz). intros [= <- _ _]. auto.
Qed.

(** X13: on a miss, a [dict] or [list] returned by the handler is stored
    and sent as [application/json], whatever content type the handler
    had set; a text or byte string is stored under the content type the
    handler set, or under [application/json] when it set none. *)
Theorem decorator_cache_get_content_type (mtime : Z)
    (f : Request -> gmap string string * result (handler_data J))
    (c c1 : memory_cache_dict) (r r1 : Request) (body : bytes)
    (headers : gmap string string) (data : handler_data J) :
  get c (request_tid r) (request_path r) (request_language r) = None ->
  f r = (headers, Return data) ->
  decorator_cache_get json_dumps compress mtime f c r = (c1, r1, Return body) ->
  get c1 (request_tid r) (request_path r) (request_language r)
  = Some (match data with
          | JsonValue _ => "application/json"%string
          | Body _ => default "application/json"%string
                        (headers !! "content-type"%string)
          end, body)
  /\ responseHeaders r1 !! "content-encoding"%string = Some "gzip"%string.
Proof.
  intros Hmiss Hf. unfold decorator_cache_get. rewrite Hmiss, Hf.
  set (r0 := {| request_tid := request_tid r;
                request_path := request_path r;
                request_language := request_language r;
                responseHeaders := headers |}).
  destruct data as [j|d].
  - cbn [setHeader request_tid request_path request_language].
    destruct (gzipdata compress mtime (Text (json_dumps j))) as [gz|e] eqn:Hgz.
    + pose proof (get_set_same compress c mtime (request_tid r)
                    (request_path r) (request_language r)
                    (getRawHeader "Content-type" "application/json"
                       (setHeader "Content-encoding" "gzip"
                          (setHeader "content-type" "application/json" r0)))
                    _ gz Hgz) as Hsame.
      rewrite (set_returns _ _ _ _ _ _ _ _ _ Hgz).
      cbn [fst snd mbind result_bind]. intros [= <- <- <-].
      split; [|apply content_encoding_set].
      rewrite (set_returns _ _ _ _ _ _ _ _ _ Hgz) in Hsame.
      cbn [fst] in Hsame.
      rewrite Hsame, content_type_behind_encoding.
      unfold setHeader. cbn [responseHeaders].
      change (lower "content-type") with "content-type"%string.
      now rewrite lookup_insert_eq.
    + rewrite (set_raises _ _ _ _ _ _ _ _ _ Hgz). discriminate.
  - cbn [setHeader request_tid request_path request_language].
    destruct (gzipdata compress mtime d) as [gz|e] eqn:Hgz.
    + pose proof (get_set_same compress c mtime (request_tid r)
                    (request_path r) (request_language r)
                    (getRawHeader "Content-type" "application/json"
                       (setHeader "Content-encoding" "gzip" r0))
                    _ gz Hgz) as Hsame.
      rewrite (set_returns _ _ _ _ _ _ _ _ _ Hgz).
      cbn [fst snd mbind result_bind]. intros [= <- <- <-].
      split; [|apply content_encoding_set].
      rewrite (set_returns _ _ _ _ _ _ _ _ _ Hgz) in Hsame.
      cbn [fst] in Hsame.
      rewrite Hsame, content_type_behind_encoding. subst r0.
      cbn [responseHeaders]. now destruct (headers !! "content-type"%string).
    + rewrite (set_raises _ _ _ _ _ _ _ _ _ Hgz). discriminate.
Qed.

End Handlers.

(** X14: after the wrapper of [decorator_cache_invalidate] the cache
    holds nothing for the tenant of the request.  The entries of the
    other tenants survive only when the handler declares
    [invalidate_cache] and the request is not on tenant 1; a request on
    tenant 1, or a handler that does not declare it, empties the whole
    cache.  The handler's result is returned as it is. *)
Theorem decorator_cache_invalidate_scope {A : Type} (invalidate_cache : bool)
    (f : Request -> A) (c : memory_cache_dict) (r : Request) :
  (forall resource language,
      get (fst (decorator_cache_invalidate invalidate_cache f c r))
        (request_tid r) resource language = None)
  /\ (invalidate_cache = true -> request_tid r <> 1 ->
      forall tid, tid <> request_tid r ->
        fst (decorator_cache_invalidate invalidate_cache f c r) !! tid
        = c !! tid)
  /\ (invalidate_cache = false \/ request_tid r = 1 ->
      fst (decorator_cache_invalidate invalidate_cache f c r) = ∅)
  /\ snd (decorator_cache_invalidate invalidate_cache f c r) = f r.
Proof.
  unfold decorator_cache_invalidate. cbn [fst snd].
  split; [|split; [|split]].
  - intros resource language.
    destruct (invalidate_cache && negb (request_tid r =? 1)).
    + apply get_invalidate_tenant.
    + apply get_invalidate_all.
  - intros -> Hne tid Htid. apply Z.eqb_neq in Hne. rewrite Hne. cbn.
    now rewrite lookup_delete_ne.
  - intros [->|Hone]; [reflexivity|].
    apply Z.eqb_eq in Hone. rewrite Hone. now rewrite andb_false_r.
  - reflexivity.
Qed.

End ApiCacheDecorators.

(** The text handler, which sets no content type, answers a first
    request, without a [Content-type] header; a second request for the
    same keys, with a handler that would fail, gets the same body, now
    as [application/json]. *)
Lemma decorator_cache_get_replay_witness :
  apicache.responseHeaders
    (snd (fst (apicache.decorator_cache_get scenario.json_dumps
                 scenario.frame 5 scenario.text_handler
                 scenario.other_cache scenario.api_request)))
    !! "content-type"%string = None
  /\ exists r1',
      apicache.decorator_cache_get scenario.json_dumps scenario.frame 9
        scenario.failing_handler
        (fst (fst (apicache.decorator_cache_get scenario.json_dumps
                     scenario.frame 5 scenario.text_handler
                     scenario.other_cache scenario.api_request)))
        scenario.api_request
      = (fst (fst (apicache.decorator_cache_get scenario.json_dumps
                     scenario.frame 5 scenario.text_handler
                     scenario.other_cache scenario.api_request)),
         r1', Return [5; 104; 105])
      /\ apicache.responseHeaders r1' !! "content-type"%string
         = Some "application/json"%string
      /\ apicache.responseHeaders r1' !! "content-encoding"%string
         = Some "gzip"%string.
Proof.
  split; [vm_compute; reflexivity|].
  destruct (decorator_cache_get_replay scenario.frame scenario.json_dumps 5 9
              scenario.text_handler scenario.failing_handler
              scenario.other_cache
              (fst (fst (apicache.decorator_cache_get scenario.json_dumps
                           scenario.frame 5 scenario.text_handler
                           scenario.other_cache scenario.api_request)))
              scenario.api_request
              (snd (fst (apicache.decorator_cache_get scenario.json_dumps
                           scenario.frame 5 scenario.text_handler
                           scenario.other_cache scenario.api_request)))
              scenario.api_request [5; 104; 105]
              ltac:(vm_compute; reflexivity) eq_refl eq_refl eq_refl)
    as (content_type & r1' & Hreplay & _ & Hct & _ & Htype & Hgzip).
  exists r1'. split; [exact Hreplay|]. split; [|exact Hgzip].
  rewrite Htype, Hct. vm_compute. reflexivity.
Defined.

(** The failing handler on a cache that holds an entry of another
    tenant. *)
Lemma decorator_cache_get_error_not_cached_witness :
  fst (fst (apicache.decorator_cache_get scenario.json_dumps scenario.frame
              5 scenario.failing_handler scenario.other_cache
              scenario.api_request))
  = scenario.other_cache
  /\ apicache.get scenario.other_cache 1 "/x" "en" = None.
Proof.
  apply (decorator_cache_get_error_not_cached scenario.frame
           scenario.json_dumps 5 scenario.failing_handler
           scenario.other_cache _ scenario.api_request
           (snd (fst (apicache.decorator_cache_get scenario.json_dumps
                        scenario.frame 5 scenario.failing_handler
                        scenario.other_cache scenario.api_request)))
           ValueError).
  vm_compute. reflexivity.
Defined.

(** The JSON handler had set [text/html]; the entry is stored as
    [application/json]. *)
Lemma decorator_cache_get_content_type_witness :
  apicache.get
    (fst (fst (apicache.decorator_cache_get scenario.json_dumps
                 scenario.frame 5 scenario.json_handler
                 scenario.other_cache scenario.api_request)))
    1 "/x" "en"
  = Some ("application/json"%string, [5; 123; 125])
  /\ apicache.responseHeaders
       (snd (fst (apicache.decorator_cache_get scenario.json_dumps
                    scenario.frame 5 scenario.json_handler
                    scenario.other_cache scenario.api_request)))
     !! "content-encoding"%string = Some "gzip"%string.
Proof.
  apply (decorator_cache_get_content_type scenario.frame scenario.json_dumps
           5 scenario.json_handler scenario.other_cache _
           scenario.api_request _ [5; 123; 125]
           (<["content-type"%string := "text/html"%string]> ∅)
           (apicache.JsonValue tt)).
  - vm_compute. reflexivity.
  - reflexivity.
  - vm_compute. reflexivity.
Defined.

(** ** Utilities *)

Section Utilities.

Import utility.

Lemma msdos_encode_head (c : ascii) (s : string) :
  Ascii.eqb c LF = false ->
  exists t, msdos_encode (String c s) = String c t.
Proof.
  intros Hc. cbn [msdos_encode]. rewrite Hc.
  destruct (Ascii.eqb c CR) eqn:Hcr.
  - apply Ascii.eqb_eq in Hcr. subst c.
    destruct s as [|c' s']; [eauto|].
    destruct (Ascii.eqb c' LF); eauto.
  - eauto.
Qed.

Lemma crlf_only_after_cr (c : ascii) (t : string) :
  Ascii.eqb c LF = false ->
  crlf_only (String CR (String c t)) = crlf_only (String c t).
Proof.
  intros Hc. cbn [crlf_only]. rewrite Ascii.eqb_refl. now rewrite Hc.
Qed.

Lemma msdos_encode_facts (n : nat) : forall s,
  (String.length s <= n)%nat ->
  crlf_only (msdos_encode s) = true
  /\ (crlf_only s = true -> msdos_encode s = s).
Proof.
  induction n as [|n IH]; intros s Hlen.
  { destruct s; [split; reflexivity|cbn in Hlen; lia]. }
  destruct s as [|c s']; [split; reflexivity|].
  cbn [String.length] in Hlen.
  destruct (IH s' ltac:(lia)) as [IH1 IH2].
  cbn [msdos_encode crlf_only].
  destruct (Ascii.eqb c CR) eqn:Hcr.
  - apply Ascii.eqb_eq in Hcr. subst c.
    destruct s' as [|c' s'']; [split; reflexivity|].
    destruct (Ascii.eqb c' LF) eqn:Hlf.
    + cbn [String.length] in Hlen.
      destruct (IH s'' ltac:(lia)) as [IH1' IH2'].
      split.
      * cbn [crlf_only]. now rewrite !Ascii.eqb_refl.
      * intros Hs. apply Ascii.eqb_eq in Hlf. subst c'.
        now rewrite (IH2' Hs).
    + destruct (msdos_encode_head c' s'' Hlf) as [t Ht].
      split.
      * rewrite Ht, crlf_only_after_cr by exact Hlf. now rewrite <- Ht.
      * intros Hs. now rewrite (IH2 Hs).
  - destruct (Ascii.eqb c LF) eqn:Hlf.
    + split; [|discriminate].
      cbn [crlf_only]. now rewrite !Ascii.eqb_refl.
    + split.
      * cbn [crlf_only]. now rewrite Hcr, Hlf.
      * intros Hs. now rewrite (IH2 Hs).
Qed.

Lemma crlf_only_no_lf (s : string) :
  contains LF s = false -> crlf_only s = true.
Proof.
  induction s as [|c s' IH]; [reflexivity|].
  cbn [contains]. intros H. apply orb_false_iff in H as [Hc Hs].
  cbn [crlf_only]. rewrite Hc.
  destruct (Ascii.eqb c CR); [|now apply IH].
  destruct s' as [|c' s'']; [reflexivity|].
  pose proof Hs as Hs0.
  cbn [contains] in Hs. apply orb_false_iff in Hs as [Hc' Hs'].
  rewrite Hc'. now apply IH.
Qed.

(** X15: in the string [msdos_encode] returns every line feed follows a
    carriage return of its own; encoding a second time changes nothing;
    and a string that already has this form, in particular one without
    line feeds, is returned as it is. *)
Theorem msdos_encode_normalizes (s : string) :
  crlf_only (msdos_encode s) = true
  /\ msdos_encode (msdos_encode s) = msdos_encode s
  /\ (crlf_only s = true -> msdos_encode s = s)
  /\ (contains LF s = false -> msdos_encode s = s).
Proof.
  destruct (msdos_encode_facts (String.length s) s (Nat.le_refl _)) as [H1 H2].
  split; [exact H1|]. split; [|split; [exact H2|]].
  - exact (proj2 (msdos_encode_facts _ (msdos_encode s) (Nat.le_refl _)) H1).
  - intros H. apply H2. now apply crlf_only_no_lf.
Qed.

Section SumDicts.

Context `{Countable K} {V : Type}.

Lemma assign_items (ret d : gmap K V) :
  map_fold (fun k v ret => <[k := v]> ret) ret d = d ∪ ret.
Proof.
  apply (map_fold_weak_ind (fun r m => r = m ∪ ret)).
  - now rewrite (left_id_L ∅ (∪)).
  - intros k v m r Hk ->. now rewrite insert_union_l.
Qed.

Lemma sum_dicts_from (dicts : list (gmap K V)) : forall (ret : gmap K V) k,
  fold_left
    (fun (ret d : gmap K V) =>
       map_fold (fun k v (ret : gmap K V) => <[k := v]> ret) ret d) dicts ret
  !! k
  = match fold_left
            (fun (ret d : gmap K V) =>
               map_fold (fun k v (ret : gmap K V) => <[k := v]> ret) ret d)
            dicts (∅ : gmap K V) !! k with
    | Some v => Some v
    | None => ret !! k
    end.
Proof.
  induction dicts as [|d dicts IH]; intros ret k; cbn [fold_left].
  - now rewrite lookup_empty.
  - rewrite (IH (map_fold _ ret d)), (IH (map_fold _ ∅ d)).
    destruct (fold_left _ dicts ∅ !! k); [reflexivity|].
    rewrite !assign_items, !lookup_union, lookup_empty.
    now destruct (d !! k), (ret !! k).
Qed.

(** X16: in the dictionary [sum_dicts] returns a key has the value of
    the last argument that holds it, and is absent when no argument
    holds it. *)
Theorem sum_dicts_lookup (dicts : list (gmap K V)) (k : K) :
  (forall earlier d later v,
      dicts = earlier ++ d :: later ->
      d !! k = Some v ->
      Forall (fun d' : gmap K V => d' !! k = None) later ->
      sum_dicts dicts !! k = Some v)
  /\ (Forall (fun d : gmap K V => d !! k = None) dicts ->
      sum_dicts dicts !! k = None).
Proof.
  assert (Hnone : forall l : list (gmap K V),
             Forall (fun d : gmap K V => d !! k = None) l ->
             sum_dicts l !! k = None).
  { unfold sum_dicts. induction l as [|d l IH]; intros Hl.
    - apply lookup_empty.
    - inversion Hl as [|? ? Hd Hl']; subst. cbn [fold_left].
      rewrite sum_dicts_from, (IH Hl').
      now rewrite assign_items, lookup_union, Hd, lookup_empty. }
  split; [|apply Hnone].
  intros earlier d later v -> Hd Hlater. unfold sum_dicts.
  rewrite fold_left_app. cbn [fold_left].
  rewrite sum_dicts_from. fold (sum_dicts later). rewrite (Hnone _ Hlater).
  rewrite assign_items, lookup_union, Hd.
  now destruct (fold_left _ earlier ∅ !! k).
Qed.

End SumDicts.

End Utilities.

(** ** ISO weeks *)

Section IsoWeeks.

Import utility.

Lemma iso_year_start_value (y : Z) :
  1000 <= y <= 9999 ->
  iso_year_start y
  = Return (days_before_year y + 4
            - (isoweekday (days_before_year y + 4) - 1)).
Proof.
  intros Hy. unfold iso_year_start.
  assert (H1 : (1000 <=? y) = true) by (apply Z.leb_le; lia).
  assert (H2 : (y <=? 9999) = true) by (apply Z.leb_le; lia).
  now rewrite H1, H2.
Qed.

Lemma iso_year_start_out_of_range (y : Z) :
  ~ 1000 <= y <= 9999 -> iso_year_start y = Raise ValueError.
Proof.
  intros Hy. unfold iso_year_start.
  destruct (1000 <=? y) eqn:E1; [|reflexivity].
  destruct (y <=? 9999) eqn:E2; [|reflexivity].
  apply Z.leb_le in E1, E2. lia.
Qed.

Lemma week1monday_of_fourth_jan (j : Z) :
  j - (isoweekday j - 1)
  = (if 3 <? (j - 3 + 6) mod 7
     then j - 3 - (j - 3 + 6) mod 7 + 7
     else j - 3 - (j - 3 + 6) mod 7)
  /\ isoweekday (j - (isoweekday j - 1)) = 1
  /\ j - 6 <= j - (isoweekday j - 1) <= j.
Proof.
  unfold isoweekday.
  assert (Hm : (j - (if j mod 7 =? 0 then 7 else j mod 7) + 1) mod 7 = 1).
  { destruct (j mod 7 =? 0) eqn:E0;
      [apply Z.eqb_eq in E0|apply Z.eqb_neq in E0];
      Z.to_euclidean_division_equations; lia. }
  replace (j - ((if j mod 7 =? 0 then 7 else j mod 7) - 1))
    with (j - (if j mod 7 =? 0 then 7 else j mod 7) + 1) by lia.
  rewrite Hm. change (1 =? 0) with false. cbn iota.
  split; [|split; [reflexivity|]].
  - destruct (Z.ltb_spec 3 ((j - 3 + 6) mod 7));
      destruct (Z.eqb_spec (j mod 7) 0);
      Z.to_euclidean_division_equations; lia.
  - destruct (j mod 7 =? 0) eqn:E0;
      [apply Z.eqb_eq in E0|apply Z.eqb_neq in E0];
      Z.to_euclidean_division_equations; lia.
Qed.

(** X17: for a year from 1000 to 9999 [iso_year_start] returns the
    Monday on or before the fourth of January, which is the Monday of
    ISO week 1 as Python's [isocalendar] defines it; any other integer
    year raises [ValueError], the year being read back with four
    digits. *)
Theorem iso_year_start_week1monday (y : Z) :
  (1000 <= y <= 9999 ->
   exists monday,
     iso_year_start y = Return monday
     /\ isoweekday monday = 1
     /\ days_before_year y + 4 - 6 <= monday <= days_before_year y + 4
     /\ monday = isoweek1monday y)
  /\ (~ 1000 <= y <= 9999 -> iso_year_start y = Raise ValueError).
Proof.
  split.
  - intros Hy. rewrite (iso_year_start_value y Hy).
    destruct (week1monday_of_fourth_jan (days_before_year y + 4))
      as (Heq & Hmon & Hrange).
    eexists. split; [reflexivity|]. split; [exact Hmon|].
    split; [lia|]. rewrite Heq. unfold isoweek1monday.
    replace (days_before_year y + 4 - 3) with (days_before_year y + 1) by lia.
    reflexivity.
  - intros Hy. unfold iso_year_start.
    destruct (1000 <=? y) eqn:E1; [|reflexivity].
    destruct (y <=? 9999) eqn:E2; [|reflexivity].
    apply Z.leb_le in E1, E2. lia.
Qed.

(** X18: a date [iso_to_gregorian] returns for a day number from 1 to 7
    has that ISO weekday and lies in the week asked for, counted from
    the Monday of ISO week 1 of the year, so that the week and day
    [isocalendar] computes from that Monday are the ones passed in; and
    for the years 1000 to 9998, weeks 1 to 53 and days 1 to 7 a date is
    returned. *)
Theorem iso_to_gregorian_week_and_day (y w d : Z) :
  (forall date,
      iso_to_gregorian y w d = Return date ->
      1 <= d <= 7 ->
      isoweekday date = d
      /\ (date - isoweek1monday y) / 7 = w - 1
      /\ (date - isoweek1monday y) mod 7 = d - 1
      /\ 1 <= date <= 3652059)
  /\ (1000 <= y <= 9998 -> 1 <= w <= 53 -> 1 <= d <= 7 ->
      exists date, iso_to_gregorian y w d = Return date).
Proof.
  split.
  - intros date Hret Hd. unfold iso_to_gregorian in Hret.
    destruct (Z_le_dec 1000 y) as [Hy1|Hy1];
      [destruct (Z_le_dec y 9999) as [Hy2|Hy2]|].
    2,3: rewrite (iso_year_start_out_of_range y ltac:(lia)) in Hret;
         discriminate.
    rewrite (iso_year_start_value y (conj Hy1 Hy2)) in Hret.
    cbn [mbind result_bind] in Hret.
    destruct (week1monday_of_fourth_jan (days_before_year y + 4))
      as (Heq & Hmon & Hrange).
    set (monday := days_before_year y + 4
                   - (isoweekday (days_before_year y + 4) - 1)) in *.
    assert (Hw1 : monday = isoweek1monday y).
    { rewrite Heq. unfold isoweek1monday.
      replace (days_before_year y + 4 - 3)
        with (days_before_year y + 1) by lia.
      reflexivity. }
    destruct (999999999 <? Z.abs (d - 1 + 7 * (w - 1))); [discriminate|].
    destruct ((1 <=? monday + (d - 1 + 7 * (w - 1)))
              && (monday + (d - 1 + 7 * (w - 1)) <=? 3652059)) eqn:Er;
      [|discriminate].
    injection Hret as <-. apply andb_true_iff in Er as [Er1 Er2].
    apply Z.leb_le in Er1, Er2. rewrite <- Hw1.
    unfold isoweekday in *.
    destruct (monday mod 7 =? 0) eqn:E0;
      [apply Z.eqb_eq in E0; lia|].
    repeat split; try lia.
    + destruct ((monday + (d - 1 + 7 * (w - 1))) mod 7 =? 0) eqn:E7;
        [apply Z.eqb_eq in E7|apply Z.eqb_neq in E7];
        Z.to_euclidean_division_equations; lia.
    + Z.to_euclidean_division_equations; lia.
    + Z.to_euclidean_division_equations; lia.
  - intros Hy Hw Hd. unfold iso_to_gregorian.
    rewrite (iso_year_start_value y ltac:(lia)). cbn [mbind result_bind].
    destruct (week1monday_of_fourth_jan (days_before_year y + 4))
      as (_ & _ & Hrange).
    set (monday := days_before_year y + 4
                   - (isoweekday (days_before_year y + 4) - 1)) in *.
    assert (Hdby : 364000 <= days_before_year y <= 3651329).
    { unfold days_before_year. Z.to_euclidean_division_equations; lia. }
    assert (Ha : (999999999 <? Z.abs (d - 1 + 7 * (w - 1))) = false)
      by (apply Z.ltb_ge; lia).
    rewrite Ha.
    assert (Hb : (1 <=? monday + (d - 1 + 7 * (w - 1))) = true)
      by (apply Z.leb_le; lia).
    assert (Hc : (monday + (d - 1 + 7 * (w - 1)) <=? 3652059) = true)
      by (apply Z.leb_le; lia).
    rewrite Hb, Hc. cbn. eauto.
Qed.

End IsoWeeks.

(** The first ISO week of 2020 starts on Monday 30 December 2019, and
    Wednesday of week 10 of 2020 exists. *)
Lemma iso_year_start_week1monday_witness :
  exists monday,
    utility.iso_year_start 2020 = Return monday
    /\ utility.isoweekday monday = 1
    /\ utility.days_before_year 2020 + 4 - 6 <= monday
       <= utility.days_before_year 2020 + 4
    /\ monday = utility.isoweek1monday 2020.
Proof.
  apply (proj1 (iso_year_start_week1monday 2020)). lia.
Defined.

Lemma iso_to_gregorian_week_and_day_witness :
  exists date, utility.iso_to_gregorian 2020 10 3 = Return date.
Proof.
  apply (proj2 (iso_to_gregorian_week_and_day 2020 10 3)); lia.
Defined.

(** ** The networks of the allow-list *)

Section AllowList.

Import ipaddress utility authentication.

Variable ipv6_int_from_string : string -> option Z.
Hypothesis ipv6_int_from_string_range :
  forall s ip, ipv6_int_from_string s = Some ip -> 0 <= ip < 2 ^ 128.

Lemma split_not_nil (sep : ascii) (s : string) : split sep s <> [].
Proof.
  destruct s as [|c s]; cbn; [discriminate|].
  destruct (Ascii.eqb c sep); [discriminate|].
  destruct (split sep s); discriminate.
Qed.

Lemma prefix_from_prefix_string_range (maxlen : Z) (s : string) (p : Z) :
  prefix_from_prefix_string maxlen s = Some p -> 0 <= p <= maxlen.
Proof.
  unfold prefix_from_prefix_string.
  destruct (negb (isascii_isdigit s)); [discriminate|].
  destruct ((0 <=? int_of_digits s) && (int_of_digits s <=? maxlen)) eqn:E;
    [|discriminate].
  intros [= <-]. apply andb_true_iff in E as [E1 E2].
  apply Z.leb_le in E1, E2. lia.
Qed.

Lemma prefix_from_ip_int_range (x p : Z) :
  prefix_from_ip_int 32 x = Some p -> 0 <= p <= 32.
Proof.
  unfold prefix_from_ip_int.
  destruct (negb _); [discriminate|]. intros [= <-].
  unfold count_righthand_zero_bits, bit_length.
  destruct (x =? 0); [lia|].
  destruct (Z.land (Z.lnot x) (x - 1) =? 0); [lia|].
  pose proof (Z.log2_nonneg (Z.land (Z.lnot x) (x - 1))). lia.
Qed.

Lemma prefix_from_ip_string_range (s : string) (p : Z) :
  prefix_from_ip_string s = Some p -> 0 <= p <= 32.
Proof.
  unfold prefix_from_ip_string.
  destruct (ipv4_int_from_string s) as [x|]; [|discriminate].
  destruct (prefix_from_ip_int 32 x) as [q|] eqn:E.
  - intros [= <-]. now apply prefix_from_ip_int_range in E.
  - apply prefix_from_ip_int_range.
Qed.

Lemma check_host_bits_strict (n n' : IPNetwork) :
  check_host_bits true n = Network n' ->
  n' = n
  /\ Z.land (ip_int (network_address n)) (netmask n)
     = ip_int (network_address n).
Proof.
  unfold check_host_bits.
  destruct (Z.eqb_spec (Z.land (ip_int (network_address n)) (netmask n))
              (ip_int (network_address n))) as [E|E]; cbn [negb];
    [|discriminate].
  intros [= <-]. auto.
Qed.

Lemma IPv4Network_canonical (s : string) (n : IPNetwork) :
  IPv4Network s true = Network n -> canonical n.
Proof.
  unfold IPv4Network.
  destruct (split "/" s) as [|addr [|mask [|]]]; try discriminate.
  - destruct (ipv4_int_from_string addr) as [ip|] eqn:Hip; [|discriminate].
    intros H. apply check_host_bits_strict in H as [-> Hbits].
    apply ipv4_int_from_string_range in Hip.
    unfold canonical. cbn in *. repeat split; try lia; try exact Hbits.
  - destruct (ipv4_int_from_string addr) as [ip|] eqn:Hip; [|discriminate].
    destruct (match prefix_from_prefix_string 32 mask with
              | Some prefixlen => Some prefixlen
              | None => prefix_from_ip_string mask
              end) as [p|] eqn:Hp; [|discriminate].
    intros H. apply check_host_bits_strict in H as [-> Hbits].
    apply ipv4_int_from_string_range in Hip.
    assert (0 <= p <= 32).
    { destruct (prefix_from_prefix_string 32 mask) as [q|] eqn:Hq.
      - injection Hp as <-. now apply prefix_from_prefix_string_range in Hq.
      - now apply prefix_from_ip_string_range in Hp. }
    unfold canonical. cbn in *. repeat split; try lia; try exact Hbits.
Qed.

Lemma IPv6Network_canonical (s : string) (n : IPNetwork) :
  IPv6Network ipv6_int_from_string s true = Network n -> canonical n.
Proof.
  unfold IPv6Network.
  destruct (split "/" s) as [|addr [|mask [|]]]; try discriminate.
  - destruct (ipv6_int_from_string addr) as [ip|] eqn:Hip; [|discriminate].
    intros H. apply check_host_bits_strict in H as [-> Hbits].
    apply ipv6_int_from_string_range in Hip.
    unfold canonical. cbn in *. repeat split; try lia; try exact Hbits.
  - destruct (ipv6_int_from_string addr) as [ip|] eqn:Hip; [|discriminate].
    destruct (prefix_from_prefix_string 128 mask) as [p|] eqn:Hp;
      [|discriminate].
    intros H. apply check_host_bits_strict in H as [-> Hbits].
    apply ipv6_int_from_string_range in Hip.
    apply prefix_from_prefix_string_range in Hp.
    unfold canonical. cbn in *. repeat split; try lia; try exact Hbits.
Qed.

Lemma ip_network_canonical (s : string) (n : IPNetwork) :
  ip_network ipv6_int_from_string s true = Return n -> canonical n.
Proof.
  unfold ip_network.
  destruct (IPv4Network s true) as [n4| |] eqn:H4; try discriminate.
  - intros [= <-]. now apply IPv4Network_canonical in H4.
  - destruct (IPv6Network ipv6_int_from_string s true) as [n6| |] eqn:H6;
      try discriminate.
    intros [= <-]. now apply IPv6Network_canonical in H6.
Qed.

Lemma parse_ip_network_str_canonical (s : string) (n : IPNetwork) :
  parse_ip_network_str ipv6_int_from_string s = Return n -> canonical n.
Proof.
  unfold parse_ip_network_str.
  destruct (contains "/" s); [apply ip_network_canonical|].
  destruct (ip_address ipv6_int_from_string s) as [a|e]; [|discriminate].
  cbn. apply ip_network_canonical.
Qed.

Lemma parse_loop_canonical (pieces : list string) : forall acc nets,
  parse_loop ipv6_int_from_string pieces acc = Return nets ->
  length nets = (length acc + length pieces)%nat
  /\ (Forall canonical acc -> Forall canonical nets).
Proof.
  induction pieces as [|p pieces IH]; intros acc nets; cbn [parse_loop].
  - intros [= <-]. split; [cbn; lia|auto].
  - destruct (parse_ip_network_str ipv6_int_from_string p) as [n|e] eqn:Hp.
    + intros H. apply IH in H as [Hlen Hcan]. split.
      * rewrite Hlen, length_app. cbn. lia.
      * intros Hacc. apply Hcan. apply Forall_app. split; [exact Hacc|].
        constructor; [|constructor].
        now apply parse_ip_network_str_canonical in Hp.
    + destruct e; discriminate.
Qed.

(** X19: when [parse_csv_ip_ranges_to_ip_networks] returns, it returns
    one network for each piece between the commas, hence never an empty
    list, and every network is in canonical form: its prefix length is
    within the size of the address and its address has no host bits
    set. *)
Theorem parse_csv_ip_ranges_to_ip_networks_canonical
    (ip_str : string) (nets : list IPNetwork) :
  parse_csv_ip_ranges_to_ip_networks ipv6_int_from_string ip_str
  = Return nets ->
  length nets = length (split "," ip_str)
  /\ nets <> []
  /\ Forall canonical nets.
Proof.
  unfold parse_csv_ip_ranges_to_ip_networks. intros H.
  apply parse_loop_canonical in H as [Hlen Hcan]. cbn in Hlen.
  split; [exact Hlen|]. split; [|apply Hcan; constructor].
  intros ->. cbn in Hlen. symmetry in Hlen.
  apply length_zero_iff_nil in Hlen. now apply split_not_nil in Hlen.
Qed.

Lemma host_network_contains_iff (a c : IPAddress) :
  0 <= ip_int c < 2 ^ max_prefixlen c ->
  network_contains {| network_address := a; prefixlen := max_prefixlen a |} c
  = true <-> c = a.
Proof.
  intros Hc. unfold network_contains, netmask. cbn [network_address prefixlen].
  split.
  - destruct (Z.eqb_spec (version a) (version c)) as [Hv|Hv]; cbn [negb];
      [|discriminate].
    assert (Hmax : max_prefixlen a = max_prefixlen c).
    { destruct a, c; cbn in Hv |- *; congruence. }
    rewrite netmask_full by (destruct a; cbn; lia).
    rewrite Hmax, Z.land_ones by (destruct c; cbn; lia).
    rewrite Z.mod_small by exact Hc.
    intros E. apply Z.eqb_eq in E.
    destruct a, c; cbn in *; congruence.
  - intros ->. rewrite Z.eqb_refl. cbn [negb].
    rewrite netmask_full by (destruct a; cbn; lia).
    rewrite Z.land_ones by (destruct a; cbn; lia).
    rewrite Z.mod_small by exact Hc. apply Z.eqb_refl.
Qed.

(** X20: when the configured list is one bare address, the location
    check of [login] admits a client exactly when its address is that
    address or a loopback address. *)
Theorem bare_address_admits_itself (tenant : TenantState)
    (client_ip : string) (a c : IPAddress) :
  contains "," (ip_filter_authenticated tenant) = false ->
  contains "/" (ip_filter_authenticated tenant) = false ->
  ip_address ipv6_int_from_string (ip_filter_authenticated tenant)
  = Return a ->
  ip_address ipv6_int_from_string client_ip = Return c ->
  (check_access_location ipv6_int_from_string tenant client_ip = Return ()
   <-> is_loopback c = true \/ c = a).
Proof.
  intros Hcomma Hslash Ha Hc.
  rewrite check_access_location_eq.
  unfold parse_csv_ip_ranges_to_ip_networks.
  rewrite (split_no_sep _ _ Hcomma). cbn [parse_loop].
  rewrite (parse_ip_network_str_spec _ ipv6_int_from_string_range).
  unfold spec_entry_network. rewrite Hslash, Ha. cbn [app mbind result_bind].
  rewrite Hc. cbn [mbind result_bind existsb]. rewrite orb_false_r.
  pose proof (ip_address_range _ ipv6_int_from_string_range _ _ Hc) as Hrange.
  pose proof (host_network_contains_iff a c Hrange) as Hiff.
  destruct (is_loopback c); cbn [orb].
  - split; auto.
  - destruct (network_contains _ c).
    + split; [intros _; right; now apply Hiff|reflexivity].
    + split; [discriminate|].
      intros [H|H]; [discriminate|]. apply Hiff in H. discriminate.
Qed.

End AllowList.

Lemma scenario_ipv6_int_from_string_range (s : string) (ip : Z) :
  scenario.ipv6_int_from_string s = Some ip -> 0 <= ip < 2 ^ 128.
Proof.
  unfold scenario.ipv6_int_from_string.
  destruct (String.eqb s "::1"); [|discriminate].
  intros [= <-]. split; [lia|reflexivity].
Qed.

(** A list of an IPv4 network and the IPv6 loopback address. *)
Lemma parse_csv_ip_ranges_to_ip_networks_canonical_witness :
  length [ {| ipaddress.network_address := ipaddress.IPv4Address 167772160;
              ipaddress.prefixlen := 8 |};
           {| ipaddress.network_address := ipaddress.IPv6Address 1;
              ipaddress.prefixlen := 128 |} ]
  = length (split "," "10.0.0.0/8,::1")
  /\ [ {| ipaddress.network_address := ipaddress.IPv4Address 167772160;
          ipaddress.prefixlen := 8 |};
       {| ipaddress.network_address := ipaddress.IPv6Address 1;
          ipaddress.prefixlen := 128 |} ] <> []
  /\ Forall ipaddress.canonical
       [ {| ipaddress.network_address := ipaddress.IPv4Address 167772160;
            ipaddress.prefixlen := 8 |};
         {| ipaddress.network_address := ipaddress.IPv6Address 1;
            ipaddress.prefixlen := 128 |} ].
Proof.
  apply (parse_csv_ip_ranges_to_ip_networks_canonical
           scenario.ipv6_int_from_string
           scenario_ipv6_int_from_string_range "10.0.0.0/8,::1").
  vm_compute. reflexivity.
Defined.

(** The list is the one address 10.0.0.1 and the client comes from
    it. *)
Lemma bare_address_admits_itself_witness :
  authentication.check_access_location scenario.ipv6_int_from_string
    (scenario.tenant true "10.0.0.1") "10.0.0.1" = Return ()
  <-> ipaddress.is_loopback (ipaddress.IPv4Address 167772161) = true
      \/ ipaddress.IPv4Address 167772161 = ipaddress.IPv4Address 167772161.
Proof.
  apply (bare_address_admits_itself scenario.ipv6_int_from_string
           scenario_ipv6_int_from_string_range
           (scenario.tenant true "10.0.0.1") "10.0.0.1").
  - reflexivity.
  - reflexivity.
  - reflexivity.
  - reflexivity.
Defined.

(** ** Shutdown and its stop collection *)

Section StopCollection.

Import backend.

Lemma DeferredList_None_from (ds : list (option Z)) :
  fold_left
    (fun fired d =>
       match fired, d with
       | Some t, Some t' => Some (Z.max t t')
       | _, _ => None
       end) ds None = None.
Proof. induction ds as [|d ds IH]; [reflexivity|exact IH]. Qed.

Lemma DeferredList_from (ds : list (option Z)) : forall start,
  0 <= start ->
  fold_left
    (fun fired d =>
       match fired, d with
       | Some t, Some t' => Some (Z.max t t')
       | _, _ => None
       end) ds (Some start)
  = match DeferredList ds with
    | Some t => Some (Z.max start t)
    | None => None
    end.
Proof.
  unfold DeferredList.
  induction ds as [|d ds IH]; intros start Hstart; cbn [fold_left].
  - f_equal. lia.
  - destruct d as [t|].
    + rewrite (IH (Z.max start t)), (IH (Z.max 0 t)) by lia.
      destruct (fold_left _ ds (Some 0)) as [m|]; [|reflexivity].
      f_equal. lia.
    + now rewrite DeferredList_None_from.
Qed.

Lemma DeferredList_cons (d : option Z) (ds : list (option Z)) :
  DeferredList (d :: ds)
  = match d, DeferredList ds with
    | Some t, Some m => Some (Z.max (Z.max 0 t) m)
    | _, _ => None
    end.
Proof.
  unfold DeferredList at 1. cbn [fold_left].
  destruct d as [t|].
  - now rewrite DeferredList_from by lia.
  - rewrite DeferredList_None_from. now destruct (DeferredList ds).
Qed.

Lemma DeferredList_fires_nothing (ds : list (option Z)) :
  In None ds <-> DeferredList ds = None.
Proof.
  induction ds as [|d ds IH].
  - split; [intros []|discriminate].
  - rewrite DeferredList_cons. destruct d as [t|].
    + destruct (DeferredList ds) as [m|].
      * split; [|discriminate]. intros [H|H]; [discriminate|].
        apply IH in H. discriminate.
      * split; [reflexivity|]. intros _. right. now apply IH.
    + split; [reflexivity|]. intros _. now left.
Qed.

(** X21: the [DeferredList] of [stop_jobs] fires exactly when every
    stop in it has fired: one stop that never fires keeps it from
    firing; when it fires, no stop fires later than it, and it fires at
    once or together with one of the stops. *)
Theorem DeferredList_fires_with_last (ds : list (option Z)) :
  (DeferredList ds = None <-> In None ds)
  /\ (forall t,
        DeferredList ds = Some t ->
        Forall (fun d => exists t', d = Some t' /\ t' <= t) ds
        /\ (t = 0 \/ In (Some t) ds)).
Proof.
  induction ds as [|d ds [IHn IHs]].
  - split; [split; [discriminate|intros []]|].
    intros t [= <-]. split; [constructor|auto].
  - rewrite DeferredList_cons. split.
    + destruct d as [t|].
      * destruct (DeferredList ds) as [m|] eqn:Hm.
        -- split; [discriminate|]. intros [H|H]; [discriminate|].
           apply IHn in H. discriminate.
        -- split; [|reflexivity]. intros _. right. now apply IHn.
      * split; [|reflexivity]. intros _. now left.
    + intros t Ht. destruct d as [t0|]; [|discriminate].
      destruct (DeferredList ds) as [m|] eqn:Hm; [|discriminate].
      injection Ht as <-. destruct (IHs m eq_refl) as [Hall Hlast].
      split.
      * constructor; [exists t0; split; [reflexivity|lia]|].
        eapply Forall_impl; [exact Hall|].
        intros x (t' & -> & Hle). exists t'. split; [reflexivity|lia].
      * destruct (Z.max_spec (Z.max 0 t0) m) as [[_ E]|[_ E]]; rewrite E.
        -- destruct Hlast as [->|Hin]; [now left|right; now right].
        -- destruct (Z.max_spec 0 t0) as [[_ E2]|[_ E2]]; rewrite E2;
             [right; now left|now left].
Qed.

(** The service after [shutdown] and the reactor's calls, in closed
    form. *)
Lemma shutdown_and_run_eq (now : Z) (jobs services : list (option Z))
    (jobs_monitor : option (option Z)) (self : Service) :
  shutdown_and_run now jobs services jobs_monitor self
  = finalize (now + first_trigger jobs services jobs_monitor)
      {| _shutdown := _shutdown self;
         orm_tp_stop_calls := orm_tp_stop_calls self;
         d_callback_calls := d_callback_calls self;
         process_supervisor_shutdown := true |}.
Proof.
  unfold shutdown_and_run, shutdown, first_trigger. cbn [schedule].
  destruct (stop_jobs jobs services jobs_monitor) as [delay|] eqn:Hstop;
    [|now rewrite run_reactor_first].
  pose proof (stop_jobs_nonneg _ _ _ _ Hstop) as Hdelay.
  destruct (delay <=? 0) eqn:E0.
  - apply Z.leb_le in E0. assert (delay = 0) by lia. subst delay.
    rewrite run_reactor_done by apply finalize_sets_flag.
    now rewrite Z.add_0_r.
  - apply Z.leb_gt in E0. cbn [schedule].
    destruct (now + 30 <=? now + delay) eqn:E1.
    + apply Z.leb_le in E1. rewrite run_reactor_first. cbn [fst].
      now replace (Z.min delay 30) with 30 by lia.
    + apply Z.leb_gt in E1. rewrite run_reactor_first. cbn [fst].
      now replace (Z.min delay 30) with delay by lia.
Qed.

(** X22: whatever the jobs do, [shutdown] of a service that has not
    shut down yet stops the thread pool and fires its deferred within 30
    seconds of the call, and tells the process supervisor to shut down;
    with a job, service or monitor whose stop never fires this happens
    at the 30 seconds exactly. *)
Theorem shutdown_within_thirty_seconds (now : Z)
    (jobs services : list (option Z)) (jobs_monitor : option (option Z))
    (self : Service) :
  _shutdown self = false ->
  exists t,
    now <= t <= now + 30
    /\ orm_tp_stop_calls (shutdown_and_run now jobs services jobs_monitor self)
       = orm_tp_stop_calls self ++ [t]
    /\ d_callback_calls (shutdown_and_run now jobs services jobs_monitor self)
       = d_callback_calls self ++ [t]
    /\ process_supervisor_shutdown
         (shutdown_and_run now jobs services jobs_monitor self) = true
    /\ (In None jobs \/ In None services \/ jobs_monitor = Some None ->
        t = now + 30).
Proof.
  intros Hflag. rewrite shutdown_and_run_eq.
  unfold finalize. cbn [_shutdown]. rewrite Hflag.
  cbn [orm_tp_stop_calls d_callback_calls process_supervisor_shutdown].
  exists (now + first_trigger jobs services jobs_monitor).
  unfold first_trigger.
  destruct (stop_jobs jobs services jobs_monitor) as [delay|] eqn:Hstop.
  - pose proof (stop_jobs_nonneg _ _ _ _ Hstop).
    repeat split; try lia.
    intros Hnever. exfalso. unfold stop_jobs in Hstop.
    assert (Hin : In None
                    (match jobs_monitor with
                     | Some stop => (jobs ++ services) ++ [stop]
                     | None => jobs ++ services
                     end)).
    { destruct Hnever as [Hn|[Hn|Hn]].
      - destruct jobs_monitor; rewrite ?in_app_iff; auto.
      - destruct jobs_monitor; rewrite ?in_app_iff; auto.
      - rewrite Hn, in_app_iff. right. now left. }
    apply (proj1 (DeferredList_fires_nothing _)) in Hin. congruence.
  - repeat split; lia.
Qed.


End StopCollection.

(** Shutdown at clock reading 100 with a job that stops after 5 seconds
    and one that never stops. *)
Lemma shutdown_within_thirty_seconds_witness :
  exists t,
    100 <= t <= 100 + 30
    /\ backend.orm_tp_stop_calls
         (backend.shutdown_and_run 100 [Some 5; None] [] None
            {| backend._shutdown := false; backend.orm_tp_stop_calls := [];
               backend.d_callback_calls := [];
               backend.process_supervisor_shutdown := false |})
       = [] ++ [t]
    /\ backend.d_callback_calls
         (backend.shutdown_and_run 100 [Some 5; None] [] None
            {| backend._shutdown := false; backend.orm_tp_stop_calls := [];
               backend.d_callback_calls := [];
               backend.process_supervisor_shutdown := false |})
       = [] ++ [t]
    /\ backend.process_supervisor_shutdown
         (backend.shutdown_and_run 100 [Some 5; None] [] None
            {| backend._shutdown := false; backend.orm_tp_stop_calls := [];
               backend.d_callback_calls := [];
               backend.process_supervisor_shutdown := false |}) = true
    /\ (In None [Some 5; None] \/ In (None : option Z) []
        \/ (None : option (option Z)) = Some None ->
        t = 100 + 30).
Proof.
  apply (shutdown_within_thirty_seconds 100 [Some 5; None] [] None).
  reflexivity.
Defined.


(** After five failed logins, a wrong password and then the right one:
    both requests sleep. *)
Lemma serve_all_throttle_witness :
  Forall (fun sleeps => exists d, sleeps = [d] /\ 5 <= d <= 42)
    (snd (authentication.serve_all scenario.check_password
            scenario.hash_password scenario.ipv6_int_from_string
            (scenario.tenant_cache true "") scenario.throttled_world
            [authentication.StaffAttempt (fun n => n - 1) 1 "t1"
               scenario.request 0 "alice" "guess";
             authentication.StaffAttempt (fun n => n - 1) 2 "t2"
               scenario.request 0 "alice" "secret"])).
Proof.
  pose proof (serve_all_throttle scenario.check_password
                scenario.hash_password scenario.ipv6_int_from_string
                (scenario.tenant_cache true "")
                [authentication.StaffAttempt (fun n => n - 1) 1 "t1"
                   scenario.request 0 "alice" "guess";
                 authentication.StaffAttempt (fun n => n - 1) 2 "t2"
                   scenario.request 0 "alice" "secret"]
                scenario.throttled_world) as H.
  destruct (authentication.serve_all _ _ _ _ _ _) as [w' slept].
  destruct H as (_ & _ & _ & Hthr). cbn [snd]. apply Hthr.
  - cbn. lia.
  - repeat constructor; cbn; intros; lia.
Defined.

(** Three dictionaries, two of which hold the key 1. *)
Lemma sum_dicts_lookup_witness :
  utility.sum_dicts
    [ ({[ 1 := 10 ]} : gmap Z Z); <[1 := 20]> {[ 2 := 5 ]}; {[ 3 := 1 ]} ]
  !! 1 = Some 20.
Proof.
  apply (proj1 (sum_dicts_lookup
                  [ ({[ 1 := 10 ]} : gmap Z Z); <[1 := 20]> {[ 2 := 5 ]};
                    {[ 3 := 1 ]} ] 1)
           [ ({[ 1 := 10 ]} : gmap Z Z) ] (<[1 := 20]> {[ 2 := 5 ]})
           [ ({[ 3 := 1 ]} : gmap Z Z) ] 20).
  - reflexivity.
  - reflexivity.
  - constructor; [reflexivity|constructor].
Defined.
